(** * expo-healthkit-module: the identifier mapper, the facade, the two native
      query executors and record normalizers, and the background-sync state.

    The development follows the implementation files of the package:
    - [Facade]: the TypeScript entry point (index.ts);
    - [Android]: the Kotlin Health Connect module;
    - [IOS]: the Swift HealthKit module;
    - [Web]: the web fallback module.

    Values that cross the native bridge are untyped dictionaries in the
    source ([[String: Any]] in Swift, [Map<String, Any?>] in Kotlin, plain
    objects in TypeScript); they are modelled by [Any] and [Dict]. *)

From Stdlib Require Import String Ascii List ZArith QArith Bool Lia.
From Stdlib Require Import DecimalString DecimalZ.
Import ListNotations.
Open Scope string_scope.

(* ================================================================== *)
(** ** Bridge values *)

(** A double-precision reading.  The normalizers never compute with the
    readings they forward, so a reading is kept as an exact rational. *)
Definition Double : Type := Q.

#[local] Unset Elimination Schemes.
Inductive Any : Type :=
| ANull
| ABool (b : bool)
| AInt (z : Z)
| ADouble (d : Double)
| AString (s : string)
| AList (l : list Any)
| ADict (d : list (string * Any)).
#[local] Set Elimination Schemes.

Definition Dict : Type := list (string * Any).

Fixpoint lookup {A : Type} (k : string) (d : list (string * A)) : option A :=
  match d with
  | [] => None
  | (k', v) :: d' => if String.eqb k k' then Some v else lookup k d'
  end.

Definition keys {A : Type} (d : list (string * A)) : list string := map fst d.

Definition values {A : Type} (d : list (string * A)) : list A := map snd d.

Definition contains (l : list string) (s : string) : bool :=
  existsb (String.eqb s) l.

(** The error object and the result of a read, shared by all layers. *)
Record HealthDataError : Type := mkError {
  code : string;
  message : string
}.

Record GetHealthDataResult : Type := mkResult {
  success : bool;
  data : list Dict;
  error : option HealthDataError   (* [None] is null / absent *)
}.

Record AuthorizeResult : Type := mkAuthorize {
  auth_success : bool;
  granted : list string;
  denied : list string;
  auth_error : option string
}.

Record BackgroundSyncResult : Type := mkSyncResult {
  sync_success : bool;
  sync_error : option string
}.

Record BackgroundSyncStatus : Type := mkSyncStatus {
  enabled : bool;
  lastSync : option string;
  status_error : option string
}.

Definition failure (c m : string) : GetHealthDataResult :=
  mkResult false [] (Some (mkError c m)).

(** The two failures of the validation of a read request. *)
Definition missing_arguments : GetHealthDataResult :=
  failure "missing_arguments"
    "Missing required options: identifier, startDate, endDate.".

Definition invalid_date : GetHealthDataResult :=
  failure "invalid_date"
    "Dates must be in ISO 8601 format (YYYY-MM-DDTHH:mm:ss.sssZ)".

(** The shape every read result is meant to have: a failed read carries no
    data and a populated error, a successful one carries no error. *)
Definition result_well_formed (r : GetHealthDataResult) : Prop :=
  if success r then error r = None
  else data r = [] /\ error r <> None.

Definition has_error_code (r : GetHealthDataResult) (c : string) : Prop :=
  success r = false /\ data r = [] /\
  exists m, error r = Some (mkError c m).

(** A settled promise. [Exn] is the value a rejected promise or a [throw]
    carries: an [Error] object with its message, or anything else. *)
Inductive Exn : Type :=
| ErrorObject (msg : string)
| OtherThrown.

Inductive Promise (A : Type) : Type :=
| Resolved (a : A)
| Rejected (e : Exn).
Arguments Resolved {A} a.
Arguments Rejected {A} e.

(* ================================================================== *)
(** ** Regular expressions, as far as the facade's date pattern needs them *)

Module RegExp.

Inductive t : Type :=
| Void                      (* matches nothing *)
| Eps                       (* the empty string *)
| Digit                     (* \d *)
| Chr (c : ascii)           (* a literal character *)
| Cat (r1 r2 : t)
| Alt (r1 r2 : t).

(** [r?] *)
Definition Opt (r : t) : t := Alt r Eps.

(** [r{n}] *)
Fixpoint times (n : nat) (r : t) : t :=
  match n with
  | O => Eps
  | S n' => Cat r (times n' r)
  end.

Fixpoint seq (rs : list t) : t :=
  match rs with
  | [] => Eps
  | r :: rs' => Cat r (seq rs')
  end.

(** Without the [u] flag [\d] is exactly the range 0-9. *)
Definition is_digit (c : ascii) : bool :=
  (48 <=? nat_of_ascii c)%nat && (nat_of_ascii c <=? 57)%nat.

Fixpoint nullable (r : t) : bool :=
  match r with
  | Void => false
  | Eps => true
  | Digit => false
  | Chr _ => false
  | Cat r1 r2 => nullable r1 && nullable r2
  | Alt r1 r2 => nullable r1 || nullable r2
  end.

Fixpoint deriv (c : ascii) (r : t) : t :=
  match r with
  | Void => Void
  | Eps => Void
  | Digit => if is_digit c then Eps else Void
  | Chr c' => if Ascii.eqb c c' then Eps else Void
  | Cat r1 r2 =>
      if nullable r1 then Alt (Cat (deriv c r1) r2) (deriv c r2)
      else Cat (deriv c r1) r2
  | Alt r1 r2 => Alt (deriv c r1) (deriv c r2)
  end.

(** [/^r$/.test(s)]: the whole of [s] is matched by [r]. *)
Fixpoint test (r : t) (s : string) : bool :=
  match s with
  | EmptyString => nullable r
  | String c s' => test (deriv c r) s'
  end.

(** The language of a pattern. *)
Inductive Matches : t -> string -> Prop :=
| MEps : Matches Eps ""
| MDigit c : is_digit c = true -> Matches Digit (String c "")
| MChr c : Matches (Chr c) (String c "")
| MCat r1 r2 s1 s2 :
    Matches r1 s1 -> Matches r2 s2 -> Matches (Cat r1 r2) (s1 ++ s2)
| MAltL r1 r2 s : Matches r1 s -> Matches (Alt r1 r2) s
| MAltR r1 r2 s : Matches r2 s -> Matches (Alt r1 r2) s.


Fixpoint literals (r : t) : list ascii :=
  match r with
  | Void => []
  | Eps => []
  | Digit => []
  | Chr c => [c]
  | Cat r1 r2 => (literals r1 ++ literals r2)%list
  | Alt r1 r2 => (literals r1 ++ literals r2)%list
  end.

End RegExp.

(* ================================================================== *)
(** ** The native module, as the facade sees it *)

(** The methods the facade calls on [NativeModule].  [St] is the state the
    native module instance keeps between calls; only the background-sync
    methods touch it. *)
Record NativeModule (St : Type) : Type := mkNativeModule {
  native_authorizeHealthKit : Promise AuthorizeResult;
  native_getHealthData : Dict -> Promise GetHealthDataResult;
  native_registerBackgroundTaskHandler :
    St -> St * Promise BackgroundSyncResult;
  native_enableBackgroundSync :
    Dict -> St -> St * Promise BackgroundSyncResult;
  native_getBackgroundSyncStatus : St -> St * Promise BackgroundSyncStatus;
  native_disableBackgroundSync : St -> St * Promise BackgroundSyncResult
}.
Arguments native_authorizeHealthKit {St} _.
Arguments native_getHealthData {St} _ _.
Arguments native_registerBackgroundTaskHandler {St} _ _.
Arguments native_enableBackgroundSync {St} _ _ _.
Arguments native_getBackgroundSyncStatus {St} _ _.
Arguments native_disableBackgroundSync {St} _ _.

(** A call that went through the bridge. *)
Inductive NativeCall : Type :=
| CallAuthorizeHealthKit
| CallGetHealthData (options : Dict)
| CallRegisterBackgroundTaskHandler
| CallEnableBackgroundSync (options : Dict)
| CallGetBackgroundSyncStatus
| CallDisableBackgroundSync.

(** What running one facade function amounts to: the native calls it made,
    in order, and the promise it returned. *)
Record Run (A : Type) : Type := mkRun {
  native_calls : list NativeCall;
  returned : Promise A
}.
Arguments mkRun {A} _ _.
Arguments native_calls {A} _.
Arguments returned {A} _.

(* ================================================================== *)
(** ** The facade (index.ts) *)

Module Facade.

(** One row of the cross-platform table. *)
Record Mapping : Type := mkMapping {
  ios : string;
  android : string
}.

Definition IDENTIFIER_MAPPING : list (string * Mapping) :=
  [ ("stepCount",
      mkMapping "HKQuantityTypeIdentifierStepCount" "Steps");
    ("heartRate",
      mkMapping "HKQuantityTypeIdentifierHeartRate" "HeartRate");
    ("activeEnergyBurned",
      mkMapping "HKQuantityTypeIdentifierActiveEnergyBurned"
                "ActiveCaloriesBurned");
    ("distanceWalkingRunning",
      mkMapping "HKQuantityTypeIdentifierDistanceWalkingRunning" "Distance");
    ("flightsClimbed",
      mkMapping "HKQuantityTypeIdentifierFlightsClimbed" "FloorsClimbed");
    ("restingHeartRate",
      mkMapping "HKQuantityTypeIdentifierRestingHeartRate"
                "RestingHeartRate");
    ("respiratoryRate",
      mkMapping "HKQuantityTypeIdentifierRespiratoryRate" "RespiratoryRate");
    ("vo2Max",
      mkMapping "HKQuantityTypeIdentifierVO2Max" "Vo2Max");
    ("sleepAnalysis",
      mkMapping "HKCategoryTypeIdentifierSleepAnalysis" "SleepSession");
    ("workout",
      mkMapping "HKWorkoutTypeIdentifier" "ExerciseSession") ].

(** [IDENTIFIER_MAPPING] is an object literal, so a property read that
    misses the own properties continues on [Object.prototype].  These are
    the names every ordinary object inherits; each of them is a function,
    except [__proto__], which is the prototype object itself. *)
Definition Object_prototype : list string :=
  [ "constructor"; "__defineGetter__"; "__defineSetter__";
    "hasOwnProperty"; "__lookupGetter__"; "__lookupSetter__";
    "isPrototypeOf"; "propertyIsEnumerable"; "toString"; "valueOf";
    "__proto__"; "toLocaleString" ].

(** What a property read on the table, and then on its result, can yield. *)
Inductive JSValue : Type :=
| JSUndefined
| JSString (s : string)
| JSMapping (m : Mapping)
| JSInherited (name : string).   (* a member of [Object.prototype] *)

(** [IDENTIFIER_MAPPING[key]] *)
Definition get_mapping (key : string) : JSValue :=
  match lookup key IDENTIFIER_MAPPING with
  | Some m => JSMapping m
  | None =>
      if contains Object_prototype key then JSInherited key else JSUndefined
  end.

(** JavaScript truthiness. *)
Definition truthy (v : JSValue) : bool :=
  match v with
  | JSUndefined => false
  | JSString s => negb (String.eqb s "")
  | JSMapping _ => true
  | JSInherited _ => true
  end.

(** [v.ios] and [v.android] on a value that is not [undefined]: the
    inherited members have neither property. *)
Definition get_ios (v : JSValue) : JSValue :=
  match v with
  | JSMapping m => JSString (ios m)
  | _ => JSUndefined
  end.

Definition get_android (v : JSValue) : JSValue :=
  match v with
  | JSMapping m => JSString (android m)
  | _ => JSUndefined
  end.

(** [getPlatformIdentifier], with [Platform.OS] made an argument. *)
Definition getPlatformIdentifier (OS : string) (crossPlatformId : string)
  : JSValue :=
  let mapping := get_mapping crossPlatformId in
  if negb (truthy mapping) then JSString crossPlatformId
  else if String.eqb OS "ios" then get_ios mapping else get_android mapping.

(** [createHealthDataError] *)
Definition createHealthDataError (code message : string) : HealthDataError :=
  mkError code message.

Definition createUnsupportedPlatformError : GetHealthDataResult :=
  mkResult false []
    (Some (createHealthDataError "permission_denied"
             "Health data is only available on iOS and Android.")).

Definition createExceptionError (error : Exn) : GetHealthDataResult :=
  let message :=
    match error with
    | ErrorObject msg => msg
    | OtherThrown =>
        "An unexpected error occurred while fetching health data."
    end in
  mkResult false [] (Some (createHealthDataError "exception" message)).

(** [authorizeHealthKit] *)
Definition authorizeHealthKit {St} (OS : string) (nm : NativeModule St)
  : Run AuthorizeResult :=
  if String.eqb OS "ios" then
    mkRun [CallAuthorizeHealthKit] (native_authorizeHealthKit nm)
  else if String.eqb OS "android" then
    mkRun [CallAuthorizeHealthKit] (native_authorizeHealthKit nm)
  else
    mkRun []
      (Resolved (mkAuthorize false [] []
         (Some "Health data is only available on iOS and Android."))).

(** [GetHealthDataOptions]; an omitted property reads as [undefined],
    which is [None] here. *)
Record GetHealthDataOptions : Type := mkOptions {
  identifier : option string;
  startDate : option string;
  endDate : option string;
  aggregation : option string;
  limit : option Double;
  ascending : option bool
}.

(** The string a required property holds once the guard on it has passed. *)
Definition the (x : option string) : string :=
  match x with
  | Some s => s
  | None => ""
  end.

(** [!x] on a property of type string: true on [undefined] and on the
    empty string. *)
Definition not_ (x : option string) : bool :=
  match x with
  | None => true
  | Some s => String.eqb s ""
  end.

(** [/^\d{4}-\d{2}-\d{2}T\d{2}:\d{2}:\d{2}(\.\d{3})?Z?$/] *)
Definition dateRegex : RegExp.t :=
  RegExp.seq
    [ RegExp.times 4 RegExp.Digit; RegExp.Chr "-";
      RegExp.times 2 RegExp.Digit; RegExp.Chr "-";
      RegExp.times 2 RegExp.Digit; RegExp.Chr "T";
      RegExp.times 2 RegExp.Digit; RegExp.Chr ":";
      RegExp.times 2 RegExp.Digit; RegExp.Chr ":";
      RegExp.times 2 RegExp.Digit;
      RegExp.Opt (RegExp.Cat (RegExp.Chr ".") (RegExp.times 3 RegExp.Digit));
      RegExp.Opt (RegExp.Chr "Z") ].

Definition startsWith (s prefix : string) : bool := String.prefix prefix s.

(** [x || fallback] where [x] is a property read. *)
Definition or_else (v : JSValue) (fallback : string) : string :=
  match v with
  | JSString s => if String.eqb s "" then fallback else s
  | _ => fallback
  end.

(** [IDENTIFIER_MAPPING[id]?.ios] and [...?.android]: the optional chain
    stops on [undefined] only. *)
Definition opt_ios (v : JSValue) : JSValue :=
  match v with JSUndefined => JSUndefined | _ => get_ios v end.

Definition opt_android (v : JSValue) : JSValue :=
  match v with JSUndefined => JSUndefined | _ => get_android v end.

Definition opt_field {A} (k : string) (f : A -> Any) (x : option A) : Dict :=
  match x with
  | Some a => [(k, f a)]
  | None => []
  end.

(** The identifier the facade hands to the native module. *)
Definition ios_identifier (id : string) : string :=
  if startsWith id "HK" then id
  else or_else (opt_ios (get_mapping id)) id.

Definition android_identifier (id : string) : string :=
  if existsb (fun mapping => String.eqb (android mapping) id)
       (values IDENTIFIER_MAPPING)
  then id
  else or_else (opt_android (get_mapping id)) id.

(** [getHealthData].  The [try] block covers the whole body; the only
    thing that can throw inside it is the awaited native call of the iOS
    branch.  The Android branch returns the native promise without awaiting
    it, so that promise settles the result as it is. *)
Definition getHealthData {St} (OS : string) (nm : NativeModule St)
    (options : GetHealthDataOptions) : Run GetHealthDataResult :=
  if not_ (identifier options) || not_ (startDate options)
     || not_ (endDate options)
  then
    mkRun []
      (Resolved (mkResult false []
         (Some (createHealthDataError "missing_arguments"
            "Missing required options: identifier, startDate, endDate."))))
  else
    let id := the (identifier options) in
    let sd := the (startDate options) in
    let ed := the (endDate options) in
    if negb (RegExp.test dateRegex sd) || negb (RegExp.test dateRegex ed)
    then
      mkRun []
        (Resolved (mkResult false []
           (Some (createHealthDataError "invalid_date"
              "Dates must be in ISO 8601 format (YYYY-MM-DDTHH:mm:ss.sssZ)"))))
    else if String.eqb OS "ios" then
      let healthDataOptions : Dict :=
        ([ ("identifier", AString (ios_identifier id));
           ("startDate", AString sd);
           ("endDate", AString ed) ]
         ++ opt_field "aggregation" AString (aggregation options)
         ++ opt_field "limit" ADouble (limit options)
         ++ opt_field "ascending" ABool (ascending options))%list in
      mkRun [CallGetHealthData healthDataOptions]
        match native_getHealthData nm healthDataOptions with
        | Resolved res => Resolved res
        | Rejected error => Resolved (createExceptionError error)
        end
    else if String.eqb OS "android" then
      let nativeOptions : Dict :=
        ([ ("identifier", AString (android_identifier id));
          ("startDate", AString sd);
          ("endDate", AString ed);
          ("aggregation",
            AString match aggregation options with
                    | Some a => a
                    | None => "raw"
                    end) ]
         ++ opt_field "limit" ADouble (limit options)
         ++ opt_field "ascending" ABool (ascending options))%list in
      mkRun [CallGetHealthData nativeOptions]
        (native_getHealthData nm nativeOptions)
    else
      mkRun [] (Resolved createUnsupportedPlatformError).

(** The background-sync entry points thread the native module's state. *)
Definition unsupported_sync : BackgroundSyncResult :=
  mkSyncResult false
    (Some "Background sync is only available on iOS and Android.").

Definition registerBackgroundTaskHandler {St} (OS : string)
    (nm : NativeModule St) (st : St) : St * Run BackgroundSyncResult :=
  if String.eqb OS "ios" then
    let (st', p) := native_registerBackgroundTaskHandler nm st in
    (st', mkRun [CallRegisterBackgroundTaskHandler] p)
  else if String.eqb OS "android" then
    (st, mkRun [] (Resolved (mkSyncResult true None)))
  else (st, mkRun [] (Resolved unsupported_sync)).

Definition enableBackgroundSync {St} (OS : string) (nm : NativeModule St)
    (options : Dict) (st : St) : St * Run BackgroundSyncResult :=
  if String.eqb OS "ios" then
    let (st', p) := native_enableBackgroundSync nm options st in
    (st', mkRun [CallEnableBackgroundSync options] p)
  else if String.eqb OS "android" then
    let (st', p) := native_enableBackgroundSync nm options st in
    (st', mkRun [CallEnableBackgroundSync options] p)
  else (st, mkRun [] (Resolved unsupported_sync)).

Definition getBackgroundSyncStatus {St} (OS : string) (nm : NativeModule St)
    (st : St) : St * Run BackgroundSyncStatus :=
  if String.eqb OS "ios" then
    let (st', p) := native_getBackgroundSyncStatus nm st in
    (st', mkRun [CallGetBackgroundSyncStatus] p)
  else if String.eqb OS "android" then
    let (st', p) := native_getBackgroundSyncStatus nm st in
    (st', mkRun [CallGetBackgroundSyncStatus] p)
  else
    (st, mkRun []
       (Resolved (mkSyncStatus false None
          (Some "Background sync is only available on iOS and Android.")))).

Definition disableBackgroundSync {St} (OS : string) (nm : NativeModule St)
    (st : St) : St * Run BackgroundSyncResult :=
  if String.eqb OS "ios" then
    let (st', p) := native_disableBackgroundSync nm st in
    (st', mkRun [CallDisableBackgroundSync] p)
  else if String.eqb OS "android" then
    let (st', p) := native_disableBackgroundSync nm st in
    (st', mkRun [CallDisableBackgroundSync] p)
  else (st, mkRun [] (Resolved unsupported_sync)).

(** [getSupportedIdentifiers] *)
Definition getSupportedIdentifiers (OS : string) : list string :=
  if String.eqb OS "ios" then
    [ "HKQuantityTypeIdentifierActiveEnergyBurned";
      "HKQuantityTypeIdentifierAppleExerciseTime";
      "HKQuantityTypeIdentifierAppleStandTime";
      "HKQuantityTypeIdentifierBasalEnergyBurned";
      "HKQuantityTypeIdentifierDistanceCycling";
      "HKQuantityTypeIdentifierDistanceWalkingRunning";
      "HKQuantityTypeIdentifierFlightsClimbed";
      "HKQuantityTypeIdentifierHeartRate";
      "HKQuantityTypeIdentifierHeartRateRecoveryOneMinute";
      "HKQuantityTypeIdentifierHeartRateVariabilitySDNN";
      "HKQuantityTypeIdentifierRespiratoryRate";
      "HKQuantityTypeIdentifierRestingHeartRate";
      "HKQuantityTypeIdentifierStepCount";
      "HKQuantityTypeIdentifierVO2Max";
      "HKCategoryTypeIdentifierSleepAnalysis";
      "HKWorkoutTypeIdentifier" ]
  else
    [ "stepCount"; "heartRate"; "activeEnergyBurned";
      "distanceWalkingRunning"; "flightsClimbed"; "restingHeartRate";
      "respiratoryRate"; "vo2Max"; "sleepAnalysis"; "workout" ].

(** [isValidHealthDataIdentifier] *)
Definition isValidHealthDataIdentifier (OS identifier : string) : bool :=
  let supportedIdentifiers := getSupportedIdentifiers OS in
  contains supportedIdentifiers identifier.

End Facade.

(* ================================================================== *)
(** ** The Android module (Health Connect) *)

Module Android.

Definition Instant : Type := Z.

(** The measures of the Health Connect SDK, each with the reading the
    module takes from it.  A length is one physical quantity that can be
    read in several units. *)
Record Energy : Type := mkEnergy { inKilocalories : Double }.
Record Power : Type := mkPower { inKilocaloriesPerDay : Double }.
Record Percentage : Type := mkPercentage { value : Double }.
Record Mass : Type := mkMass { inKilograms : Double }.
Record Velocity : Type := mkVelocity { inMetersPerSecond : Double }.
Record Length : Type := mkLength { inMeters : Double }.

Definition inKilometers (l : Length) : Double := (inMeters l / 1000)%Q.

(** The record classes keyed in [recordTypeMap]. *)
Inductive RecordClass : Type :=
| ActiveCaloriesBurned | BasalMetabolicRate | BodyFat
| CyclingPedalingCadence | Distance | ElevationGained | ExerciseSession
| FloorsClimbed | HeartRate | LeanBodyMass | OxygenSaturation
| RespiratoryRate | RestingHeartRate | SleepSession | Speed
| StepsCadence | Steps | TotalCaloriesBurned | Vo2Max.

(** A record seen through the fields the module reads.  [OtherRecord] is
    any record class the [when] expressions do not list. *)
Inductive RecordBody : Type :=
| ActiveCaloriesBurnedRecord (energy : Energy)
| BasalMetabolicRateRecord (basalMetabolicRate : Power)
| BodyFatRecord (percentage : Percentage)
| CyclingPedalingCadenceRecord (revolutionsPerMinute : Double)
| DistanceRecord (distance : Length)
| ElevationGainedRecord (elevation : Length)
| FloorsClimbedRecord (floors : Double)
| HeartRateRecord (beatsPerMinute : Z)
| LeanBodyMassRecord (mass : Mass)
| OxygenSaturationRecord (percentage : Percentage)
| RespiratoryRateRecord (rate : Double)
| RestingHeartRateRecord (beatsPerMinute : Z)
| SpeedRecord (speed : Velocity)
| StepsCadenceRecord (rate : Double)
| StepsRecord (count : Z)
| TotalCaloriesBurnedRecord (energy : Energy)
| Vo2MaxRecord (vo2MillilitersPerMinuteKilogram : Double)
| ExerciseSessionRecord (exerciseType_name : string)
| SleepSessionRecord (stages : list (Instant * Instant))
| OtherRecord (className : string).

(** Whether the record is an [InstantaneousRecord], an [IntervalRecord] or
    neither.  A record that is neither is formatted with three readings of
    the clock; they come with the record, in the order of the three calls
    of [Instant.now()]. *)
Inductive Timing : Type :=
| Instantaneous (time : Instant)
| Interval (startTime endTime : Instant)
| Untimed (now1 now2 now3 : Instant).

Record Device : Type := mkDevice {
  model : option string;
  manufacturer : option string
}.

Record Metadata : Type := mkMetadata {
  dataOrigin_packageName : option string;
  device : option Device
}.

Record Record_ : Type := mkRecord {
  body : RecordBody;
  timing : Timing;
  metadata : Metadata
}.

(** The record is an [InstantaneousRecord] or an [IntervalRecord]. *)
Definition timed (record : Record_) : Prop :=
  match timing record with
  | Untimed _ _ _ => False
  | _ => True
  end.

(** [record::class.simpleName] *)
Definition simpleName (b : RecordBody) : string :=
  match b with
  | ActiveCaloriesBurnedRecord _ => "ActiveCaloriesBurnedRecord"
  | BasalMetabolicRateRecord _ => "BasalMetabolicRateRecord"
  | BodyFatRecord _ => "BodyFatRecord"
  | CyclingPedalingCadenceRecord _ => "CyclingPedalingCadenceRecord"
  | DistanceRecord _ => "DistanceRecord"
  | ElevationGainedRecord _ => "ElevationGainedRecord"
  | FloorsClimbedRecord _ => "FloorsClimbedRecord"
  | HeartRateRecord _ => "HeartRateRecord"
  | LeanBodyMassRecord _ => "LeanBodyMassRecord"
  | OxygenSaturationRecord _ => "OxygenSaturationRecord"
  | RespiratoryRateRecord _ => "RespiratoryRateRecord"
  | RestingHeartRateRecord _ => "RestingHeartRateRecord"
  | SpeedRecord _ => "SpeedRecord"
  | StepsCadenceRecord _ => "StepsCadenceRecord"
  | StepsRecord _ => "StepsRecord"
  | TotalCaloriesBurnedRecord _ => "TotalCaloriesBurnedRecord"
  | Vo2MaxRecord _ => "Vo2MaxRecord"
  | ExerciseSessionRecord _ => "ExerciseSessionRecord"
  | SleepSessionRecord _ => "SleepSessionRecord"
  | OtherRecord n => n
  end.

(** The keys of [recordTypeMap] with the record class each one selects.
    The second component of the source's pairs, the read permission of the
    class, is never read by the module. *)
Definition recordTypeMap : list (string * RecordClass) :=
  [ ("ActiveCaloriesBurned", ActiveCaloriesBurned);
    ("BasalMetabolicRate", BasalMetabolicRate);
    ("BodyFat", BodyFat);
    ("CyclingPedalingCadence", CyclingPedalingCadence);
    ("Distance", Distance);
    ("ElevationGained", ElevationGained);
    ("ExerciseSession", ExerciseSession);
    ("FloorsClimbed", FloorsClimbed);
    ("HeartRate", HeartRate);
    ("LeanBodyMass", LeanBodyMass);
    ("OxygenSaturation", OxygenSaturation);
    ("RespiratoryRate", RespiratoryRate);
    ("RestingHeartRate", RestingHeartRate);
    ("SleepSession", SleepSession);
    ("Speed", Speed);
    ("StepsCadence", StepsCadence);
    ("Steps", Steps);
    ("TotalCaloriesBurned", TotalCaloriesBurned);
    ("Vo2Max", Vo2Max) ].

(** A Kotlin call that may throw; [e.message] is nullable. *)
Inductive Try (A : Type) : Type :=
| Ok (a : A)
| Throws (e_message : option string).
Arguments Ok {A} a.
Arguments Throws {A} e_message.

(** What the module asks of the device and of the SDK. *)
Record Env : Type := mkEnv {
  (* [isHealthConnectAvailable()] *)
  isHealthConnectAvailable : bool;
  (* [Instant.parse] *)
  Instant_parse : string -> Try Instant;
  (* [DateTimeFormatter.ISO_INSTANT.format] *)
  formatter_format : Instant -> string;
  (* [healthConnectClient.readRecords(request).records] *)
  readRecords : RecordClass -> Instant -> Instant -> Try (list Record_);
  (* the bridge turning the JavaScript argument into [Map<String, String>] *)
  convertOptions : Dict -> list (string * string) + Exn
}.

Definition getUnitForRecord (record : RecordBody) : string :=
  match record with
  | ActiveCaloriesBurnedRecord _ => "kcal"
  | BasalMetabolicRateRecord _ => "kcal/day"
  | BodyFatRecord _ => "%"
  | CyclingPedalingCadenceRecord _ => "rpm"
  | DistanceRecord _ => "m"
  | ElevationGainedRecord _ => "m"
  | FloorsClimbedRecord _ => "count"
  | HeartRateRecord _ => "bpm"
  | LeanBodyMassRecord _ => "kg"
  | OxygenSaturationRecord _ => "%"
  | RespiratoryRateRecord _ => "breaths/min"
  | RestingHeartRateRecord _ => "bpm"
  | SpeedRecord _ => "m/s"
  | StepsCadenceRecord _ => "steps/min"
  | StepsRecord _ => "count"
  | TotalCaloriesBurnedRecord _ => "kcal"
  | Vo2MaxRecord _ => "mL/(kg·min)"
  | ExerciseSessionRecord _ => "session"
  | SleepSessionRecord _ => "session"
  | OtherRecord _ => "unknown"
  end.

Definition getValueForRecord (record : RecordBody) : Any :=
  match record with
  | ActiveCaloriesBurnedRecord energy => ADouble (inKilocalories energy)
  | BasalMetabolicRateRecord basalMetabolicRate =>
      ADouble (inKilocaloriesPerDay basalMetabolicRate)
  | BodyFatRecord percentage => ADouble (value percentage)
  | CyclingPedalingCadenceRecord revolutionsPerMinute =>
      ADouble revolutionsPerMinute
  | DistanceRecord distance => ADouble (inMeters distance)
  | ElevationGainedRecord elevation => ADouble (inMeters elevation)
  | FloorsClimbedRecord floors => ADouble floors
  | HeartRateRecord beatsPerMinute => AInt beatsPerMinute
  | LeanBodyMassRecord mass => ADouble (inKilograms mass)
  | OxygenSaturationRecord percentage => ADouble (value percentage)
  | RespiratoryRateRecord rate => ADouble rate
  | RestingHeartRateRecord beatsPerMinute => AInt beatsPerMinute
  | SpeedRecord speed => ADouble (inMetersPerSecond speed)
  | StepsCadenceRecord rate => ADouble rate
  | StepsRecord count => AInt count
  | TotalCaloriesBurnedRecord energy => ADouble (inKilocalories energy)
  | Vo2MaxRecord vo2 => ADouble vo2
  | ExerciseSessionRecord name => AString name
  | SleepSessionRecord stages => AInt (Z.of_nat (List.length stages))
  | OtherRecord _ => AString "unknown"
  end.

Definition nullable_string (s : option string) : Any :=
  match s with
  | Some s' => AString s'
  | None => ANull
  end.

(** [record.metadata.device?.model ?: record.metadata.device?.manufacturer] *)
Definition device_name (m : Metadata) : option string :=
  match device m with
  | None => None
  | Some d =>
      match model d with
      | Some x => Some x
      | None => manufacturer d
      end
  end.

Definition formatRecordToStandardFormat (env : Env) (record : Record_)
  : Dict :=
  let formatter := formatter_format env in
  match timing record with
  | Instantaneous time =>
      [ ("type", AString (simpleName (body record)));
        ("sourceName",
          AString match dataOrigin_packageName (metadata record) with
                  | Some p => p
                  | None => "Unknown"
                  end);
        ("sourceVersion", ANull);
        ("device", nullable_string (device_name (metadata record)));
        ("creationDate", AString (formatter time));
        ("startDate", AString (formatter time));
        ("endDate", AString (formatter time));
        ("metadata", ADict []);
        ("unit", AString (getUnitForRecord (body record)));
        ("value", getValueForRecord (body record)) ]
  | Interval startTime endTime =>
      [ ("type", AString (simpleName (body record)));
        ("sourceName",
          AString match dataOrigin_packageName (metadata record) with
                  | Some p => p
                  | None => "Unknown"
                  end);
        ("sourceVersion", ANull);
        ("device", nullable_string (device_name (metadata record)));
        ("creationDate", AString (formatter endTime));
        ("startDate", AString (formatter startTime));
        ("endDate", AString (formatter endTime));
        ("metadata", ADict []);
        ("unit", AString (getUnitForRecord (body record)));
        ("value", getValueForRecord (body record)) ]
  | Untimed now1 now2 now3 =>
      [ ("type", AString (simpleName (body record)));
        ("sourceName", AString "Unknown");
        ("sourceVersion", ANull);
        ("device", ANull);
        ("creationDate", AString (formatter now1));
        ("startDate", AString (formatter now2));
        ("endDate", AString (formatter now3));
        ("metadata", ADict []);
        ("unit", AString "unknown");
        ("value", AString "unknown") ]
  end.

(** [authorizeHealthKit]: nothing in the coroutine's [try] block can
    throw, so its [catch] branch does not appear. *)
Definition authorizeHealthKit (env : Env) : AuthorizeResult :=
  if negb (isHealthConnectAvailable env) then
    mkAuthorize false [] []
      (Some "Health Connect is not available on this device. Please install Google Health Connect.")
  else
    mkAuthorize true (keys recordTypeMap) [] None.

(** A read issued against the health store. *)
Inductive StoreRead : Type :=
| ReadRecordsRequest (recordType : RecordClass) (startTime endTime : Instant).

(** [joinToString(", ")] *)
Fixpoint joinToString (sep : string) (l : list string) : string :=
  match l with
  | [] => ""
  | [x] => x
  | x :: rest => x ++ sep ++ joinToString sep rest
  end.

Definition template (s : option string) : string :=
  match s with
  | Some s' => s'
  | None => "null"
  end.

(** [getHealthData]: the reads issued against the store and the value the
    promise is resolved with. *)
Definition getHealthData (env : Env) (options : list (string * string))
  : list StoreRead * GetHealthDataResult :=
  match lookup "identifier" options, lookup "startDate" options,
        lookup "endDate" options with
  | Some identifier, Some startDateString, Some endDateString =>
      if negb (isHealthConnectAvailable env) then
        ([], mkResult false []
               (Some (mkError "health_connect_unavailable"
                        "Health Connect is not available on this device.")))
      else
        match lookup identifier recordTypeMap with
        | None =>
            ([], mkResult false []
                   (Some (mkError "unsupported_identifier"
                      ("Identifier '" ++ identifier
                       ++ "' not supported. Available: "
                       ++ joinToString ", " (keys recordTypeMap)))))
        | Some recordTypeInfo =>
            let query_error e_message :=
              mkResult false []
                (Some (mkError "query_error"
                   ("Failed to fetch data: " ++ template e_message))) in
            match Instant_parse env startDateString with
            | Throws m => ([], query_error m)
            | Ok startTime =>
                match Instant_parse env endDateString with
                | Throws m => ([], query_error m)
                | Ok endTime =>
                    let request :=
                      ReadRecordsRequest recordTypeInfo startTime endTime in
                    match readRecords env recordTypeInfo startTime endTime with
                    | Throws m => ([request], query_error m)
                    | Ok records =>
                        let formattedData :=
                          map (formatRecordToStandardFormat env) records in
                        ([request], mkResult true formattedData None)
                    end
                end
            end
        end
  | _, _, _ =>
      ([], mkResult false []
             (Some (mkError "missing_arguments"
                "Missing required options: identifier, startDate, endDate.")))
  end.

(** The background-sync methods are stubs: the module keeps no state. *)
Definition State : Type := unit.

Definition enableBackgroundSync (options : Dict) : BackgroundSyncResult :=
  mkSyncResult false
    (Some "Background sync handled by Expo BackgroundTask service. Enable sync in main app.").

Definition getBackgroundSyncStatus : BackgroundSyncStatus :=
  mkSyncStatus false None None.

Definition disableBackgroundSync : BackgroundSyncResult :=
  mkSyncResult true None.

(** The module as registered with the bridge.  The Kotlin module defines
    no [registerBackgroundTaskHandler]; the facade never calls it on
    Android. *)
Definition nativeModule (env : Env) : NativeModule State :=
  {| native_authorizeHealthKit := Resolved (authorizeHealthKit env);
     native_getHealthData := fun options =>
       match convertOptions env options with
       | inl m => Resolved (snd (getHealthData env m))
       | inr e => Rejected e
       end;
     native_registerBackgroundTaskHandler := fun st =>
       (st, Rejected (ErrorObject "registerBackgroundTaskHandler is not a function"));
     native_enableBackgroundSync := fun options st =>
       (st, Resolved (enableBackgroundSync options));
     native_getBackgroundSyncStatus := fun st =>
       (st, Resolved getBackgroundSyncStatus);
     native_disableBackgroundSync := fun st =>
       (st, Resolved disableBackgroundSync) |}.

End Android.

(* ================================================================== *)
(** ** Swift's standard library *)

Module Swift.

(** [==] on [String], and with it [contains] on an array of strings and a
    [case] of a [switch] over a string, is canonical equivalence of the
    two texts, not equality of their code units.  Every comparison of the
    module has a literal of ASCII characters on one side.  A text is
    canonically equivalent to an ASCII text exactly when it becomes that
    text once each of the three code points that decompose canonically to
    an ASCII character is replaced by it: U+212A KELVIN SIGN by [K],
    U+037E GREEK QUESTION MARK by [;] and U+1FEF GREEK VARIA by the grave
    accent.  Strings are held in UTF-8. *)
Fixpoint decomposed (s : string) : string :=
  match s with
  | String "226" (String "132" (String "170" rest)) =>
      String "K" (decomposed rest)
  | String "205" (String "190" rest) => String ";" (decomposed rest)
  | String "225" (String "191" (String "175" rest)) =>
      String "`" (decomposed rest)
  | String c rest => String c (decomposed rest)
  | EmptyString => EmptyString
  end.

(** [s == literal] *)
Definition equal (s literal : string) : bool :=
  String.eqb (decomposed s) literal.

(** [literals.contains(s)] *)
Definition contains (literals : list string) (s : string) : bool :=
  existsb (equal s) literals.

(** [max(x, y)] of the standard library: [y >= x ? y : x]. *)
Definition max (x y : Double) : Double :=
  if Qle_bool x y then y else x.

End Swift.

(* ================================================================== *)
(** ** The iOS module (HealthKit) *)

Module IOS.

Definition Date : Type := Z.

Inductive HKMetricPrefix : Type := kilo | milli.

(** The units the module builds with the [HKUnit] constructors. *)
Inductive HKUnit : Type :=
| kilocalorie
| minute
| second
| count
| meterUnit (p : HKMetricPrefix)
| secondUnit (p : HKMetricPrefix)
| literUnit (p : HKMetricPrefix)
| gramUnit (p : HKMetricPrefix)
| unitDivided (u by_ : HKUnit)
| unitMultiplied (u by_ : HKUnit).

(** [HKQuantity]: a magnitude that can be read in a unit. *)
Record HKQuantity : Type := mkQuantity {
  doubleValue : HKUnit -> Double
}.

(** A value of a native metadata dictionary. *)
Inductive MetaValue : Type :=
| MString (s : string)
| MNumber (n : Double)
| MDate (d : Date)
| MOpaque.

(** The fields every [HKSample] has. *)
Record SampleHeader : Type := mkHeader {
  source_name : string;
  source_version : option string;
  device_name : option string;
  startDate : Date;
  endDate : Date;
  metadata : option (list (string * MetaValue))
}.

Inductive HKSample : Type :=
| HKQuantitySample (h : SampleHeader) (quantityType_identifier : string)
    (quantity : HKQuantity)
| HKCategorySample (h : SampleHeader) (categoryType_identifier : string)
    (value : Z)
| HKWorkout (h : SampleHeader) (workoutActivityType : Z) (duration : Double)
    (totalEnergyBurned totalDistance : option HKQuantity).

(** A sample query: type, strict start and end bounds, no limit, ascending
    start date. *)
Record HKSampleQuery : Type := mkQuery {
  sampleType : string;
  predicate_start : Date;
  predicate_end : Date
}.

(** What the store hands to the results handler. *)
Record Completion : Type := mkCompletion {
  samples : option (list HKSample);
  query_error : option string      (* [error.localizedDescription] *)
}.

(** What the module asks of the system frameworks. *)
Record Env : Type := mkEnv {
  (* [isoFormatter.date(from:)] and [isoFormatter.string(from:)] *)
  isoFormatter_date : string -> option Date;
  isoFormatter_string : Date -> string;
  (* [Date()] *)
  Date_now : Date;
  (* [HKUnit.unitString] *)
  unitString : HKUnit -> string;
  (* whether [HKObjectType.quantityType(forIdentifier:)] and
     [HKObjectType.categoryType(forIdentifier:)] yield a type *)
  quantityType_forIdentifier : string -> bool;
  categoryType_forIdentifier : string -> bool;
  (* [healthStore.execute] of a sample query, up to the call of its
     results handler *)
  execute : HKSampleQuery -> Completion;
  (* the outcome [healthStore.requestAuthorization] reports *)
  requestAuthorization : list string -> bool * option string;
  (* the [name] the extension of [HKWorkoutActivityType] computes *)
  workoutActivityType_name : Z -> string
}.

Definition quantityTypeIdentifiers : list string :=
  [ "HKQuantityTypeIdentifierActiveEnergyBurned";
    "HKQuantityTypeIdentifierAppleExerciseTime";
    "HKQuantityTypeIdentifierAppleStandTime";
    "HKQuantityTypeIdentifierBasalEnergyBurned";
    "HKQuantityTypeIdentifierDistanceCycling";
    "HKQuantityTypeIdentifierDistanceWalkingRunning";
    "HKQuantityTypeIdentifierFlightsClimbed";
    "HKQuantityTypeIdentifierHeartRate";
    "HKQuantityTypeIdentifierHeartRateRecoveryOneMinute";
    "HKQuantityTypeIdentifierHeartRateVariabilitySDNN";
    "HKQuantityTypeIdentifierRespiratoryRate";
    "HKQuantityTypeIdentifierRestingHeartRate";
    "HKQuantityTypeIdentifierStepCount";
    "HKQuantityTypeIdentifierVO2Max" ].

Definition categoryTypeIdentifiers : list string :=
  [ "HKCategoryTypeIdentifierSleepAnalysis" ].

Definition workoutTypeIdentifiers : list string :=
  [ "HKWorkoutTypeIdentifier" ].

(** [HKObjectType.workoutType().identifier] and
    [HKCategoryTypeIdentifier.sleepAnalysis.rawValue] *)
Definition workoutType_identifier : string := "HKWorkoutTypeIdentifier".
Definition sleepAnalysis_rawValue : string :=
  "HKCategoryTypeIdentifierSleepAnalysis".

Definition getUnit (identifier : string) : option HKUnit :=
  if Swift.contains [ "HKQuantityTypeIdentifierActiveEnergyBurned";
                "HKQuantityTypeIdentifierBasalEnergyBurned" ] identifier
  then Some kilocalorie
  else if Swift.contains [ "HKQuantityTypeIdentifierAppleExerciseTime";
                     "HKQuantityTypeIdentifierAppleStandTime" ] identifier
  then Some minute
  else if Swift.contains [ "HKQuantityTypeIdentifierDistanceCycling";
                     "HKQuantityTypeIdentifierDistanceWalkingRunning" ]
            identifier
  then Some (meterUnit kilo)
  else if Swift.contains [ "HKQuantityTypeIdentifierFlightsClimbed";
                     "HKQuantityTypeIdentifierStepCount" ] identifier
  then Some count
  else if Swift.contains [ "HKQuantityTypeIdentifierHeartRate";
                     "HKQuantityTypeIdentifierHeartRateRecoveryOneMinute";
                     "HKQuantityTypeIdentifierRestingHeartRate";
                     "HKQuantityTypeIdentifierRespiratoryRate" ] identifier
  then Some (unitDivided count minute)
  else if Swift.contains [ "HKQuantityTypeIdentifierHeartRateVariabilitySDNN" ]
            identifier
  then Some (secondUnit milli)
  else if Swift.contains [ "HKQuantityTypeIdentifierVO2Max" ] identifier
  then Some (unitDivided (literUnit milli)
               (unitMultiplied (gramUnit kilo) minute))
  else None.

(** [formatMetadata]: strings, numbers and dates are kept, the rest is
    dropped; an empty outcome is [nil]. *)
Definition formatMetadata (env : Env)
    (metadata : option (list (string * MetaValue))) : option Dict :=
  match metadata with
  | None => None
  | Some metadata' =>
      let formattedMeta :=
        flat_map (fun kv : string * MetaValue =>
                    match snd kv with
                    | MString stringValue => [(fst kv, AString stringValue)]
                    | MNumber numberValue => [(fst kv, ADouble numberValue)]
                    | MDate dateValue =>
                        [(fst kv, AString (isoFormatter_string env dateValue))]
                    | MOpaque => []
                    end) metadata' in
      match formattedMeta with
      | [] => None
      | _ => Some formattedMeta
      end
  end.

(** Swift's rendering of an [Int] inside a string literal. *)
Definition interpolate (value : Z) : string :=
  NilZero.string_of_int (Z.to_int value).

(** [mapSleepAnalysisValue].  [iOS16] is the outcome of the availability
    check for iOS 16.0; the raw values of
    [HKCategoryValueSleepAnalysis] are the ones the source notes beside
    each case. *)
Definition mapSleepAnalysisValue (iOS16 : bool) (value : Z) : string :=
  if (value =? 0)%Z then "HKCategoryValueSleepAnalysisInBed"
  else if (value =? 2)%Z then "HKCategoryValueSleepAnalysisAwake"
  else if iOS16 then
    if (value =? 3)%Z then "HKCategoryValueSleepAnalysisAsleepCore"
    else if (value =? 4)%Z then "HKCategoryValueSleepAnalysisAsleepDeep"
    else if (value =? 5)%Z then "HKCategoryValueSleepAnalysisAsleepREM"
    else "UNKNOWN_SLEEP_VALUE_" ++ interpolate value
  else
    if (value =? 3)%Z then "HKCategoryValueSleepAnalysisAsleepCore"
    else if (value =? 4)%Z then "HKCategoryValueSleepAnalysisAsleepDeep"
    else if (value =? 5)%Z then "HKCategoryValueSleepAnalysisAsleepREM"
    else "UNKNOWN_SLEEP_VALUE_" ++ interpolate value.

Definition optional_string (s : option string) : Any :=
  match s with
  | Some s' => AString s'
  | None => ANull
  end.

Definition optional_dict (d : option Dict) : Any :=
  match d with
  | Some d' => ADict d'
  | None => ANull
  end.

(** The fields common to the three kinds of formatted sample. *)
Definition formatHeader (env : Env) (type : string) (h : SampleHeader)
  : Dict :=
  [ ("type", AString type);
    ("sourceName", AString (source_name h));
    ("sourceVersion", optional_string (source_version h));
    ("device", optional_string (device_name h));
    ("creationDate", AString (isoFormatter_string env (endDate h)));
    ("startDate", AString (isoFormatter_string env (startDate h)));
    ("endDate", AString (isoFormatter_string env (endDate h)));
    ("metadata", optional_dict (formatMetadata env (metadata h))) ].

Definition formatQuantitySample (env : Env) (specificUnit : HKUnit)
    (h : SampleHeader) (quantityType_identifier : string)
    (quantity : HKQuantity) : Dict :=
  (formatHeader env quantityType_identifier h
   ++ [ ("unit", AString (unitString env specificUnit));
        ("value", ADouble (doubleValue quantity specificUnit)) ])%list.

Definition formatCategorySample (env : Env) (iOS16 : bool)
    (h : SampleHeader) (categoryType_identifier : string) (value : Z)
  : Dict :=
  let valueToStore :=
    if Swift.equal categoryType_identifier sleepAnalysis_rawValue
    then AString (mapSleepAnalysisValue iOS16 value)
    else AInt value in
  (formatHeader env categoryType_identifier h
   ++ [ ("value", valueToStore) ])%list.

Definition formatWorkout (env : Env) (h : SampleHeader)
    (workoutActivityType : Z) (duration : Double)
    (totalEnergyBurned totalDistance : option HKQuantity) : Dict :=
  let durationUnit := second in
  let totalEnergyBurnedUnit := kilocalorie in
  let totalDistanceUnit := meterUnit kilo in
  (formatHeader env workoutType_identifier h
   ++ [ ("workoutActivityType",
          AString (workoutActivityType_name env workoutActivityType));
        ("duration", ADouble duration);
        ("durationUnit", AString (unitString env durationUnit));
        ("totalEnergyBurned",
          match totalEnergyBurned with
          | Some q => ADouble (doubleValue q totalEnergyBurnedUnit)
          | None => ANull
          end);
        ("totalEnergyBurnedUnit",
          match totalEnergyBurned with
          | Some _ => AString (unitString env totalEnergyBurnedUnit)
          | None => ANull
          end);
        ("totalDistance",
          match totalDistance with
          | Some q => ADouble (doubleValue q totalDistanceUnit)
          | None => ANull
          end);
        ("totalDistanceUnit",
          match totalDistance with
          | Some _ => AString (unitString env totalDistanceUnit)
          | None => ANull
          end) ])%list.

(** [samples as? [T]]: the cast succeeds when every element is a [T]. *)
Fixpoint cast_all {A B : Type} (f : A -> option B) (l : list A)
  : option (list B) :=
  match l with
  | [] => Some []
  | x :: l' =>
      match f x, cast_all f l' with
      | Some y, Some ys => Some (y :: ys)
      | _, _ => None
      end
  end.

(** [options[key] as? String ?? ""] *)
Definition string_option (options : Dict) (key : string) : string :=
  match lookup key options with
  | Some (AString s) => s
  | _ => ""
  end.

Definition isEmpty (s : string) : bool := String.eqb s "".

(** The body shared by the three results handlers. *)
Definition handle (c : Completion) (format : HKSample -> option Dict)
  : GetHealthDataResult :=
  match query_error c with
  | Some localizedDescription =>
      mkResult false [] (Some (mkError "query_error" localizedDescription))
  | None =>
      match samples c with
      | Some samples' =>
          match cast_all format samples' with
          | Some formattedSamples => mkResult true formattedSamples None
          | None => mkResult true [] None
          end
      | None => mkResult true [] None
      end
  end.

(** [getHealthData]: the sample queries executed against the store and the
    value the promise is resolved with.  No statement of the [do] block can
    throw, so its [catch] branch does not appear. *)
Definition getHealthData (env : Env) (iOS16 : bool) (options : Dict)
  : list HKSampleQuery * GetHealthDataResult :=
  let identifier := string_option options "identifier" in
  let startDateString := string_option options "startDate" in
  let endDateString := string_option options "endDate" in
  if isEmpty identifier || isEmpty startDateString || isEmpty endDateString
  then
    ([], mkResult false []
           (Some (mkError "missing_arguments"
              "Missing required options: identifier, startDate, endDate.")))
  else
    match isoFormatter_date env startDateString,
          isoFormatter_date env endDateString with
    | Some start, Some end_ =>
        if Swift.contains quantityTypeIdentifiers identifier
           && quantityType_forIdentifier env identifier
        then
          match getUnit identifier with
          | None =>
              ([], mkResult false []
                     (Some (mkError "internal_error"
                        ("Could not determine unit for identifier: "
                         ++ identifier))))
          | Some specificUnit =>
              let query := mkQuery identifier start end_ in
              ([query],
               handle (execute env query)
                 (fun s =>
                    match s with
                    | HKQuantitySample h id q =>
                        Some (formatQuantitySample env specificUnit h id q)
                    | _ => None
                    end))
          end
        else if Swift.contains categoryTypeIdentifiers identifier
                && categoryType_forIdentifier env identifier
        then
          let query := mkQuery identifier start end_ in
          ([query],
           handle (execute env query)
             (fun s =>
                match s with
                | HKCategorySample h id v =>
                    Some (formatCategorySample env iOS16 h id v)
                | _ => None
                end))
        else if Swift.equal identifier workoutType_identifier
        then
          let query := mkQuery workoutType_identifier start end_ in
          ([query],
           handle (execute env query)
             (fun s =>
                match s with
                | HKWorkout h a d e dist =>
                    Some (formatWorkout env h a d e dist)
                | _ => None
                end))
        else
          ([], mkResult false []
                 (Some (mkError "unsupported_identifier"
                          "Identifier not supported.")))
    | _, _ =>
        ([], mkResult false []
               (Some (mkError "invalid_date" "Invalid date format.")))
    end.

(** [authorizeHealthKit].  [toRequest] is a set in the source; it is kept
    here in insertion order. *)
Definition authorizeHealthKit (env : Env) : AuthorizeResult :=
  let toRequest :=
    (filter (quantityType_forIdentifier env) quantityTypeIdentifiers
     ++ filter (categoryType_forIdentifier env) categoryTypeIdentifiers
     ++ match workoutTypeIdentifiers with
        | [] => []
        | _ => [workoutType_identifier]
        end)%list in
  let '(granted, denied, errorMsg) :=
    match requestAuthorization env toRequest with
    | (_, Some localizedDescription) => ([], [], Some localizedDescription)
    | (true, None) => (toRequest, [], None)
    | (false, None) =>
        ([], toRequest, Some "Authorization failed for unknown reasons.")
    end in
  mkAuthorize match errorMsg with None => true | Some _ => false end
    granted denied errorMsg.

(** *** Background sync *)

(** The mutable properties of the module instance. *)
Record State : Type := mkState {
  syncIntervalHours : Double;
  observerQueries : list string;     (* the sample type each one observes *)
  backgroundSyncEnabled : bool;
  lastSyncTimestamp : option string;
  backgroundTaskHandlerRegistered : bool
}.

Definition initial : State := mkState 24 [] false None false.

(** What the module does to the system while it runs. *)
Inductive Effect : Type :=
| SchedulerRegister
| SchedulerSubmit (earliestBeginIn : Double)
| SchedulerCancel
| StoreExecuteObserver (sampleType : string)
| StoreStop (sampleType : string)
| SendEvent (name : string) (payload : Dict).

Definition registerBackgroundTaskHandler (st : State)
  : State * list Effect * BackgroundSyncResult :=
  if backgroundTaskHandlerRegistered st then
    (st, [], mkSyncResult true None)
  else
    (mkState (syncIntervalHours st) (observerQueries st)
       (backgroundSyncEnabled st) (lastSyncTimestamp st) true,
     [SchedulerRegister], mkSyncResult true None).

(** The sample types [setupHealthDataObserver] observes. *)
Definition observedSampleTypes : list string :=
  [ "HKQuantityTypeIdentifierStepCount";
    "HKQuantityTypeIdentifierHeartRate";
    "HKQuantityTypeIdentifierActiveEnergyBurned";
    "HKQuantityTypeIdentifierDistanceWalkingRunning";
    "HKQuantityTypeIdentifierFlightsClimbed";
    "HKQuantityTypeIdentifierRestingHeartRate";
    "HKQuantityTypeIdentifierRespiratoryRate";
    "HKQuantityTypeIdentifierVO2Max";
    "HKCategoryTypeIdentifierSleepAnalysis";
    workoutType_identifier ].

Definition setupHealthDataObserver (st : State) : State * list Effect :=
  (mkState (syncIntervalHours st)
     (observerQueries st ++ observedSampleTypes)%list
     (backgroundSyncEnabled st) (lastSyncTimestamp st)
     (backgroundTaskHandlerRegistered st),
   map StoreExecuteObserver observedSampleTypes).

(** [scheduleBackgroundHealthSync].  Intervals are rationals here: the
    seconds a request carries are those of the source for a finite sync
    interval, and the properties below count the requests without looking
    at the seconds. *)
Definition scheduleBackgroundHealthSync (st : State) : list Effect :=
  if backgroundSyncEnabled st then
    let requestedSeconds :=
      Swift.max (syncIntervalHours st * 60 * 60)%Q (15 * 60)%Q in
    [SchedulerSubmit requestedSeconds]
  else [].

(** [options[key] as? Double] on a bridged JavaScript number *)
Definition double_option (options : Dict) (key : string) : option Double :=
  match lookup key options with
  | Some (ADouble d) => Some d
  | Some (AInt z) => Some (inject_Z z)
  | _ => None
  end.

(** [options[key] as? [String] ?? []] *)
Definition strings_option (options : Dict) (key : string) : list Any :=
  match lookup key options with
  | Some (AList l) =>
      if forallb (fun a => match a with AString _ => true | _ => false end) l
      then l else []
  | _ => []
  end.

(** [enableBackgroundSync]; nothing in its [do] block can throw. *)
Definition enableBackgroundSync (env : Env) (options : Dict) (st : State)
  : State * list Effect * BackgroundSyncResult :=
  let st1 :=
    match double_option options "syncInterval" with
    | Some interval =>
        mkState interval (observerQueries st) (backgroundSyncEnabled st)
          (lastSyncTimestamp st) (backgroundTaskHandlerRegistered st)
    | None => st
    end in
  let st2 :=
    mkState (syncIntervalHours st1) (observerQueries st1) true
      (lastSyncTimestamp st1) (backgroundTaskHandlerRegistered st1) in
  let (st3, observing) := setupHealthDataObserver st2 in
  let scheduling := scheduleBackgroundHealthSync st3 in
  let event :=
    SendEvent "onBackgroundSyncComplete"
      [ ("success", ABool true);
        ("syncedDataTypes", AList (strings_option options "dataTypes"));
        ("timestamp", AString (isoFormatter_string env (Date_now env)));
        ("error", ANull) ] in
  (st3, (observing ++ scheduling ++ [event])%list, mkSyncResult true None).

Definition getBackgroundSyncStatus (st : State) : BackgroundSyncStatus :=
  mkSyncStatus (backgroundSyncEnabled st) (lastSyncTimestamp st) None.

Definition disableBackgroundSync (st : State)
  : State * list Effect * BackgroundSyncResult :=
  (mkState (syncIntervalHours st) [] false (lastSyncTimestamp st)
     (backgroundTaskHandlerRegistered st),
   (map StoreStop (observerQueries st) ++ [SchedulerCancel])%list,
   mkSyncResult true None).

(** The update handler of one observer query. *)
Definition observerUpdate (env : Env) (sampleType : string) (failed : bool)
    (st : State) : State * list Effect :=
  if failed then (st, [])
  else
    (st,
     (scheduleBackgroundHealthSync st
      ++ [ SendEvent "onHealthDataChange"
             [ ("dataType", AString sampleType);
               ("samplesAdded", AInt 1);
               ("timestamp",
                 AString (isoFormatter_string env (Date_now env))) ] ])%list).

(** [handleBackgroundRefresh]; [cancelled] tells whether the operation was
    cancelled before it ran. *)
Definition handleBackgroundRefresh (env : Env) (cancelled : bool)
    (st : State) : State * list Effect :=
  let scheduling := scheduleBackgroundHealthSync st in
  if cancelled then (st, scheduling)
  else
    let stamp := isoFormatter_string env (Date_now env) in
    (mkState (syncIntervalHours st) (observerQueries st)
       (backgroundSyncEnabled st) (Some stamp)
       (backgroundTaskHandlerRegistered st),
     (scheduling
      ++ [ SendEvent "onBackgroundSyncComplete"
             [ ("success", ABool true);
               ("syncedDataTypes", AList []);
               ("timestamp", AString stamp);
               ("error", ANull) ] ])%list).

(** What the system may do to the module between two calls. *)
Inductive Background : Type :=
| ObserverFires (sampleType : string) (failed : bool)
| RefreshTask (cancelled : bool).

Definition background (env : Env) (b : Background) (st : State) : State :=
  match b with
  | ObserverFires sampleType failed =>
      fst (observerUpdate env sampleType failed st)
  | RefreshTask cancelled => fst (handleBackgroundRefresh env cancelled st)
  end.

(** The module as registered with the bridge. *)
Definition nativeModule (env : Env) (iOS16 : bool) : NativeModule State :=
  {| native_authorizeHealthKit := Resolved (authorizeHealthKit env);
     native_getHealthData := fun options =>
       Resolved (snd (getHealthData env iOS16 options));
     native_registerBackgroundTaskHandler := fun st =>
       let '(st', _, r) := registerBackgroundTaskHandler st in
       (st', Resolved r);
     native_enableBackgroundSync := fun options st =>
       let '(st', _, r) := enableBackgroundSync env options st in
       (st', Resolved r);
     native_getBackgroundSyncStatus := fun st =>
       (st, Resolved (getBackgroundSyncStatus st));
     native_disableBackgroundSync := fun st =>
       let '(st', _, r) := disableBackgroundSync st in
       (st', Resolved r) |}.

(** *** Histories of the module instance *)

(** One thing that happens to the module: a call through the bridge, or
    the system waking an observer or the refresh task. *)
Inductive Event : Type :=
| Register
| Enable (options : Dict)
| Status
| Disable
| System (b : Background).

Definition step (env : Env) (e : Event) (st : State) : State * list Effect :=
  match e with
  | Register =>
      let '(st', effects, _) := registerBackgroundTaskHandler st in
      (st', effects)
  | Enable options =>
      let '(st', effects, _) := enableBackgroundSync env options st in
      (st', effects)
  | Status => (st, [])
  | Disable =>
      let '(st', effects, _) := disableBackgroundSync st in
      (st', effects)
  | System (ObserverFires sampleType failed) =>
      observerUpdate env sampleType failed st
  | System (RefreshTask cancelled) => handleBackgroundRefresh env cancelled st
  end.

(** A history run from a state: the state it ends in and everything the
    module did to the system on the way, in order. *)
Fixpoint run (env : Env) (history : list Event) (st : State)
  : State * list Effect :=
  match history with
  | [] => (st, [])
  | e :: history' =>
      let (st1, effects1) := step env e st in
      let (st2, effects2) := run env history' st1 in
      (st2, (effects1 ++ effects2)%list)
  end.

Definition is_observer_start (e : Effect) : bool :=
  match e with StoreExecuteObserver _ => true | _ => false end.

Definition is_observer_stop (e : Effect) : bool :=
  match e with StoreStop _ => true | _ => false end.

Definition is_register (e : Effect) : bool :=
  match e with SchedulerRegister => true | _ => false end.

Definition is_completed_refresh (e : Event) : bool :=
  match e with System (RefreshTask false) => true | _ => false end.

Definition is_submit (e : Effect) : bool :=
  match e with SchedulerSubmit _ => true | _ => false end.

Definition is_enable (e : Event) : bool :=
  match e with Enable _ => true | _ => false end.


(** What the enabled flag is after a history: the most recent enable or
    disable call decides, and the flag from before when there is none. *)
Fixpoint last_switch (history : list Event) (before : bool) : bool :=
  match history with
  | [] => before
  | Enable _ :: history' => last_switch history' true
  | Disable :: history' => last_switch history' false
  | _ :: history' => last_switch history' before
  end.

End IOS.

(* ================================================================== *)
(** ** The web module *)

Module Web.

Definition authorizeHealthKit : AuthorizeResult :=
  mkAuthorize false [] []
    (Some "Health data is not available on web platform.").

Definition getHealthData (options : Dict) : GetHealthDataResult :=
  mkResult false []
    (Some (mkError "unsupported_platform"
             "Health data is not available on web platform.")).

End Web.

(* ================================================================== *)
(** ** The unit of a distance, in the words of the specification *)

Module Claimed.

(** "Distances to kilometers", read on a normalized Android sample: the
    unit is the kilometer symbol of the package's [HealthUnit] type and the
    value is the length read in kilometers. *)
Definition distance_in_kilometers (sample : Dict) (distance : Android.Length)
  : Prop :=
  lookup "unit" sample = Some (AString "km")
  /\ exists v : Double,
       lookup "value" sample = Some (ADouble v)
       /\ (v == Android.inKilometers distance)%Q.

End Claimed.

(* ================================================================== *)
(** ** Test doubles for the system frameworks *)

Module Stub.

(** A date parser that accepts what the facade's pattern accepts. *)
Definition parses (s : string) : bool := RegExp.test Facade.dateRegex s.

Definition android_env (available : bool) : Android.Env :=
  {| Android.isHealthConnectAvailable := available;
     Android.Instant_parse := fun s =>
       if parses s then Android.Ok 0%Z
       else Android.Throws (Some "Text could not be parsed");
     Android.formatter_format := fun _ => "1970-01-01T00:00:00Z";
     Android.readRecords := fun _ _ _ => Android.Ok [];
     Android.convertOptions := fun d =>
       inl (flat_map (fun kv : string * Any =>
                        match snd kv with
                        | AString v => [(fst kv, v)]
                        | _ => []
                        end) d) |}.

Definition walk : Android.Record_ :=
  Android.mkRecord (Android.DistanceRecord (Android.mkLength 1500))
    (Android.Interval 0%Z 600%Z)
    (Android.mkMetadata (Some "com.example.tracker") None).

Fixpoint unitString (u : IOS.HKUnit) : string :=
  match u with
  | IOS.kilocalorie => "kcal"
  | IOS.minute => "min"
  | IOS.second => "s"
  | IOS.count => "count"
  | IOS.meterUnit IOS.kilo => "km"
  | IOS.meterUnit IOS.milli => "mm"
  | IOS.secondUnit IOS.kilo => "ks"
  | IOS.secondUnit IOS.milli => "ms"
  | IOS.literUnit IOS.kilo => "kL"
  | IOS.literUnit IOS.milli => "mL"
  | IOS.gramUnit IOS.kilo => "kg"
  | IOS.gramUnit IOS.milli => "mg"
  | IOS.unitDivided a b => unitString a ++ "/" ++ unitString b
  | IOS.unitMultiplied a b => unitString a ++ "·" ++ unitString b
  end.

Definition header : IOS.SampleHeader :=
  IOS.mkHeader "Watch" (Some "10.1") (Some "Apple Watch") 0%Z 600%Z None.

(** Five hundred steps. *)
Definition steps : IOS.HKSample :=
  IOS.HKQuantitySample header "HKQuantityTypeIdentifierStepCount"
    (IOS.mkQuantity (fun _ => 500%Q)).

(** A store that holds [steps] and nothing else. *)
Definition ios_env : IOS.Env :=
  {| IOS.isoFormatter_date := fun s => if parses s then Some 0%Z else None;
     IOS.isoFormatter_string := fun _ => "1970-01-01T00:00:00Z";
     IOS.Date_now := 0%Z;
     IOS.unitString := unitString;
     IOS.quantityType_forIdentifier := fun _ => true;
     IOS.categoryType_forIdentifier := fun _ => true;
     IOS.execute := fun q =>
       if String.eqb (IOS.sampleType q) "HKQuantityTypeIdentifierStepCount"
       then IOS.mkCompletion (Some [steps]) None
       else IOS.mkCompletion (Some []) None;
     IOS.requestAuthorization := fun _ => (true, None);
     IOS.workoutActivityType_name := fun _ => "Other" |}.

Definition january : Facade.GetHealthDataOptions :=
  Facade.mkOptions (Some "stepCount") (Some "2024-01-01T00:00:00Z")
    (Some "2024-01-31T23:59:59Z") None None None.

Definition native_options (identifier : string) : Dict :=
  [ ("identifier", AString identifier);
    ("startDate", AString "2024-01-01T00:00:00Z");
    ("endDate", AString "2024-01-31T23:59:59Z") ].

(** A system that knows none of the sample types. *)
Definition ios_env_without_types : IOS.Env :=
  {| IOS.isoFormatter_date := IOS.isoFormatter_date ios_env;
     IOS.isoFormatter_string := IOS.isoFormatter_string ios_env;
     IOS.Date_now := 0%Z;
     IOS.unitString := unitString;
     IOS.quantityType_forIdentifier := fun _ => false;
     IOS.categoryType_forIdentifier := fun _ => false;
     IOS.execute := IOS.execute ios_env;
     IOS.requestAuthorization := fun _ => (false, None);
     IOS.workoutActivityType_name := fun _ => "Other" |}.

(** A native module whose bridge rejects every call. *)
Definition rejecting : NativeModule unit :=
  {| native_authorizeHealthKit := Rejected (ErrorObject "bridge down");
     native_getHealthData := fun _ => Rejected (ErrorObject "bridge down");
     native_registerBackgroundTaskHandler := fun st =>
       (st, Rejected (ErrorObject "bridge down"));
     native_enableBackgroundSync := fun _ st =>
       (st, Rejected (ErrorObject "bridge down"));
     native_getBackgroundSyncStatus := fun st =>
       (st, Rejected (ErrorObject "bridge down"));
     native_disableBackgroundSync := fun st =>
       (st, Rejected (ErrorObject "bridge down")) |}.

End Stub.

(* ================================================================== *)
(** ** The names of workout activity types (iOS) *)

Module Workout.

(** The cases the extension of [HKWorkoutActivityType] names, in the order
    of its [switch]; [future] is any case the switch does not list. *)
Inductive HKWorkoutActivityType : Type :=
| americanFootball
| archery
| australianFootball
| badminton
| baseball
| basketball
| bowling
| boxing
| climbing
| cricket
| crossTraining
| curling
| cycling
| dance
| danceInspiredTraining
| elliptical
| equestrianSports
| fencing
| fishing
| functionalStrengthTraining
| golf
| gymnastics
| handball
| hiking
| hockey
| hunting
| lacrosse
| martialArts
| mindAndBody
| mixedMetabolicCardioTraining
| paddleSports
| play
| preparationAndRecovery
| racquetball
| rowing
| rugby
| running
| sailing
| skatingSports
| snowSports
| soccer
| softball
| squash
| stairClimbing
| surfingSports
| swimming
| tableTennis
| tennis
| trackAndField
| traditionalStrengthTraining
| volleyball
| walking
| waterFitness
| waterPolo
| waterSports
| wrestling
| yoga
| barre
| coreTraining
| crossCountrySkiing
| downhillSkiing
| flexibility
| highIntensityIntervalTraining
| jumpRope
| kickboxing
| pilates
| snowboarding
| stairs
| stepTraining
| wheelchairWalkPace
| wheelchairRunPace
| taiChi
| mixedCardio
| handCycling
| discSports
| fitnessGaming
| cardioDance
| socialDance
| pickleball
| cooldown
| swimBikeRun
| transition
| underwaterDiving
| other
| future (rawValue : Z).

(** [name].  In the last case the source escapes the backslash, so the
    text after it is not an interpolation. *)
Definition name (self : HKWorkoutActivityType) : string :=
  match self with
  | americanFootball => "American Football"
  | archery => "Archery"
  | australianFootball => "Australian Football"
  | badminton => "Badminton"
  | baseball => "Baseball"
  | basketball => "Basketball"
  | bowling => "Bowling"
  | boxing => "Boxing"
  | climbing => "Climbing"
  | cricket => "Cricket"
  | crossTraining => "Cross Training"
  | curling => "Curling"
  | cycling => "Cycling"
  | dance => "Dance"
  | danceInspiredTraining => "Dance Inspired Training"
  | elliptical => "Elliptical"
  | equestrianSports => "Equestrian Sports"
  | fencing => "Fencing"
  | fishing => "Fishing"
  | functionalStrengthTraining => "Functional Strength Training"
  | golf => "Golf"
  | gymnastics => "Gymnastics"
  | handball => "Handball"
  | hiking => "Hiking"
  | hockey => "Hockey"
  | hunting => "Hunting"
  | lacrosse => "Lacrosse"
  | martialArts => "Martial Arts"
  | mindAndBody => "Mind and Body"
  | mixedMetabolicCardioTraining => "Mixed Metabolic Cardio Training"
  | paddleSports => "Paddle Sports"
  | play => "Play"
  | preparationAndRecovery => "Preparation and Recovery"
  | racquetball => "Racquetball"
  | rowing => "Rowing"
  | rugby => "Rugby"
  | running => "Running"
  | sailing => "Sailing"
  | skatingSports => "Skating Sports"
  | snowSports => "Snow Sports"
  | soccer => "Soccer"
  | softball => "Softball"
  | squash => "Squash"
  | stairClimbing => "Stair Climbing"
  | surfingSports => "Surfing Sports"
  | swimming => "Swimming"
  | tableTennis => "Table Tennis"
  | tennis => "Tennis"
  | trackAndField => "Track and Field"
  | traditionalStrengthTraining => "Traditional Strength Training"
  | volleyball => "Volleyball"
  | walking => "Walking"
  | waterFitness => "Water Fitness"
  | waterPolo => "Water Polo"
  | waterSports => "Water Sports"
  | wrestling => "Wrestling"
  | yoga => "Yoga"
  | barre => "Barre"
  | coreTraining => "Core Training"
  | crossCountrySkiing => "Cross Country Skiing"
  | downhillSkiing => "Downhill Skiing"
  | flexibility => "Flexibility"
  | highIntensityIntervalTraining => "High Intensity Interval Training"
  | jumpRope => "Jump Rope"
  | kickboxing => "Kickboxing"
  | pilates => "Pilates"
  | snowboarding => "Snowboarding"
  | stairs => "Stairs"
  | stepTraining => "Step Training"
  | wheelchairWalkPace => "Wheelchair Walk Pace"
  | wheelchairRunPace => "Wheelchair Run Pace"
  | taiChi => "Tai Chi"
  | mixedCardio => "Mixed Cardio"
  | handCycling => "Hand Cycling"
  | discSports => "Disc Sports"
  | fitnessGaming => "Fitness Gaming"
  | cardioDance => "Cardio Dance"
  | socialDance => "Social Dance"
  | pickleball => "Pickleball"
  | cooldown => "Cooldown"
  | swimBikeRun => "Swim Bike Run"
  | transition => "Transition"
  | underwaterDiving => "Underwater Diving"
  | other => "Other"
  | future _ => "Unknown Workout Type (\(self.rawValue))"
  end.

(** The listed cases. *)
Definition listed : list HKWorkoutActivityType :=
  [ americanFootball; archery; australianFootball; badminton; baseball;
    basketball; bowling; boxing; climbing; cricket; crossTraining; curling;
    cycling; dance; danceInspiredTraining; elliptical; equestrianSports;
    fencing; fishing; functionalStrengthTraining; golf; gymnastics;
    handball; hiking; hockey; hunting; lacrosse; martialArts; mindAndBody;
    mixedMetabolicCardioTraining; paddleSports; play;
    preparationAndRecovery; racquetball; rowing; rugby; running; sailing;
    skatingSports; snowSports; soccer; softball; squash; stairClimbing;
    surfingSports; swimming; tableTennis; tennis; trackAndField;
    traditionalStrengthTraining; volleyball; walking; waterFitness;
    waterPolo; waterSports; wrestling; yoga; barre; coreTraining;
    crossCountrySkiing; downhillSkiing; flexibility;
    highIntensityIntervalTraining; jumpRope; kickboxing; pilates;
    snowboarding; stairs; stepTraining; wheelchairWalkPace;
    wheelchairRunPace; taiChi; mixedCardio; handCycling; discSports;
    fitnessGaming; cardioDance; socialDance; pickleball; cooldown;
    swimBikeRun; transition; underwaterDiving; other ].

(** Whether a list of strings has no repetition. *)
Fixpoint distinct (l : list string) : bool :=
  match l with
  | [] => true
  | x :: l' => negb (contains l' x) && distinct l'
  end.

End Workout.

(* ================================================================== *)
(** * Properties *)

Close Scope Q_scope.

(** ** Dictionaries and lists of names *)

Lemma contains_In (l : list string) (s : string) :
  contains l s = true <-> In s l.
Proof.
  unfold contains. rewrite existsb_exists. split.
  - intros [x [Hin Heq]]. apply String.eqb_eq in Heq. now subst.
  - intros Hin. exists s. split; [assumption | apply String.eqb_refl].
Qed.

Lemma contains_not_In (l : list string) (s : string) :
  ~ In s l -> contains l s = false.
Proof.
  intros H. destruct (contains l s) eqn:E; [|reflexivity].
  apply contains_In in E. contradiction.
Qed.

Lemma lookup_not_In {A : Type} (k : string) (d : list (string * A)) :
  ~ In k (keys d) -> lookup k d = None.
Proof.
  induction d as [|[k' v] d IH]; simpl; intros H.
  - reflexivity.
  - destruct (String.eqb_spec k k') as [->|Hne].
    + exfalso. apply H. now left.
    + apply IH. intros Hin. apply H. now right.
Qed.

(** ** Swift's standard library *)

Lemma Swift_contains_In (l : list string) (s : string) :
  Swift.contains l s = true <-> In (Swift.decomposed s) l.
Proof.
  unfold Swift.contains, Swift.equal. rewrite existsb_exists. split.
  - intros [x [Hin Heq]]. apply String.eqb_eq in Heq. now subst.
  - intros Hin. exists (Swift.decomposed s).
    split; [assumption | apply String.eqb_refl].
Qed.

Lemma Swift_contains_not_In (l : list string) (s : string) :
  ~ In (Swift.decomposed s) l -> Swift.contains l s = false.
Proof.
  intros H. destruct (Swift.contains l s) eqn:E; [|reflexivity].
  apply Swift_contains_In in E. contradiction.
Qed.

(** ** The pattern matcher decides the language of its pattern *)

Module RegExpFacts.
Import RegExp.

Lemma append_nil_inv (s1 s2 : string) :
  s1 ++ s2 = "" -> s1 = "" /\ s2 = "".
Proof. destruct s1; simpl; [tauto | discriminate]. Qed.

Lemma nullable_Matches (r : t) : nullable r = true <-> Matches r "".
Proof.
  induction r; simpl.
  - split; [discriminate | intros H; inversion H].
  - split; [constructor | reflexivity].
  - split; [discriminate | intros H; inversion H].
  - split; [discriminate | intros H; inversion H].
  - rewrite andb_true_iff, IHr1, IHr2. split.
    + intros [H1 H2]. change "" with ("" ++ ""). now constructor.
    + intros H. inversion H; subst.
      match goal with
      | E : _ ++ _ = "" |- _ => apply append_nil_inv in E as [-> ->]
      end. tauto.
  - rewrite orb_true_iff, IHr1, IHr2. split.
    + intros [H|H]; [now apply MAltL | now apply MAltR].
    + intros H. inversion H; subst; tauto.
Qed.

Lemma deriv_Matches (c : ascii) (r : t) (s : string) :
  Matches (deriv c r) s <-> Matches r (String c s).
Proof.
  revert s. induction r; intros s; simpl.
  - split; intros H; inversion H.
  - split; intros H; inversion H.
  - destruct (is_digit c) eqn:E; split; intros H; inversion H; subst.
    + now constructor.
    + constructor.
    + congruence.
  - destruct (Ascii.eqb_spec c c0) as [->|Hne]; split; intros H;
      inversion H; subst.
    + constructor.
    + constructor.
    + congruence.
  - assert (Hcat : Matches (Cat (deriv c r1) r2) s
                   <-> exists s1 s2, s = s1 ++ s2
                         /\ Matches r1 (String c s1) /\ Matches r2 s2).
    { split.
      - intros H. inversion H; subst. exists s1, s2.
        rewrite <- IHr1. tauto.
      - intros (s1 & s2 & -> & H1 & H2). constructor; [|assumption].
        now apply IHr1. }
    assert (Hsplit : Matches (Cat r1 r2) (String c s)
                     <-> (Matches r1 "" /\ Matches r2 (String c s))
                         \/ exists s1 s2, s = s1 ++ s2
                              /\ Matches r1 (String c s1) /\ Matches r2 s2).
    { split.
      - intros H. inversion H as [| | |? ? s1 s2 H1 H2 [E1 E2] E| |].
        destruct s1 as [|c1 s1]; simpl in E.
        + subst. left. tauto.
        + injection E as -> <-. right. exists s1, s2. tauto.
      - intros [[H1 H2]|(s1 & s2 & -> & H1 & H2)].
        + change (String c s) with ("" ++ String c s). now constructor.
        + change (String c (s1 ++ s2)) with (String c s1 ++ s2).
          now constructor. }
    rewrite Hsplit. destruct (nullable r1) eqn:E.
    + split.
      * intros H. inversion H; subst.
        -- right. now apply Hcat.
        -- left. split; [now apply nullable_Matches | now apply IHr2].
      * intros [[H1 H2]|H].
        -- apply MAltR. now apply IHr2.
        -- apply MAltL. now apply Hcat.
    + rewrite Hcat. split; [tauto|]. intros [[H1 _]|H]; [|assumption].
      apply nullable_Matches in H1. congruence.
  - split; intros H; inversion H; subst.
    + apply MAltL. now apply IHr1.
    + apply MAltR. now apply IHr2.
    + apply MAltL. now apply IHr1.
    + apply MAltR. now apply IHr2.
Qed.

Lemma test_Matches (r : t) (s : string) : test r s = true <-> Matches r s.
Proof.
  revert r. induction s as [|c s IH]; intros r; simpl.
  - apply nullable_Matches.
  - rewrite IH. apply deriv_Matches.
Qed.

Lemma test_false_not_Matches (r : t) (s : string) :
  ~ Matches r s -> test r s = false.
Proof.
  intros H. destruct (test r s) eqn:E; [|reflexivity].
  apply test_Matches in E. contradiction.
Qed.

End RegExpFacts.

(* ================================================================== *)
(** ** The identifier mapper *)

(** Every row of the table is served on both platforms. *)
Lemma getPlatformIdentifier_table (id : string) (m : Facade.Mapping) :
  In (id, m) Facade.IDENTIFIER_MAPPING ->
  Facade.getPlatformIdentifier "ios" id = Facade.JSString (Facade.ios m)
  /\ Facade.getPlatformIdentifier "android" id
     = Facade.JSString (Facade.android m).
Proof.
  unfold Facade.IDENTIFIER_MAPPING. simpl.
  intros H.
  repeat (destruct H as [H|H];
          [injection H as <- <-; split; reflexivity|]).
  contradiction.
Qed.

(** A name that is neither a row of the table nor inherited from
    [Object.prototype] comes back as it is. *)
Lemma getPlatformIdentifier_unknown (OS id : string) :
  ~ In id (keys Facade.IDENTIFIER_MAPPING) ->
  ~ In id Facade.Object_prototype ->
  Facade.getPlatformIdentifier OS id = Facade.JSString id.
Proof.
  intros Hown Hinh. unfold Facade.getPlatformIdentifier, Facade.get_mapping.
  rewrite (lookup_not_In _ _ Hown), (contains_not_In _ _ Hinh).
  reflexivity.
Qed.

(** The facade's own translation of an identifier returns every name that
    is not a row of the table as it is, inherited or not. *)
Lemma ios_identifier_unknown (id : string) :
  ~ In id (keys Facade.IDENTIFIER_MAPPING) -> Facade.ios_identifier id = id.
Proof.
  intros Hown. unfold Facade.ios_identifier, Facade.get_mapping.
  rewrite (lookup_not_In _ _ Hown).
  destruct (Facade.startsWith id "HK"); [reflexivity|].
  destruct (contains Facade.Object_prototype id); reflexivity.
Qed.

(** C1.  The name "constructor" is not a row of the mapping table, yet
    [getPlatformIdentifier] does not return it unchanged: the property read
    finds the member inherited from [Object.prototype], which is truthy and
    has neither an [ios] nor an [android] property, so the function returns
    [undefined] on every platform.  The translation inside [getHealthData]
    falls back to the input on the same name. *)
Theorem getPlatformIdentifier_inherited_name :
  ~ In "constructor" (keys Facade.IDENTIFIER_MAPPING)
  /\ (forall OS : string,
        Facade.getPlatformIdentifier OS "constructor" = Facade.JSUndefined)
  /\ Facade.ios_identifier "constructor" = "constructor"
  /\ Facade.android_identifier "constructor" = "constructor".
Proof.
  split; [|split; [|split]].
  - simpl. intuition discriminate.
  - intros OS. unfold Facade.getPlatformIdentifier.
    change (Facade.get_mapping "constructor")
      with (Facade.JSInherited "constructor").
    simpl. destruct (String.eqb OS "ios"); reflexivity.
  - reflexivity.
  - reflexivity.
Qed.

(* ================================================================== *)
(** ** The record normalizers *)

Lemma cast_all_In {A B : Type} (f : A -> option B) (l : list A)
    (l' : list B) (y : B) :
  IOS.cast_all f l = Some l' -> In y l' ->
  exists x, In x l /\ f x = Some y.
Proof.
  revert l'. induction l as [|a l IH]; simpl; intros l' H Hy.
  - injection H as <-. contradiction.
  - destruct (f a) as [b|] eqn:Ea; [|discriminate].
    destruct (IOS.cast_all f l) as [bs|] eqn:El; [|discriminate].
    injection H as <-. destruct Hy as [<-|Hy].
    + exists a. split; [now left | assumption].
    + destruct (IH bs eq_refl Hy) as [x [Hx Hfx]].
      exists x. split; [now right | assumption].
Qed.

(** A formatted sample of a successful read comes from a sample the store
    delivered. *)
Lemma handle_data (c : IOS.Completion) (f : IOS.HKSample -> option Dict)
    (d : Dict) :
  In d (data (IOS.handle c f)) ->
  exists delivered x,
    IOS.samples c = Some delivered /\ In x delivered /\ f x = Some d.
Proof.
  unfold IOS.handle.
  destruct (IOS.query_error c); simpl; [contradiction|].
  destruct (IOS.samples c) as [l|]; simpl; [|contradiction].
  destruct (IOS.cast_all f l) as [l'|] eqn:E; simpl; [|contradiction].
  intros Hd. destruct (cast_all_In f l l' d E Hd) as [x [Hx Hfx]].
  now exists l, x.
Qed.

(** The three identifier lists of the iOS module do not overlap. *)
Lemma quantity_identifier_only (id : string) :
  In id IOS.quantityTypeIdentifiers ->
  Swift.contains IOS.quantityTypeIdentifiers id = true
  /\ Swift.contains IOS.categoryTypeIdentifiers id = false
  /\ Swift.equal id IOS.workoutType_identifier = false
  /\ exists u, IOS.getUnit id = Some u.
Proof.
  unfold IOS.quantityTypeIdentifiers. simpl.
  intros H.
  repeat (destruct H as [<-|H];
          [repeat split; try reflexivity; eexists; reflexivity|]).
  contradiction.
Qed.

(** The same of every identifier that Swift finds in the quantity list. *)
Lemma quantity_contained_only (id : string) :
  Swift.contains IOS.quantityTypeIdentifiers id = true ->
  Swift.contains IOS.categoryTypeIdentifiers id = false
  /\ Swift.equal id IOS.workoutType_identifier = false
  /\ exists u, IOS.getUnit id = Some u.
Proof.
  intros H. apply Swift_contains_In in H.
  unfold IOS.getUnit, Swift.contains, Swift.equal.
  unfold IOS.quantityTypeIdentifiers in H. simpl in H.
  repeat (destruct H as [H|H];
          [rewrite <- H; repeat split; eexists; reflexivity|]).
  contradiction.
Qed.

(** Every sample of a read for a quantity identifier carries the unit that
    [getUnit] gives the identifier and the quantity of a sample the store
    delivered for the query, read in that unit. *)
Lemma ios_quantity_samples (env : IOS.Env) (iOS16 : bool) (options : Dict)
    (d : Dict) :
  In (IOS.string_option options "identifier") IOS.quantityTypeIdentifiers ->
  In d (data (snd (IOS.getHealthData env iOS16 options))) ->
  exists u h tid q,
    IOS.getUnit (IOS.string_option options "identifier") = Some u
    /\ lookup "unit" d = Some (AString (IOS.unitString env u))
    /\ lookup "value" d = Some (ADouble (IOS.doubleValue q u))
    /\ exists query delivered,
         fst (IOS.getHealthData env iOS16 options) = [query]
         /\ IOS.samples (IOS.execute env query) = Some delivered
         /\ In (IOS.HKQuantitySample h tid q) delivered.
Proof.
  intros Hid. unfold IOS.getHealthData.
  remember (IOS.string_option options "identifier") as id eqn:Eid.
  destruct (quantity_identifier_only id Hid) as (Hq & Hc & Hw & u & Hu).
  clear Eid.
  destruct (IOS.isEmpty id || IOS.isEmpty _ || IOS.isEmpty _);
    [simpl; contradiction|].
  destruct (IOS.isoFormatter_date env _) as [start|]; [|simpl; contradiction].
  destruct (IOS.isoFormatter_date env _) as [end_|]; [|simpl; contradiction].
  rewrite Hq, Hc, Hw, Hu. simpl.
  destruct (IOS.quantityType_forIdentifier env id); simpl; [|contradiction].
  intros Hd. apply handle_data in Hd as (delivered & x & Hs & Hin & Hx).
  destruct x as [h tid q| |]; try discriminate.
  injection Hx as <-. exists u, h, tid, q.
  repeat split.
  exists (IOS.mkQuery id start end_), delivered. now repeat split.
Qed.

Lemma android_timed_unit_value (env : Android.Env) (record : Android.Record_) :
  Android.timed record ->
  lookup "unit" (Android.formatRecordToStandardFormat env record)
    = Some (AString (Android.getUnitForRecord (Android.body record)))
  /\ lookup "value" (Android.formatRecordToStandardFormat env record)
     = Some (Android.getValueForRecord (Android.body record)).
Proof.
  unfold Android.timed, Android.formatRecordToStandardFormat.
  destruct (Android.timing record); intros H;
    [split; reflexivity | split; reflexivity | contradiction].
Qed.

Lemma cast_all_map {A B C : Type} (f : A -> option B) (g : C -> A)
    (h : C -> B) (l : list C) :
  (forall x, f (g x) = Some (h x)) ->
  IOS.cast_all f (map g l) = Some (map h l).
Proof.
  intros H. induction l as [|x l IH]; simpl; [reflexivity|].
  now rewrite H, IH.
Qed.

(** A read for a quantity identifier, when the store delivers quantity
    samples and no error: each delivered sample is normalized, in order,
    with the unit [getUnit] gives the identifier. *)
Lemma ios_quantity_read (env : IOS.Env) (iOS16 : bool) (options : Dict)
    (identifier sd ed : string) (start end_ : IOS.Date)
    (records : list (IOS.SampleHeader * string * IOS.HKQuantity)) :
  lookup "identifier" options = Some (AString identifier) ->
  lookup "startDate" options = Some (AString sd) ->
  lookup "endDate" options = Some (AString ed) ->
  sd <> "" -> ed <> "" ->
  IOS.isoFormatter_date env sd = Some start ->
  IOS.isoFormatter_date env ed = Some end_ ->
  Swift.contains IOS.quantityTypeIdentifiers identifier = true ->
  IOS.quantityType_forIdentifier env identifier = true ->
  IOS.execute env (IOS.mkQuery identifier start end_)
  = IOS.mkCompletion
      (Some (map (fun r => IOS.HKQuantitySample (fst (fst r)) (snd (fst r))
                             (snd r)) records))
      None ->
  exists u,
    IOS.getUnit identifier = Some u
    /\ IOS.getHealthData env iOS16 options
       = ([IOS.mkQuery identifier start end_],
          mkResult true
            (map (fun r => IOS.formatQuantitySample env u (fst (fst r))
                             (snd (fst r)) (snd r)) records)
            None).
Proof.
  intros Hid Hsd Hed Nsd Ned Pstart Pend Hq Hav Hex.
  destruct (quantity_contained_only identifier Hq) as (_ & _ & u & Hu).
  exists u. split; [exact Hu|].
  assert (Nid : identifier <> "").
  { intros ->. vm_compute in Hq. discriminate Hq. }
  unfold IOS.getHealthData, IOS.string_option, IOS.isEmpty.
  rewrite Hid, Hsd, Hed. cbv beta iota zeta.
  rewrite (proj2 (String.eqb_neq _ _) Nid),
    (proj2 (String.eqb_neq _ _) Nsd), (proj2 (String.eqb_neq _ _) Ned).
  rewrite Pstart, Pend, Hq, Hav, Hu. cbn [orb andb].
  rewrite Hex. unfold IOS.handle. cbn [IOS.query_error IOS.samples].
  rewrite (cast_all_map _ _
             (fun r => IOS.formatQuantitySample env u (fst (fst r))
                         (snd (fst r)) (snd r))); reflexivity.
Qed.

(** C2, as the code has it.  On iOS the unit of a quantity sample comes
    from the identifier table of [getUnit] (steps and flights: count; heart
    rate, recovery, resting heart rate and respiratory rate: count per
    minute; distances: kilometers; energies: kilocalories; heart-rate
    variability: milliseconds; VO2Max: millilitres per kilogram and minute;
    exercise and stand time: minutes): every quantity sample the store
    delivers for a read is normalized, in order, to a sample with that
    unit and with the sample's own quantity read in that unit, and a
    sample of a read has no other origin.  On Android the unit comes from
    the record class (steps and floors: "count"; heart rate and resting
    heart rate: "bpm"; distance: "m"; energies: "kcal"; VO2Max:
    "mL/(kg·min)") and the value is the reading of the record in that
    unit, a distance in meters; every record a read delivers is
    normalized, in order. *)
Theorem quantity_units_per_platform :
  (* the iOS table *)
  ( IOS.getUnit "HKQuantityTypeIdentifierStepCount" = Some IOS.count
    /\ IOS.getUnit "HKQuantityTypeIdentifierFlightsClimbed" = Some IOS.count
    /\ IOS.getUnit "HKQuantityTypeIdentifierHeartRate"
       = Some (IOS.unitDivided IOS.count IOS.minute)
    /\ IOS.getUnit "HKQuantityTypeIdentifierHeartRateRecoveryOneMinute"
       = Some (IOS.unitDivided IOS.count IOS.minute)
    /\ IOS.getUnit "HKQuantityTypeIdentifierRestingHeartRate"
       = Some (IOS.unitDivided IOS.count IOS.minute)
    /\ IOS.getUnit "HKQuantityTypeIdentifierRespiratoryRate"
       = Some (IOS.unitDivided IOS.count IOS.minute)
    /\ IOS.getUnit "HKQuantityTypeIdentifierDistanceCycling"
       = Some (IOS.meterUnit IOS.kilo)
    /\ IOS.getUnit "HKQuantityTypeIdentifierDistanceWalkingRunning"
       = Some (IOS.meterUnit IOS.kilo)
    /\ IOS.getUnit "HKQuantityTypeIdentifierActiveEnergyBurned"
       = Some IOS.kilocalorie
    /\ IOS.getUnit "HKQuantityTypeIdentifierBasalEnergyBurned"
       = Some IOS.kilocalorie
    /\ IOS.getUnit "HKQuantityTypeIdentifierHeartRateVariabilitySDNN"
       = Some (IOS.secondUnit IOS.milli)
    /\ IOS.getUnit "HKQuantityTypeIdentifierVO2Max"
       = Some (IOS.unitDivided (IOS.literUnit IOS.milli)
                 (IOS.unitMultiplied (IOS.gramUnit IOS.kilo) IOS.minute))
    /\ IOS.getUnit "HKQuantityTypeIdentifierAppleExerciseTime"
       = Some IOS.minute
    /\ IOS.getUnit "HKQuantityTypeIdentifierAppleStandTime"
       = Some IOS.minute )
  (* the iOS normalizer: what a quantity sample becomes *)
  /\ (forall (env : IOS.Env) (u : IOS.HKUnit) (h : IOS.SampleHeader)
             (tid : string) (q : IOS.HKQuantity),
        lookup "unit" (IOS.formatQuantitySample env u h tid q)
          = Some (AString (IOS.unitString env u))
        /\ lookup "value" (IOS.formatQuantitySample env u h tid q)
           = Some (ADouble (IOS.doubleValue q u)))
  (* the iOS read: every delivered quantity sample is normalized with the
     unit of the identifier *)
  /\ (forall (env : IOS.Env) (iOS16 : bool) (options : Dict)
             (identifier sd ed : string) (start end_ : IOS.Date)
             (records : list (IOS.SampleHeader * string * IOS.HKQuantity)),
        lookup "identifier" options = Some (AString identifier) ->
        lookup "startDate" options = Some (AString sd) ->
        lookup "endDate" options = Some (AString ed) ->
        sd <> "" -> ed <> "" ->
        IOS.isoFormatter_date env sd = Some start ->
        IOS.isoFormatter_date env ed = Some end_ ->
        Swift.contains IOS.quantityTypeIdentifiers identifier = true ->
        IOS.quantityType_forIdentifier env identifier = true ->
        IOS.execute env (IOS.mkQuery identifier start end_)
        = IOS.mkCompletion
            (Some (map (fun r => IOS.HKQuantitySample (fst (fst r))
                                   (snd (fst r)) (snd r)) records))
            None ->
        exists u,
          IOS.getUnit identifier = Some u
          /\ IOS.getHealthData env iOS16 options
             = ([IOS.mkQuery identifier start end_],
                mkResult true
                  (map (fun r => IOS.formatQuantitySample env u
                                   (fst (fst r)) (snd (fst r)) (snd r))
                     records)
                  None))
  (* the iOS read: a sample of the result comes from a delivered sample *)
  /\ (forall (env : IOS.Env) (iOS16 : bool) (options d : Dict),
        In (IOS.string_option options "identifier")
           IOS.quantityTypeIdentifiers ->
        In d (data (snd (IOS.getHealthData env iOS16 options))) ->
        exists u h tid q,
          IOS.getUnit (IOS.string_option options "identifier") = Some u
          /\ lookup "unit" d = Some (AString (IOS.unitString env u))
          /\ lookup "value" d = Some (ADouble (IOS.doubleValue q u))
          /\ exists query delivered,
               fst (IOS.getHealthData env iOS16 options) = [query]
               /\ IOS.samples (IOS.execute env query) = Some delivered
               /\ In (IOS.HKQuantitySample h tid q) delivered)
  (* the Android normalizer *)
  /\ (forall (env : Android.Env) (record : Android.Record_),
        Android.timed record ->
        lookup "unit" (Android.formatRecordToStandardFormat env record)
          = Some (AString (Android.getUnitForRecord (Android.body record)))
        /\ lookup "value" (Android.formatRecordToStandardFormat env record)
           = Some (Android.getValueForRecord (Android.body record)))
  (* the Android read: every delivered record is normalized, in order *)
  /\ (forall (env : Android.Env) (options : list (string * string))
             (identifier sd ed : string) (recordType : Android.RecordClass)
             (startTime endTime : Android.Instant)
             (records : list Android.Record_),
        Android.isHealthConnectAvailable env = true ->
        lookup "identifier" options = Some identifier ->
        lookup "startDate" options = Some sd ->
        lookup "endDate" options = Some ed ->
        lookup identifier Android.recordTypeMap = Some recordType ->
        Android.Instant_parse env sd = Android.Ok startTime ->
        Android.Instant_parse env ed = Android.Ok endTime ->
        Android.readRecords env recordType startTime endTime
        = Android.Ok records ->
        Android.getHealthData env options
        = ([Android.ReadRecordsRequest recordType startTime endTime],
           mkResult true
             (map (Android.formatRecordToStandardFormat env) records)
             None))
  (* the Android table *)
  /\ (forall n,
        Android.getUnitForRecord (Android.StepsRecord n) = "count"
        /\ Android.getValueForRecord (Android.StepsRecord n) = AInt n)
  /\ (forall x,
        Android.getUnitForRecord (Android.FloorsClimbedRecord x) = "count"
        /\ Android.getValueForRecord (Android.FloorsClimbedRecord x)
           = ADouble x)
  /\ (forall n,
        Android.getUnitForRecord (Android.HeartRateRecord n) = "bpm"
        /\ Android.getValueForRecord (Android.HeartRateRecord n) = AInt n)
  /\ (forall n,
        Android.getUnitForRecord (Android.RestingHeartRateRecord n) = "bpm"
        /\ Android.getValueForRecord (Android.RestingHeartRateRecord n)
           = AInt n)
  /\ (forall l,
        Android.getUnitForRecord (Android.DistanceRecord l) = "m"
        /\ Android.getValueForRecord (Android.DistanceRecord l)
           = ADouble (Android.inMeters l))
  /\ (forall e,
        Android.getUnitForRecord (Android.ActiveCaloriesBurnedRecord e)
          = "kcal"
        /\ Android.getValueForRecord (Android.ActiveCaloriesBurnedRecord e)
           = ADouble (Android.inKilocalories e))
  /\ (forall e,
        Android.getUnitForRecord (Android.TotalCaloriesBurnedRecord e)
          = "kcal"
        /\ Android.getValueForRecord (Android.TotalCaloriesBurnedRecord e)
           = ADouble (Android.inKilocalories e))
  /\ (forall x,
        Android.getUnitForRecord (Android.Vo2MaxRecord x) = "mL/(kg·min)"
        /\ Android.getValueForRecord (Android.Vo2MaxRecord x) = ADouble x).
Proof.
  split; [repeat split; reflexivity|].
  split; [intros env u h tid q; split; reflexivity|].
  split; [exact ios_quantity_read|].
  split; [exact ios_quantity_samples|].
  split; [exact android_timed_unit_value|].
  split.
  { intros env options identifier sd ed recordType startTime endTime
      records Hav Hid Hsd Hed Hcls Pstart Pend Hread.
    unfold Android.getHealthData.
    rewrite Hid, Hsd, Hed, Hav, Hcls. cbn [negb].
    now rewrite Pstart, Pend, Hread. }
  repeat split; reflexivity.
Qed.

(** The step-count record of magnitude 500 normalizes to the unit "count"
    and the value 500, and the 1500 m walk to the unit "m" and the value
    1500. *)
Lemma quantity_units_per_platform_witness :
  ( Swift.contains IOS.quantityTypeIdentifiers
      "HKQuantityTypeIdentifierStepCount" = true
    /\ IOS.execute Stub.ios_env
         (IOS.mkQuery "HKQuantityTypeIdentifierStepCount" 0%Z 0%Z)
       = IOS.mkCompletion
           (Some (map (fun r => IOS.HKQuantitySample (fst (fst r))
                                  (snd (fst r)) (snd r))
                    [(Stub.header, "HKQuantityTypeIdentifierStepCount",
                      IOS.mkQuantity (fun _ => 500%Q))]))
           None
    /\ IOS.getHealthData Stub.ios_env true
         (Stub.native_options "HKQuantityTypeIdentifierStepCount")
       = ([IOS.mkQuery "HKQuantityTypeIdentifierStepCount" 0%Z 0%Z],
          mkResult true
            [ IOS.formatQuantitySample Stub.ios_env IOS.count Stub.header
                "HKQuantityTypeIdentifierStepCount"
                (IOS.mkQuantity (fun _ => 500%Q)) ]
            None)
    /\ lookup "unit"
         (IOS.formatQuantitySample Stub.ios_env IOS.count Stub.header
            "HKQuantityTypeIdentifierStepCount"
            (IOS.mkQuantity (fun _ => 500%Q)))
       = Some (AString "count")
    /\ lookup "value"
         (IOS.formatQuantitySample Stub.ios_env IOS.count Stub.header
            "HKQuantityTypeIdentifierStepCount"
            (IOS.mkQuantity (fun _ => 500%Q)))
       = Some (ADouble 500%Q) )
  /\ ( Android.timed Stub.walk
       /\ lookup "unit"
            (Android.formatRecordToStandardFormat (Stub.android_env true)
               Stub.walk)
          = Some (AString "m")
       /\ lookup "value"
            (Android.formatRecordToStandardFormat (Stub.android_env true)
               Stub.walk)
          = Some (ADouble 1500%Q) ).
Proof.
  destruct quantity_units_per_platform
    as (_ & Hsample & Hread & _ & Handroid & _).
  split.
  - assert (Hq : Swift.contains IOS.quantityTypeIdentifiers
                   "HKQuantityTypeIdentifierStepCount" = true)
      by reflexivity.
    assert (Hex : IOS.execute Stub.ios_env
                    (IOS.mkQuery "HKQuantityTypeIdentifierStepCount" 0%Z 0%Z)
                  = IOS.mkCompletion
                      (Some (map (fun r => IOS.HKQuantitySample
                                             (fst (fst r)) (snd (fst r))
                                             (snd r))
                               [(Stub.header,
                                 "HKQuantityTypeIdentifierStepCount",
                                 IOS.mkQuantity (fun _ => 500%Q))]))
                      None)
      by reflexivity.
    split; [exact Hq|]. split; [exact Hex|].
    assert (N1 : "2024-01-01T00:00:00Z" <> "") by discriminate.
    assert (N2 : "2024-01-31T23:59:59Z" <> "") by discriminate.
    assert (P1 : IOS.isoFormatter_date Stub.ios_env "2024-01-01T00:00:00Z"
                 = Some 0%Z) by (vm_compute; reflexivity).
    assert (P2 : IOS.isoFormatter_date Stub.ios_env "2024-01-31T23:59:59Z"
                 = Some 0%Z) by (vm_compute; reflexivity).
    destruct (Hread Stub.ios_env true
                (Stub.native_options "HKQuantityTypeIdentifierStepCount")
                "HKQuantityTypeIdentifierStepCount"
                "2024-01-01T00:00:00Z" "2024-01-31T23:59:59Z" 0%Z 0%Z
                [(Stub.header, "HKQuantityTypeIdentifierStepCount",
                  IOS.mkQuantity (fun _ => 500%Q))]
                eq_refl eq_refl eq_refl N1 N2 P1 P2 Hq eq_refl Hex)
      as (u & Hu & Hresult).
    injection Hu as <-.
    split; [exact Hresult|].
    exact (Hsample Stub.ios_env IOS.count Stub.header
             "HKQuantityTypeIdentifierStepCount"
             (IOS.mkQuantity (fun _ => 500%Q))).
  - assert (Ht : Android.timed Stub.walk) by exact I.
    split; [exact Ht|].
    exact (Handroid (Stub.android_env true) Stub.walk Ht).
Defined.

(** C2, as the specification states it for Android: the 1500 m walk is normalized
    to the unit "m" and the value 1500, not to kilometers. *)
Lemma android_distance_not_in_kilometers :
  lookup "unit"
    (Android.formatRecordToStandardFormat (Stub.android_env true) Stub.walk)
    = Some (AString "m")
  /\ lookup "value"
       (Android.formatRecordToStandardFormat (Stub.android_env true)
          Stub.walk)
     = Some (ADouble 1500%Q)
  /\ ~ (1500 == Android.inKilometers (Android.mkLength 1500))%Q
  /\ ~ Claimed.distance_in_kilometers
         (Android.formatRecordToStandardFormat (Stub.android_env true)
            Stub.walk)
         (Android.mkLength 1500%Q).
Proof.
  split; [reflexivity|]. split; [reflexivity|]. split.
  - intros H. vm_compute in H. discriminate H.
  - intros [Hunit _]. discriminate Hunit.
Qed.

(** ** Sleep stages *)

(** The decimal rendering of an integer can be read back. *)
Lemma interpolate_read_back (value : Z) :
  option_map Z.of_int (NilZero.int_of_string (IOS.interpolate value))
  = Some value.
Proof.
  unfold IOS.interpolate. rewrite NilZero.isi.
  - simpl. f_equal. apply DecimalZ.of_to.
  - destruct value as [|p|p]; simpl; try discriminate.
    intros H. injection H as H.
    now apply DecimalPos.Unsigned.to_uint_nonnil in H.
  - destruct value as [|p|p]; simpl; try discriminate.
    intros H. injection H as H.
    now apply DecimalPos.Unsigned.to_uint_nonnil in H.
Qed.

Lemma mapSleepAnalysisValue_other (iOS16 : bool) (value : Z) :
  value <> 0%Z -> value <> 2%Z -> value <> 3%Z -> value <> 4%Z ->
  value <> 5%Z ->
  IOS.mapSleepAnalysisValue iOS16 value
  = "UNKNOWN_SLEEP_VALUE_" ++ IOS.interpolate value.
Proof.
  intros H0 H2 H3 H4 H5. unfold IOS.mapSleepAnalysisValue.
  rewrite (proj2 (Z.eqb_neq _ _) H0), (proj2 (Z.eqb_neq _ _) H2),
    (proj2 (Z.eqb_neq _ _) H3), (proj2 (Z.eqb_neq _ _) H4),
    (proj2 (Z.eqb_neq _ _) H5).
  now destruct iOS16.
Qed.

(** C3.  The sleep-analysis value of a category sample is normalized to the
    name of its stage: 0, 2, 3, 4 and 5 to in-bed, awake, asleep-core,
    asleep-deep and asleep-REM, whatever the system version; every other
    code to the placeholder "UNKNOWN_SLEEP_VALUE_" followed by the decimal
    rendering of the code, from which the code can be read back. *)
Theorem sleep_analysis_values (env : IOS.Env) (iOS16 : bool)
    (h : IOS.SampleHeader) (value : Z) :
  lookup "value"
    (IOS.formatCategorySample env iOS16 h
       "HKCategoryTypeIdentifierSleepAnalysis" value)
  = Some (AString (IOS.mapSleepAnalysisValue iOS16 value))
  /\ IOS.mapSleepAnalysisValue iOS16 0 = "HKCategoryValueSleepAnalysisInBed"
  /\ IOS.mapSleepAnalysisValue iOS16 2 = "HKCategoryValueSleepAnalysisAwake"
  /\ IOS.mapSleepAnalysisValue iOS16 3
     = "HKCategoryValueSleepAnalysisAsleepCore"
  /\ IOS.mapSleepAnalysisValue iOS16 4
     = "HKCategoryValueSleepAnalysisAsleepDeep"
  /\ IOS.mapSleepAnalysisValue iOS16 5
     = "HKCategoryValueSleepAnalysisAsleepREM"
  /\ (~ In value [0; 2; 3; 4; 5]%Z ->
      IOS.mapSleepAnalysisValue iOS16 value
      = "UNKNOWN_SLEEP_VALUE_" ++ IOS.interpolate value
      /\ option_map Z.of_int
           (NilZero.int_of_string (IOS.interpolate value))
         = Some value).
Proof.
  split; [reflexivity|].
  repeat (split; [now destruct iOS16|]).
  intros Hout. split; [|apply interpolate_read_back].
  apply mapSleepAnalysisValue_other; intros ->; apply Hout; simpl; tauto.
Qed.

(** Code 1, the unspecified sleep stage, has no name of its own. *)
Lemma sleep_analysis_values_witness :
  ~ In 1%Z [0; 2; 3; 4; 5]%Z
  /\ IOS.mapSleepAnalysisValue true 1 = "UNKNOWN_SLEEP_VALUE_1"
  /\ lookup "value"
       (IOS.formatCategorySample Stub.ios_env true Stub.header
          "HKCategoryTypeIdentifierSleepAnalysis" 4)
     = Some (AString "HKCategoryValueSleepAnalysisAsleepDeep").
Proof.
  assert (Hout : ~ In 1%Z [0; 2; 3; 4; 5]%Z)
    by (simpl; intuition discriminate).
  split; [exact Hout|]. split.
  - destruct (sleep_analysis_values Stub.ios_env true Stub.header 1)
      as (_ & _ & _ & _ & _ & _ & Hother).
    exact (proj1 (Hother Hout)).
  - exact (proj1 (sleep_analysis_values Stub.ios_env true Stub.header 4)).
Defined.

(* ================================================================== *)
(** ** Validation of a read request *)

(** The first guard of the facade: a falsy required field ends the call
    before anything else happens. *)
Lemma facade_falsy_field {St : Type} (OS : string) (nm : NativeModule St)
    (options : Facade.GetHealthDataOptions) :
  Facade.not_ (Facade.identifier options) = true
  \/ Facade.not_ (Facade.startDate options) = true
  \/ Facade.not_ (Facade.endDate options) = true ->
  Facade.getHealthData OS nm options
  = mkRun [] (Resolved missing_arguments).
Proof.
  intros H. unfold Facade.getHealthData.
  assert (E : Facade.not_ (Facade.identifier options)
              || Facade.not_ (Facade.startDate options)
              || Facade.not_ (Facade.endDate options) = true).
  { destruct H as [-> | [-> | ->]]; repeat rewrite orb_true_r; reflexivity. }
  now rewrite E.
Qed.

(** The first guard of the iOS module. *)
Lemma ios_empty_field (env : IOS.Env) (iOS16 : bool) (options : Dict) :
  IOS.string_option options "identifier" = ""
  \/ IOS.string_option options "startDate" = ""
  \/ IOS.string_option options "endDate" = "" ->
  IOS.getHealthData env iOS16 options = ([], missing_arguments).
Proof.
  intros H. unfold IOS.getHealthData.
  assert (E : IOS.isEmpty (IOS.string_option options "identifier")
              || IOS.isEmpty (IOS.string_option options "startDate")
              || IOS.isEmpty (IOS.string_option options "endDate") = true).
  { destruct H as [-> | [-> | ->]]; repeat rewrite orb_true_r; reflexivity. }
  now rewrite E.
Qed.

(** Past the first guard all three fields are non-empty strings. *)
Lemma facade_validated {St : Type} (OS : string) (nm : NativeModule St)
    (options : Facade.GetHealthDataOptions) (id sd ed : string) :
  Facade.identifier options = Some id ->
  Facade.startDate options = Some sd ->
  Facade.endDate options = Some ed ->
  id <> "" -> sd <> "" -> ed <> "" ->
  Facade.not_ (Facade.identifier options)
  || Facade.not_ (Facade.startDate options)
  || Facade.not_ (Facade.endDate options) = false.
Proof.
  intros -> -> -> Hid Hsd Hed. simpl.
  now rewrite (proj2 (String.eqb_neq _ _) Hid),
    (proj2 (String.eqb_neq _ _) Hsd), (proj2 (String.eqb_neq _ _) Hed).
Qed.

(** C4.  A read request that omits the identifier, the start date or the
    end date gets the missing-arguments failure: from the facade before any
    call to the native module, and from either native module before any
    read of the health store. *)
Theorem missing_arguments_short_circuit :
  (forall (St : Type) (OS : string) (nm : NativeModule St)
          (options : Facade.GetHealthDataOptions),
      Facade.identifier options = None
      \/ Facade.startDate options = None
      \/ Facade.endDate options = None ->
      Facade.getHealthData OS nm options
      = mkRun [] (Resolved missing_arguments))
  /\ (forall (env : Android.Env) (options : list (string * string)),
        lookup "identifier" options = None
        \/ lookup "startDate" options = None
        \/ lookup "endDate" options = None ->
        Android.getHealthData env options = ([], missing_arguments))
  /\ (forall (env : IOS.Env) (iOS16 : bool) (options : Dict),
        lookup "identifier" options = None
        \/ lookup "startDate" options = None
        \/ lookup "endDate" options = None ->
        IOS.getHealthData env iOS16 options = ([], missing_arguments))
  /\ has_error_code missing_arguments "missing_arguments".
Proof.
  split; [|split; [|split]].
  - intros St OS nm options H. apply facade_falsy_field.
    destruct H as [-> | [-> | ->]]; simpl; tauto.
  - intros env options H. unfold Android.getHealthData.
    destruct H as [-> | [-> | ->]].
    + reflexivity.
    + now destruct (lookup "identifier" options).
    + now destruct (lookup "identifier" options),
        (lookup "startDate" options).
  - intros env iOS16 options H. apply ios_empty_field.
    unfold IOS.string_option.
    destruct H as [-> | [-> | ->]]; tauto.
  - repeat split. now eexists.
Qed.

Lemma missing_arguments_short_circuit_witness :
  ( Facade.identifier
      (Facade.mkOptions None (Some "2024-01-01T00:00:00Z")
         (Some "2024-01-31T23:59:59Z") None None None) = None
    \/ Facade.startDate
         (Facade.mkOptions None (Some "2024-01-01T00:00:00Z")
            (Some "2024-01-31T23:59:59Z") None None None) = None
    \/ Facade.endDate
         (Facade.mkOptions None (Some "2024-01-01T00:00:00Z")
            (Some "2024-01-31T23:59:59Z") None None None) = None )
  /\ Facade.getHealthData "ios" (IOS.nativeModule Stub.ios_env true)
       (Facade.mkOptions None (Some "2024-01-01T00:00:00Z")
          (Some "2024-01-31T23:59:59Z") None None None)
     = mkRun [] (Resolved missing_arguments)
  /\ Android.getHealthData (Stub.android_env true)
       [("identifier", "Steps"); ("startDate", "2024-01-01T00:00:00Z")]
     = ([], missing_arguments)
  /\ IOS.getHealthData Stub.ios_env true
       [("startDate", AString "2024-01-01T00:00:00Z");
        ("endDate", AString "2024-01-31T23:59:59Z")]
     = ([], missing_arguments).
Proof.
  destruct missing_arguments_short_circuit as (Hfacade & Handroid & Hios & _).
  split; [left; reflexivity|]. split; [|split].
  - apply Hfacade. left. reflexivity.
  - apply Handroid. right. right. reflexivity.
  - apply Hios. left. reflexivity.
Defined.

(** C10.  An empty string in a required field counts as a missing
    argument: in the facade because the guard tests falsiness, in the iOS
    module because the guard tests emptiness of the parsed strings. *)
Theorem empty_string_is_missing_argument :
  (forall (St : Type) (OS : string) (nm : NativeModule St)
          (options : Facade.GetHealthDataOptions),
      Facade.identifier options = Some ""
      \/ Facade.startDate options = Some ""
      \/ Facade.endDate options = Some "" ->
      Facade.getHealthData OS nm options
      = mkRun [] (Resolved missing_arguments))
  /\ (forall (env : IOS.Env) (iOS16 : bool) (options : Dict),
        lookup "identifier" options = Some (AString "")
        \/ lookup "startDate" options = Some (AString "")
        \/ lookup "endDate" options = Some (AString "") ->
        IOS.getHealthData env iOS16 options = ([], missing_arguments))
  /\ has_error_code missing_arguments "missing_arguments"
  /\ ~ has_error_code missing_arguments "unsupported_identifier"
  /\ ~ has_error_code missing_arguments "invalid_date".
Proof.
  split; [|split; [|split; [|split]]].
  - intros St OS nm options H. apply facade_falsy_field.
    destruct H as [-> | [-> | ->]]; simpl; tauto.
  - intros env iOS16 options H. apply ios_empty_field.
    unfold IOS.string_option.
    destruct H as [-> | [-> | ->]]; tauto.
  - repeat split. now eexists.
  - intros (_ & _ & m & H). discriminate H.
  - intros (_ & _ & m & H). discriminate H.
Qed.

Lemma empty_string_is_missing_argument_witness :
  ( Facade.identifier
      (Facade.mkOptions (Some "") (Some "2024-01-01T00:00:00Z")
         (Some "2024-01-31T23:59:59Z") None None None) = Some ""
    \/ Facade.startDate
         (Facade.mkOptions (Some "") (Some "2024-01-01T00:00:00Z")
            (Some "2024-01-31T23:59:59Z") None None None) = Some ""
    \/ Facade.endDate
         (Facade.mkOptions (Some "") (Some "2024-01-01T00:00:00Z")
            (Some "2024-01-31T23:59:59Z") None None None) = Some "" )
  /\ Facade.getHealthData "android"
       (Android.nativeModule (Stub.android_env true))
       (Facade.mkOptions (Some "") (Some "2024-01-01T00:00:00Z")
          (Some "2024-01-31T23:59:59Z") None None None)
     = mkRun [] (Resolved missing_arguments)
  /\ IOS.getHealthData Stub.ios_env true
       [("identifier", AString "HKQuantityTypeIdentifierStepCount");
        ("startDate", AString "");
        ("endDate", AString "2024-01-31T23:59:59Z")]
     = ([], missing_arguments).
Proof.
  destruct empty_string_is_missing_argument as (Hfacade & Hios & _).
  split; [left; reflexivity|]. split.
  - apply Hfacade. left. reflexivity.
  - apply Hios. right. left. reflexivity.
Defined.

(** The pattern accepts a date-time with and without milliseconds and with
    and without the zone letter, and nothing like "not-a-date". *)
Example dateRegex_accepts :
  RegExp.test Facade.dateRegex "2024-01-01T00:00:00Z" = true
  /\ RegExp.test Facade.dateRegex "2024-01-01T00:00:00.000Z" = true
  /\ RegExp.test Facade.dateRegex "2024-01-01T00:00:00" = true
  /\ RegExp.test Facade.dateRegex "not-a-date" = false
  /\ RegExp.test Facade.dateRegex "2024-01-01" = false
  /\ RegExp.test Facade.dateRegex "2024-01-01T00:00:00.00Z" = false.
Proof. repeat split; vm_compute; reflexivity. Qed.

(** C5, as the code has it.  When the identifier, the start date and the
    end date are all present and non-empty, and the start date or the end
    date does not match the date pattern, the facade answers with the
    invalid-date failure without calling the native module. *)
Theorem invalid_date_short_circuit (St : Type) (OS : string)
    (nm : NativeModule St) (options : Facade.GetHealthDataOptions)
    (id sd ed : string) :
  Facade.identifier options = Some id ->
  Facade.startDate options = Some sd ->
  Facade.endDate options = Some ed ->
  id <> "" -> sd <> "" -> ed <> "" ->
  ~ RegExp.Matches Facade.dateRegex sd
  \/ ~ RegExp.Matches Facade.dateRegex ed ->
  Facade.getHealthData OS nm options = mkRun [] (Resolved invalid_date)
  /\ has_error_code invalid_date "invalid_date".
Proof.
  intros Hid Hsd Hed Nid Nsd Ned Hdates.
  split; [|repeat split; now eexists].
  unfold Facade.getHealthData.
  rewrite (facade_validated OS nm options id sd ed Hid Hsd Hed Nid Nsd Ned).
  rewrite Hid, Hsd, Hed. cbv beta iota zeta delta [Facade.the].
  assert (E : negb (RegExp.test Facade.dateRegex sd)
              || negb (RegExp.test Facade.dateRegex ed) = true).
  { destruct Hdates as [H|H];
      rewrite (RegExpFacts.test_false_not_Matches _ _ H); simpl;
      [reflexivity | apply orb_true_r]. }
  now rewrite E.
Qed.

Lemma invalid_date_short_circuit_witness :
  ( ~ RegExp.Matches Facade.dateRegex "not-a-date"
    \/ ~ RegExp.Matches Facade.dateRegex "2024-01-31T23:59:59Z" )
  /\ Facade.getHealthData "ios" (IOS.nativeModule Stub.ios_env true)
       (Facade.mkOptions (Some "stepCount") (Some "not-a-date")
          (Some "2024-01-31T23:59:59Z") None None None)
     = mkRun [] (Resolved invalid_date).
Proof.
  assert (H : ~ RegExp.Matches Facade.dateRegex "not-a-date"
              \/ ~ RegExp.Matches Facade.dateRegex "2024-01-31T23:59:59Z").
  { left. intros M. apply RegExpFacts.test_Matches in M.
    vm_compute in M. discriminate M. }
  split; [exact H|].
  refine (proj1 (invalid_date_short_circuit _ "ios"
                   (IOS.nativeModule Stub.ios_env true)
                   (Facade.mkOptions (Some "stepCount") (Some "not-a-date")
                      (Some "2024-01-31T23:59:59Z") None None None)
                   "stepCount" "not-a-date" "2024-01-31T23:59:59Z"
                   eq_refl eq_refl eq_refl _ _ _ H)); discriminate.
Defined.

(** C5, as the specification states it: a start date that does not match the
    pattern does not give the invalid-date failure when the identifier is
    omitted, nor when the start date is the empty string. *)
Lemma unmatched_date_without_invalid_date :
  ~ RegExp.Matches Facade.dateRegex "not-a-date"
  /\ Facade.getHealthData "ios" (IOS.nativeModule Stub.ios_env true)
       (Facade.mkOptions None (Some "not-a-date")
          (Some "2024-01-31T23:59:59Z") None None None)
     = mkRun [] (Resolved missing_arguments)
  /\ ~ RegExp.Matches Facade.dateRegex ""
  /\ Facade.getHealthData "ios" (IOS.nativeModule Stub.ios_env true)
       (Facade.mkOptions (Some "stepCount") (Some "")
          (Some "2024-01-31T23:59:59Z") None None None)
     = mkRun [] (Resolved missing_arguments)
  /\ ~ has_error_code missing_arguments "invalid_date".
Proof.
  repeat split.
  - intros M. apply RegExpFacts.test_Matches in M.
    vm_compute in M. discriminate M.
  - intros M. apply RegExpFacts.test_Matches in M.
    vm_compute in M. discriminate M.
  - intros (_ & _ & m & H). discriminate H.
Qed.

(* ================================================================== *)
(** ** Unsupported identifiers *)

Lemma not_in_ios_tables (identifier : string) :
  (forall entry,
      In entry (IOS.quantityTypeIdentifiers ++ IOS.categoryTypeIdentifiers
                ++ IOS.workoutTypeIdentifiers)%list ->
      Swift.equal identifier entry = false) ->
  Swift.contains IOS.quantityTypeIdentifiers identifier = false
  /\ Swift.contains IOS.categoryTypeIdentifiers identifier = false
  /\ Swift.equal identifier IOS.workoutType_identifier = false.
Proof.
  intros H.
  assert (Hl : forall l,
             incl l (IOS.quantityTypeIdentifiers
                     ++ IOS.categoryTypeIdentifiers
                     ++ IOS.workoutTypeIdentifiers)%list ->
             Swift.contains l identifier = false).
  { intros l Hincl. destruct (Swift.contains l identifier) eqn:E;
      [|reflexivity].
    unfold Swift.contains in E. apply existsb_exists in E as [x [Hx Ex]].
    rewrite (H x (Hincl x Hx)) in Ex. discriminate Ex. }
  repeat split.
  - apply Hl. intros x Hx. apply in_or_app. now left.
  - apply Hl. intros x Hx. apply in_or_app. right. apply in_or_app.
    now left.
  - apply H. apply in_or_app. right. apply in_or_app. right. now left.
Qed.

(** C6, as the code has it.  A native read whose identifier is not in the
    record-type table of the platform fails with the
    unsupported-identifier error and reads nothing from the store: on
    Android when Health Connect is available, whatever the dates are, and
    otherwise with the Health-Connect-unavailable error; on iOS when the
    identifier is not empty and both dates are non-empty and parse.  On
    iOS an identifier is in the table when Swift's string equality, which
    is canonical equivalence, identifies it with an entry. *)
Theorem unsupported_identifier_per_platform :
  (forall (env : Android.Env) (options : list (string * string))
          (identifier sd ed : string),
      lookup "identifier" options = Some identifier ->
      lookup "startDate" options = Some sd ->
      lookup "endDate" options = Some ed ->
      ~ In identifier (keys Android.recordTypeMap) ->
      exists m,
        Android.getHealthData env options
        = ([], if Android.isHealthConnectAvailable env
               then failure "unsupported_identifier" m
               else failure "health_connect_unavailable"
                      "Health Connect is not available on this device."))
  /\ (forall (env : IOS.Env) (iOS16 : bool) (options : Dict)
             (identifier sd ed : string) (start end_ : IOS.Date),
        lookup "identifier" options = Some (AString identifier) ->
        lookup "startDate" options = Some (AString sd) ->
        lookup "endDate" options = Some (AString ed) ->
        identifier <> "" -> sd <> "" -> ed <> "" ->
        IOS.isoFormatter_date env sd = Some start ->
        IOS.isoFormatter_date env ed = Some end_ ->
        (forall entry,
            In entry (IOS.quantityTypeIdentifiers
                      ++ IOS.categoryTypeIdentifiers
                      ++ IOS.workoutTypeIdentifiers)%list ->
            Swift.equal identifier entry = false) ->
        IOS.getHealthData env iOS16 options
        = ([], failure "unsupported_identifier" "Identifier not supported."))
  /\ (forall m, has_error_code (failure "unsupported_identifier" m)
                  "unsupported_identifier").
Proof.
  split; [|split].
  - intros env options identifier sd ed Hid Hsd Hed Hout.
    unfold Android.getHealthData. rewrite Hid, Hsd, Hed.
    pose proof (lookup_not_In _ _ Hout) as E.
    eexists. rewrite E.
    destruct (Android.isHealthConnectAvailable env); reflexivity.
  - intros env iOS16 options identifier sd ed start end_
      Hid Hsd Hed Nid Nsd Ned Pstart Pend Hout.
    unfold IOS.getHealthData, IOS.string_option, IOS.isEmpty.
    rewrite Hid, Hsd, Hed. cbv beta iota zeta.
    rewrite (proj2 (String.eqb_neq _ _) Nid),
      (proj2 (String.eqb_neq _ _) Nsd), (proj2 (String.eqb_neq _ _) Ned).
    rewrite Pstart, Pend.
    destruct (not_in_ios_tables identifier Hout) as (-> & -> & ->).
    reflexivity.
  - intros m. repeat split. now eexists.
Qed.

Lemma unsupported_identifier_per_platform_witness :
  ~ In "bogus-id" (keys Android.recordTypeMap)
  /\ (exists m,
        Android.getHealthData (Stub.android_env true)
          [("identifier", "bogus-id");
           ("startDate", "2024-01-01T00:00:00Z");
           ("endDate", "2024-01-31T23:59:59Z")]
        = ([], failure "unsupported_identifier" m))
  /\ (forall entry,
        In entry (IOS.quantityTypeIdentifiers ++ IOS.categoryTypeIdentifiers
                  ++ IOS.workoutTypeIdentifiers)%list ->
        Swift.equal "bogus-id" entry = false)
  /\ IOS.getHealthData Stub.ios_env true (Stub.native_options "bogus-id")
     = ([], failure "unsupported_identifier" "Identifier not supported.").
Proof.
  destruct unsupported_identifier_per_platform as (Handroid & Hios & _).
  assert (Ha : ~ In "bogus-id" (keys Android.recordTypeMap))
    by (simpl; intuition discriminate).
  assert (Hi : forall entry,
             In entry (IOS.quantityTypeIdentifiers
                       ++ IOS.categoryTypeIdentifiers
                       ++ IOS.workoutTypeIdentifiers)%list ->
             Swift.equal "bogus-id" entry = false).
  { intros entry H. simpl in H.
    repeat (destruct H as [<-|H]; [reflexivity|]). contradiction. }
  split; [exact Ha|]. split; [|split; [exact Hi|]].
  - exact (Handroid (Stub.android_env true)
             [("identifier", "bogus-id");
              ("startDate", "2024-01-01T00:00:00Z");
              ("endDate", "2024-01-31T23:59:59Z")]
             "bogus-id" "2024-01-01T00:00:00Z" "2024-01-31T23:59:59Z"
             eq_refl eq_refl eq_refl Ha).
  - refine (Hios Stub.ios_env true (Stub.native_options "bogus-id")
              "bogus-id" "2024-01-01T00:00:00Z" "2024-01-31T23:59:59Z"
              0%Z 0%Z eq_refl eq_refl eq_refl _ _ _ _ _ Hi);
      try discriminate; vm_compute; reflexivity.
Defined.

(** An identifier written with the Kelvin sign in place of the letter K is
    not an entry of the table by its code units, passes through the facade
    unchanged, and is the workout identifier for the iOS module, which
    runs the workout query for it. *)
Example kelvin_sign_identifier :
  ~ In "HKWorkoutTypeIdentifier"
      (IOS.quantityTypeIdentifiers ++ IOS.categoryTypeIdentifiers
       ++ IOS.workoutTypeIdentifiers)%list
  /\ Facade.ios_identifier "HKWorkoutTypeIdentifier" = "HKWorkoutTypeIdentifier"
  /\ Swift.equal "HKWorkoutTypeIdentifier" IOS.workoutType_identifier = true
  /\ fst (IOS.getHealthData Stub.ios_env true (Stub.native_options "HKWorkoutTypeIdentifier"))
     = [IOS.mkQuery "HKWorkoutTypeIdentifier" 0%Z 0%Z].
Proof.
  split; [simpl; intuition discriminate|].
  repeat split; vm_compute; reflexivity.
Qed.

(** C6, as the specification states it: on a device without Health Connect the
    Android module answers a read for an identifier outside its table with
    the Health-Connect-unavailable error. *)
Lemma unsupported_identifier_without_health_connect :
  ~ In "bogus-id" (keys Android.recordTypeMap)
  /\ Android.getHealthData (Stub.android_env false)
       [("identifier", "bogus-id");
        ("startDate", "2024-01-01T00:00:00Z");
        ("endDate", "2024-01-31T23:59:59Z")]
     = ([], failure "health_connect_unavailable"
              "Health Connect is not available on this device.")
  /\ ~ has_error_code
         (snd (Android.getHealthData (Stub.android_env false)
                 [("identifier", "bogus-id");
                  ("startDate", "2024-01-01T00:00:00Z");
                  ("endDate", "2024-01-31T23:59:59Z")]))
         "unsupported_identifier".
Proof.
  split; [simpl; intuition discriminate|]. split; [reflexivity|].
  intros (_ & _ & m & H). discriminate H.
Qed.

(** Through the facade, "bogus-id" reaches the iOS module unchanged and is
    refused there. *)
Example bogus_id_through_the_facade :
  Facade.getHealthData "ios" (IOS.nativeModule Stub.ios_env true)
    (Facade.mkOptions (Some "bogus-id") (Some "2024-01-01T00:00:00Z")
       (Some "2024-01-31T23:59:59Z") None None None)
  = mkRun [CallGetHealthData (Stub.native_options "bogus-id")]
      (Resolved (failure "unsupported_identifier"
                   "Identifier not supported.")).
Proof. vm_compute. reflexivity. Qed.

(* ================================================================== *)
(** ** The shape of a read result *)

Ltac split_cases :=
  repeat match goal with
         | |- context [match ?x with _ => _ end] => destruct x
         end.

Ltac shape :=
  unfold result_well_formed; simpl;
  first [reflexivity | split; [reflexivity | discriminate]].

Lemma android_result_well_formed (env : Android.Env)
    (options : list (string * string)) :
  result_well_formed (snd (Android.getHealthData env options)).
Proof. unfold Android.getHealthData. split_cases; shape. Qed.

Lemma handle_well_formed (c : IOS.Completion)
    (format : IOS.HKSample -> option Dict) :
  result_well_formed (IOS.handle c format).
Proof. unfold IOS.handle. split_cases; shape. Qed.

Lemma ios_result_well_formed (env : IOS.Env) (iOS16 : bool)
    (options : Dict) :
  result_well_formed (snd (IOS.getHealthData env iOS16 options)).
Proof.
  unfold IOS.getHealthData.
  destruct (IOS.isEmpty _ || IOS.isEmpty _ || IOS.isEmpty _); [shape|].
  destruct (IOS.isoFormatter_date env _); [|shape].
  destruct (IOS.isoFormatter_date env _); [|shape].
  destruct (Swift.contains IOS.quantityTypeIdentifiers _
            && IOS.quantityType_forIdentifier env _).
  { destruct (IOS.getUnit _); [apply handle_well_formed | shape]. }
  destruct (Swift.contains IOS.categoryTypeIdentifiers _
            && IOS.categoryType_forIdentifier env _).
  { apply handle_well_formed. }
  destruct (Swift.equal _ IOS.workoutType_identifier);
    [apply handle_well_formed | shape].
Qed.

Lemma facade_result_well_formed {St : Type} (OS : string)
    (nm : NativeModule St) (options : Facade.GetHealthDataOptions)
    (r : GetHealthDataResult) :
  (forall d r', native_getHealthData nm d = Resolved r' ->
                result_well_formed r') ->
  returned (Facade.getHealthData OS nm options) = Resolved r ->
  result_well_formed r.
Proof.
  intros Hnative. unfold Facade.getHealthData.
  destruct (Facade.not_ _ || Facade.not_ _ || Facade.not_ _).
  { simpl. intros [= <-]. shape. }
  cbv zeta.
  destruct (negb _ || negb _).
  { simpl. intros [= <-]. shape. }
  destruct (String.eqb OS "ios").
  { cbv zeta. cbn [returned].
    destruct (native_getHealthData nm _) as [res|e] eqn:E.
    - intros [= <-]. exact (Hnative _ _ E).
    - intros [= <-]. destruct e; shape. }
  destruct (String.eqb OS "android").
  { cbv zeta. cbn [returned]. intros E. exact (Hnative _ _ E). }
  simpl. intros [= <-]. shape.
Qed.

(** C7.  Every result of a read has the shape the success flag announces:
    a failure carries no data and a populated error, a success carries no
    error.  This holds of every branch of the Android module, of the iOS
    module and of the web module, and the facade adds only results of that
    shape to the ones the native module resolves with. *)
Theorem read_results_well_formed :
  (forall (env : Android.Env) (options : list (string * string)),
      result_well_formed (snd (Android.getHealthData env options)))
  /\ (forall (env : IOS.Env) (iOS16 : bool) (options : Dict),
        result_well_formed (snd (IOS.getHealthData env iOS16 options)))
  /\ (forall options : Dict, result_well_formed (Web.getHealthData options))
  /\ (forall (St : Type) (OS : string) (nm : NativeModule St)
             (options : Facade.GetHealthDataOptions)
             (r : GetHealthDataResult),
        (forall d r', native_getHealthData nm d = Resolved r' ->
                      result_well_formed r') ->
        returned (Facade.getHealthData OS nm options) = Resolved r ->
        result_well_formed r).
Proof.
  split; [exact android_result_well_formed|].
  split; [exact ios_result_well_formed|].
  split; [intros options; shape|].
  intros St. exact facade_result_well_formed.
Qed.

(** The facade on iOS over the stub store: the January read of the step
    count succeeds with one sample and no error. *)
Lemma read_results_well_formed_witness :
  (forall d r',
      native_getHealthData (IOS.nativeModule Stub.ios_env true) d
      = Resolved r' -> result_well_formed r')
  /\ exists r,
       returned (Facade.getHealthData "ios"
                   (IOS.nativeModule Stub.ios_env true) Stub.january)
       = Resolved r
       /\ success r = true /\ List.length (data r) = 1%nat
       /\ result_well_formed r.
Proof.
  destruct read_results_well_formed as (_ & Hios & _ & Hfacade).
  assert (Hnative : forall d r',
             native_getHealthData (IOS.nativeModule Stub.ios_env true) d
             = Resolved r' -> result_well_formed r').
  { intros d r' [= <-]. apply Hios. }
  split; [exact Hnative|].
  eexists. split; [vm_compute; reflexivity|].
  split; [reflexivity|]. split; [reflexivity|].
  exact (Hfacade _ "ios" (IOS.nativeModule Stub.ios_env true) Stub.january
           _ Hnative eq_refl).
Defined.

(* ================================================================== *)
(** ** Unsupported platforms *)

Lemma neither_platform (OS : string) :
  OS <> "ios" -> OS <> "android" ->
  String.eqb OS "ios" = false /\ String.eqb OS "android" = false.
Proof. intros H1 H2. split; now apply String.eqb_neq. Qed.

(** C8, as the code has it.  On a platform that is neither iOS nor Android
    the facade makes no native call and both functions resolve with a
    failure: [authorizeHealthKit] with empty lists and a message,
    [getHealthData] with the missing-arguments or the invalid-date failure
    when the request does not pass validation, and with the synthesized
    permission-denied failure when it does. *)
Theorem unsupported_platform_results (St : Type) (OS : string)
    (nm : NativeModule St) (options : Facade.GetHealthDataOptions) :
  OS <> "ios" -> OS <> "android" ->
  Facade.authorizeHealthKit OS nm
  = mkRun []
      (Resolved (mkAuthorize false [] []
         (Some "Health data is only available on iOS and Android.")))
  /\ (exists r,
        Facade.getHealthData OS nm options = mkRun [] (Resolved r)
        /\ success r = false /\ data r = []
        /\ (r = missing_arguments \/ r = invalid_date
            \/ r = Facade.createUnsupportedPlatformError))
  /\ (forall id sd ed,
        Facade.identifier options = Some id ->
        Facade.startDate options = Some sd ->
        Facade.endDate options = Some ed ->
        id <> "" -> sd <> "" -> ed <> "" ->
        RegExp.Matches Facade.dateRegex sd ->
        RegExp.Matches Facade.dateRegex ed ->
        Facade.getHealthData OS nm options
        = mkRun [] (Resolved Facade.createUnsupportedPlatformError))
  /\ has_error_code Facade.createUnsupportedPlatformError
       "permission_denied".
Proof.
  intros Hios Handroid.
  destruct (neither_platform OS Hios Handroid) as [Ei Ea].
  split; [|split; [|split]].
  - unfold Facade.authorizeHealthKit. now rewrite Ei, Ea.
  - unfold Facade.getHealthData. rewrite Ei, Ea.
    destruct (Facade.not_ _ || Facade.not_ _ || Facade.not_ _).
    { eexists. split; [reflexivity|]. repeat split. now left. }
    cbv zeta.
    destruct (negb _ || negb _);
      eexists; (split; [reflexivity|]); repeat split; tauto.
  - intros id sd ed Hid Hsd Hed Nid Nsd Ned Msd Med.
    unfold Facade.getHealthData.
    rewrite (facade_validated OS nm options id sd ed Hid Hsd Hed Nid Nsd Ned).
    rewrite Hid, Hsd, Hed. cbv beta iota zeta delta [Facade.the].
    rewrite (proj2 (RegExpFacts.test_Matches _ _) Msd),
      (proj2 (RegExpFacts.test_Matches _ _) Med).
    simpl. now rewrite Ei, Ea.
  - repeat split. now eexists.
Qed.

Lemma unsupported_platform_results_witness :
  "web" <> "ios" /\ "web" <> "android"
  /\ Facade.authorizeHealthKit "web" (IOS.nativeModule Stub.ios_env true)
     = mkRun []
         (Resolved (mkAuthorize false [] []
            (Some "Health data is only available on iOS and Android.")))
  /\ Facade.getHealthData "web" (IOS.nativeModule Stub.ios_env true)
       Stub.january
     = mkRun [] (Resolved Facade.createUnsupportedPlatformError).
Proof.
  assert (H1 : "web" <> "ios") by discriminate.
  assert (H2 : "web" <> "android") by discriminate.
  destruct (unsupported_platform_results _ "web"
              (IOS.nativeModule Stub.ios_env true) Stub.january H1 H2)
    as (Hauth & _ & Hread & _).
  split; [exact H1|]. split; [exact H2|]. split; [exact Hauth|].
  refine (Hread "stepCount" "2024-01-01T00:00:00Z" "2024-01-31T23:59:59Z"
            eq_refl eq_refl eq_refl _ _ _ _ _); try discriminate;
    apply RegExpFacts.test_Matches; vm_compute; reflexivity.
Defined.

(** C8, as the specification states it: on the web platform a read request without
    its required fields is answered with the missing-arguments failure,
    which is neither the unsupported-platform nor the permission-denied
    error. *)
Lemma unsupported_platform_missing_arguments :
  "web" <> "ios" /\ "web" <> "android"
  /\ Facade.getHealthData "web" (IOS.nativeModule Stub.ios_env true)
       (Facade.mkOptions None None None None None None)
     = mkRun [] (Resolved missing_arguments)
  /\ ~ has_error_code missing_arguments "unsupported_platform"
  /\ ~ has_error_code missing_arguments "permission_denied".
Proof.
  split; [discriminate|]. split; [discriminate|]. split; [reflexivity|].
  split; intros (_ & _ & m & H); discriminate H.
Qed.

(* ================================================================== *)
(** ** Background sync *)

(** What the system does to the iOS module between two calls leaves the
    enabled flag as it is. *)
Lemma background_keeps_enabled (env : IOS.Env) (b : IOS.Background)
    (st : IOS.State) :
  IOS.backgroundSyncEnabled (IOS.background env b st)
  = IOS.backgroundSyncEnabled st.
Proof.
  destruct b as [sampleType failed|cancelled]; simpl.
  - unfold IOS.observerUpdate. now destruct failed.
  - unfold IOS.handleBackgroundRefresh. now destruct cancelled.
Qed.

(** C9, as the code has it.  On iOS the status read right after
    [enableBackgroundSync] reports enabled, and the status read right after
    [disableBackgroundSync] reports not enabled, also when the sync had
    been enabled before.  On Android [enableBackgroundSync] is a stub that
    fails, and the status reports not enabled after it as after
    [disableBackgroundSync]. *)
Theorem background_sync_status :
  (forall (env : IOS.Env) (iOS16 : bool) (options : Dict) (st : IOS.State),
      let nm := IOS.nativeModule env iOS16 in
      let st1 := fst (Facade.enableBackgroundSync "ios" nm options st) in
      returned (snd (Facade.getBackgroundSyncStatus "ios" nm st1))
      = Resolved (mkSyncStatus true (IOS.lastSyncTimestamp st) None))
  /\ (forall (env : IOS.Env) (iOS16 : bool) (st : IOS.State),
        let nm := IOS.nativeModule env iOS16 in
        let st1 := fst (Facade.disableBackgroundSync "ios" nm st) in
        returned (snd (Facade.getBackgroundSyncStatus "ios" nm st1))
        = Resolved (mkSyncStatus false (IOS.lastSyncTimestamp st) None))
  /\ (forall (env : IOS.Env) (iOS16 : bool) (options : Dict) (st : IOS.State),
        let nm := IOS.nativeModule env iOS16 in
        let st1 := fst (Facade.enableBackgroundSync "ios" nm options st) in
        let st2 := fst (Facade.disableBackgroundSync "ios" nm st1) in
        returned (snd (Facade.getBackgroundSyncStatus "ios" nm st2))
        = Resolved (mkSyncStatus false (IOS.lastSyncTimestamp st) None))
  /\ (forall (env : Android.Env) (options : Dict) (st : Android.State),
        let nm := Android.nativeModule env in
        let run := Facade.enableBackgroundSync "android" nm options st in
        (exists m,
           returned (snd run) = Resolved (mkSyncResult false (Some m)))
        /\ returned (snd (Facade.getBackgroundSyncStatus "android" nm
                            (fst run)))
           = Resolved (mkSyncStatus false None None))
  /\ (forall (env : Android.Env) (st : Android.State),
        let nm := Android.nativeModule env in
        let st1 := fst (Facade.disableBackgroundSync "android" nm st) in
        returned (snd (Facade.getBackgroundSyncStatus "android" nm st1))
        = Resolved (mkSyncStatus false None None)).
Proof.
  split; [|split; [|split; [|split]]].
  - intros env iOS16 options st. simpl.
    unfold IOS.enableBackgroundSync.
    destruct (IOS.double_option options "syncInterval"); reflexivity.
  - intros env iOS16 st. reflexivity.
  - intros env iOS16 options st. simpl.
    unfold IOS.enableBackgroundSync.
    destruct (IOS.double_option options "syncInterval"); reflexivity.
  - intros env options st. simpl. split; [eexists|]; reflexivity.
  - intros env st. reflexivity.
Qed.

(** C9, as the specification states it for Android: the status read right after
    [enableBackgroundSync] reports not enabled. *)
Lemma android_status_after_enable :
  returned
    (snd (Facade.getBackgroundSyncStatus "android"
            (Android.nativeModule (Stub.android_env true))
            (fst (Facade.enableBackgroundSync "android"
                    (Android.nativeModule (Stub.android_env true))
                    [("syncInterval", ADouble 1%Q)] tt))))
  = Resolved (mkSyncStatus false None None)
  /\ enabled (mkSyncStatus false None None) <> true.
Proof. split; [reflexivity | discriminate]. Qed.

(* ================================================================== *)
(** * Further properties of the code *)

(** ** Translation of identifiers *)

Lemma lookup_In {A : Type} (k : string) (v : A) (d : list (string * A)) :
  lookup k d = Some v -> In (k, v) d.
Proof.
  induction d as [|[k' v'] d IH]; simpl; intros H.
  - discriminate.
  - destruct (String.eqb_spec k k') as [->|Hne].
    + left. congruence.
    + right. now apply IH.
Qed.

Ltac listed := apply contains_In; vm_compute; reflexivity.

(** X1.  Every unified identifier of the mapping table is translated by the
    facade to the identifier its row names, and that identifier is one the
    native module of the platform has in its table: the three identifier
    lists of the iOS module, the record-type map of the Android module. *)
Theorem translation_lands_in_native_tables (id : string)
    (m : Facade.Mapping) :
  In (id, m) Facade.IDENTIFIER_MAPPING ->
  Facade.ios_identifier id = Facade.ios m
  /\ In (Facade.ios m)
        (IOS.quantityTypeIdentifiers ++ IOS.categoryTypeIdentifiers
         ++ IOS.workoutTypeIdentifiers)%list
  /\ Facade.android_identifier id = Facade.android m
  /\ In (Facade.android m) (keys Android.recordTypeMap).
Proof.
  intros H. unfold Facade.IDENTIFIER_MAPPING in H. simpl in H.
  repeat (destruct H as [H|H];
          [injection H as <- <-;
           split; [reflexivity|]; split; [listed|];
           split; [reflexivity|listed]|]).
  contradiction.
Qed.

Lemma translation_lands_in_native_tables_witness :
  In ("sleepAnalysis",
      Facade.mkMapping "HKCategoryTypeIdentifierSleepAnalysis" "SleepSession")
     Facade.IDENTIFIER_MAPPING
  /\ Facade.ios_identifier "sleepAnalysis"
     = "HKCategoryTypeIdentifierSleepAnalysis"
  /\ Facade.android_identifier "sleepAnalysis" = "SleepSession".
Proof.
  assert (H : In ("sleepAnalysis",
                  Facade.mkMapping "HKCategoryTypeIdentifierSleepAnalysis"
                    "SleepSession") Facade.IDENTIFIER_MAPPING)
    by (simpl; tauto).
  destruct (translation_lands_in_native_tables _ _ H) as (Hi & _ & Ha & _).
  split; [exact H|]. split; [exact Hi | exact Ha].
Defined.

(** X2.  Translating twice is translating once, on both platforms and for
    every string: what the facade hands to the native module is a fixed
    point of the translation, so an identifier that is already native
    passes through unchanged. *)
Theorem translation_idempotent (id : string) :
  Facade.ios_identifier (Facade.ios_identifier id) = Facade.ios_identifier id
  /\ Facade.android_identifier (Facade.android_identifier id)
     = Facade.android_identifier id.
Proof.
  split.
  - unfold Facade.ios_identifier at 2.
    destruct (Facade.startsWith id "HK") eqn:E.
    + unfold Facade.ios_identifier. now rewrite E.
    + unfold Facade.get_mapping.
      destruct (lookup id Facade.IDENTIFIER_MAPPING) as [m|] eqn:L.
      * apply lookup_In in L. unfold Facade.IDENTIFIER_MAPPING in L.
        simpl in L.
        repeat (destruct L as [L|L]; [injection L as <- <-; reflexivity|]).
        contradiction.
      * assert (R : Facade.or_else
                      (Facade.opt_ios
                         (if contains Facade.Object_prototype id
                          then Facade.JSInherited id
                          else Facade.JSUndefined)) id = id)
          by (destruct (contains Facade.Object_prototype id); reflexivity).
        rewrite R. unfold Facade.ios_identifier, Facade.get_mapping.
        now rewrite E, L, R.
  - unfold Facade.android_identifier at 2.
    destruct (existsb _ (values Facade.IDENTIFIER_MAPPING)) eqn:E.
    + unfold Facade.android_identifier. now rewrite E.
    + unfold Facade.get_mapping.
      destruct (lookup id Facade.IDENTIFIER_MAPPING) as [m|] eqn:L.
      * apply lookup_In in L. unfold Facade.IDENTIFIER_MAPPING in L.
        simpl in L.
        repeat (destruct L as [L|L]; [injection L as <- <-; reflexivity|]).
        contradiction.
      * assert (R : Facade.or_else
                      (Facade.opt_android
                         (if contains Facade.Object_prototype id
                          then Facade.JSInherited id
                          else Facade.JSUndefined)) id = id)
          by (destruct (contains Facade.Object_prototype id); reflexivity).
        rewrite R. unfold Facade.android_identifier, Facade.get_mapping.
        now rewrite E, L, R.
Qed.

(** X3.  The list [getSupportedIdentifiers] gives on iOS is the three
    identifier lists of the iOS module, in their order.  On iOS and on
    Android, an identifier that [isValidHealthDataIdentifier] accepts is
    translated by the facade to an identifier of the native module's
    table. *)
Theorem valid_identifiers_are_supported :
  Facade.getSupportedIdentifiers "ios"
  = (IOS.quantityTypeIdentifiers ++ IOS.categoryTypeIdentifiers
     ++ IOS.workoutTypeIdentifiers)%list
  /\ Facade.getSupportedIdentifiers "android"
     = keys Facade.IDENTIFIER_MAPPING
  /\ (forall id,
        Facade.isValidHealthDataIdentifier "ios" id = true ->
        Facade.ios_identifier id = id
        /\ In id (IOS.quantityTypeIdentifiers ++ IOS.categoryTypeIdentifiers
                  ++ IOS.workoutTypeIdentifiers)%list)
  /\ (forall id,
        Facade.isValidHealthDataIdentifier "android" id = true ->
        In (Facade.android_identifier id) (keys Android.recordTypeMap)).
Proof.
  split; [reflexivity|]. split; [reflexivity|]. split.
  - intros id H. apply contains_In in H.
    change (Facade.getSupportedIdentifiers "ios")
      with (IOS.quantityTypeIdentifiers ++ IOS.categoryTypeIdentifiers
            ++ IOS.workoutTypeIdentifiers)%list in H.
    split; [|exact H]. simpl in H.
    repeat (destruct H as [<-|H]; [reflexivity|]). contradiction.
  - intros id H. apply contains_In in H. simpl in H.
    repeat (destruct H as [<-|H]; [listed|]). contradiction.
Qed.

Lemma valid_identifiers_are_supported_witness :
  Facade.isValidHealthDataIdentifier "ios" "HKWorkoutTypeIdentifier" = true
  /\ Facade.ios_identifier "HKWorkoutTypeIdentifier"
     = "HKWorkoutTypeIdentifier"
  /\ Facade.isValidHealthDataIdentifier "android" "vo2Max" = true
  /\ In (Facade.android_identifier "vo2Max") (keys Android.recordTypeMap).
Proof.
  destruct valid_identifiers_are_supported as (_ & _ & Hios & Handroid).
  split; [reflexivity|].
  split; [exact (proj1 (Hios "HKWorkoutTypeIdentifier" eq_refl))|].
  split; [reflexivity|].
  exact (Handroid "vo2Max" eq_refl).
Defined.

(** ** The shape of an accepted date *)







(* ================================================================== *)
(** ** Reads of the health store *)

Lemma handle_code (c : IOS.Completion)
    (format : IOS.HKSample -> option Dict) (code' : string) :
  has_error_code (IOS.handle c format) code' -> code' = "query_error".
Proof.
  unfold IOS.handle. intros (Hs & _ & m & He). revert Hs He.
  split_cases; simpl; intros Hs He; try discriminate.
  now injection He as <- _.
Qed.

Lemma cast_all_length {A B : Type} (f : A -> option B) (l : list A)
    (l' : list B) :
  IOS.cast_all f l = Some l' -> List.length l' = List.length l.
Proof.
  revert l'. induction l as [|a l IH]; simpl; intros l' H.
  - now injection H as <-.
  - destruct (f a); [|discriminate].
    destruct (IOS.cast_all f l) as [bs|]; [|discriminate].
    injection H as <-. simpl. now rewrite (IH bs eq_refl).
Qed.

(** The outcomes of an executed sample query. *)
Lemma handle_outcomes (c : IOS.Completion)
    (format : IOS.HKSample -> option Dict) :
  (forall e, IOS.query_error c = Some e ->
             IOS.handle c format = failure "query_error" e)
  /\ (IOS.query_error c = None ->
      success (IOS.handle c format) = true
      /\ (data (IOS.handle c format) = []
          \/ exists delivered,
               IOS.samples c = Some delivered
               /\ List.length (data (IOS.handle c format))
                  = List.length delivered)).
Proof.
  unfold IOS.handle. split.
  - now intros e ->.
  - intros ->. destruct (IOS.samples c) as [l|]; [|split; [reflexivity|now left]].
    destruct (IOS.cast_all format l) as [l'|] eqn:E;
      [|split; [reflexivity|now left]].
    split; [reflexivity|]. right. exists l. split; [reflexivity|].
    simpl. now apply cast_all_length in E.
Qed.

(** X5.  A call of the native [getHealthData] reads the health store at
    most once, on both platforms; a successful result comes from exactly
    one read; and the failures that are decided before the store is asked
    (missing arguments, unavailable Health Connect, unsupported identifier,
    invalid date, internal error) come with no read at all. *)
Theorem one_read_per_call :
  (forall (env : Android.Env) (options : list (string * string)),
      (List.length (fst (Android.getHealthData env options)) <= 1)%nat
      /\ (success (snd (Android.getHealthData env options)) = true ->
          List.length (fst (Android.getHealthData env options)) = 1%nat)
      /\ (forall c,
            In c ["missing_arguments"; "health_connect_unavailable";
                  "unsupported_identifier"] ->
            has_error_code (snd (Android.getHealthData env options)) c ->
            fst (Android.getHealthData env options) = []))
  /\ (forall (env : IOS.Env) (iOS16 : bool) (options : Dict),
        (List.length (fst (IOS.getHealthData env iOS16 options)) <= 1)%nat
        /\ (success (snd (IOS.getHealthData env iOS16 options)) = true ->
            List.length (fst (IOS.getHealthData env iOS16 options)) = 1%nat)
        /\ (forall c,
              In c ["missing_arguments"; "invalid_date"; "internal_error";
                    "unsupported_identifier"] ->
              has_error_code (snd (IOS.getHealthData env iOS16 options)) c ->
              fst (IOS.getHealthData env iOS16 options) = [])).
Proof.
  split.
  - intros env options. unfold Android.getHealthData.
    split_cases; simpl;
      (split; [auto|]); (split; [first [reflexivity | discriminate]|]);
      intros c Hc (_ & _ & m & He); try reflexivity;
      try discriminate He;
      injection He as <- _;
      simpl in Hc; intuition discriminate.
  - intros env iOS16 options. unfold IOS.getHealthData.
    destruct (IOS.isEmpty _ || IOS.isEmpty _ || IOS.isEmpty _);
      [simpl; split; [auto|]; split; [discriminate|reflexivity]|].
    destruct (IOS.isoFormatter_date env _);
      [|simpl; split; [auto|]; split; [discriminate|reflexivity]].
    destruct (IOS.isoFormatter_date env _);
      [|simpl; split; [auto|]; split; [discriminate|reflexivity]].
    assert (Hquery : forall q c f,
               (List.length (fst ([q], IOS.handle c f)) <= 1)%nat
               /\ (success (snd ([q], IOS.handle c f)) = true ->
                   List.length (fst ([q], IOS.handle c f)) = 1%nat)
               /\ (forall c0,
                     In c0 ["missing_arguments"; "invalid_date";
                            "internal_error"; "unsupported_identifier"] ->
                     has_error_code (snd ([q], IOS.handle c f)) c0 ->
                     fst ([q], IOS.handle c f) = @nil IOS.HKSampleQuery)).
    { intros q c f. simpl. split; [auto|]. split; [reflexivity|].
      intros c0 Hc0 Hcode. apply handle_code in Hcode. subst c0.
      simpl in Hc0. intuition discriminate. }
    destruct (Swift.contains IOS.quantityTypeIdentifiers _
              && IOS.quantityType_forIdentifier env _).
    { destruct (IOS.getUnit _); [apply Hquery|].
      simpl. split; [auto|]. split; [discriminate|reflexivity]. }
    destruct (Swift.contains IOS.categoryTypeIdentifiers _
              && IOS.categoryType_forIdentifier env _); [apply Hquery|].
    destruct (Swift.equal _ IOS.workoutType_identifier); [apply Hquery|].
    simpl. split; [auto|]. split; [discriminate|reflexivity].
Qed.

Lemma one_read_per_call_witness :
  success (snd (IOS.getHealthData Stub.ios_env true
                  (Stub.native_options "HKQuantityTypeIdentifierStepCount")))
  = true
  /\ List.length
       (fst (IOS.getHealthData Stub.ios_env true
               (Stub.native_options "HKQuantityTypeIdentifierStepCount")))
     = 1%nat
  /\ In "health_connect_unavailable"
        ["missing_arguments"; "health_connect_unavailable";
         "unsupported_identifier"]
  /\ has_error_code
       (snd (Android.getHealthData (Stub.android_env false)
               [("identifier", "Steps");
                ("startDate", "2024-01-01T00:00:00Z");
                ("endDate", "2024-01-31T23:59:59Z")]))
       "health_connect_unavailable"
  /\ fst (Android.getHealthData (Stub.android_env false)
            [("identifier", "Steps");
             ("startDate", "2024-01-01T00:00:00Z");
             ("endDate", "2024-01-31T23:59:59Z")])
     = [].
Proof.
  destruct one_read_per_call as (Handroid & Hios).
  assert (Hs : success
                 (snd (IOS.getHealthData Stub.ios_env true
                         (Stub.native_options
                            "HKQuantityTypeIdentifierStepCount"))) = true)
    by reflexivity.
  assert (Hin : In "health_connect_unavailable"
                  ["missing_arguments"; "health_connect_unavailable";
                   "unsupported_identifier"])
    by (simpl; tauto).
  assert (Hc : has_error_code
                 (snd (Android.getHealthData (Stub.android_env false)
                         [("identifier", "Steps");
                          ("startDate", "2024-01-01T00:00:00Z");
                          ("endDate", "2024-01-31T23:59:59Z")]))
                 "health_connect_unavailable")
    by (repeat split; eexists; reflexivity).
  split; [exact Hs|].
  split; [exact (proj1 (proj2 (Hios Stub.ios_env true _)) Hs)|].
  split; [exact Hin|]. split; [exact Hc|].
  exact (proj2 (proj2 (Handroid (Stub.android_env false) _)) _ Hin Hc).
Defined.

(** X6.  The Android read, once Health Connect is available and the
    identifier is a key of the record-type map: a date that does not parse
    gives the query-error failure without any read (there is no
    invalid-date failure on Android); a read that throws gives the
    query-error failure; a read that returns gives one sample per record,
    in the order of the records. *)
Theorem android_read_outcomes (env : Android.Env)
    (options : list (string * string)) (identifier sd ed : string)
    (recordType : Android.RecordClass) :
  Android.isHealthConnectAvailable env = true ->
  lookup "identifier" options = Some identifier ->
  lookup "startDate" options = Some sd ->
  lookup "endDate" options = Some ed ->
  lookup identifier Android.recordTypeMap = Some recordType ->
  (forall m, Android.Instant_parse env sd = Android.Throws m ->
     Android.getHealthData env options
     = ([], failure "query_error"
              ("Failed to fetch data: " ++ Android.template m)))
  /\ (forall startTime m,
        Android.Instant_parse env sd = Android.Ok startTime ->
        Android.Instant_parse env ed = Android.Throws m ->
        Android.getHealthData env options
        = ([], failure "query_error"
                 ("Failed to fetch data: " ++ Android.template m)))
  /\ (forall startTime endTime m,
        Android.Instant_parse env sd = Android.Ok startTime ->
        Android.Instant_parse env ed = Android.Ok endTime ->
        Android.readRecords env recordType startTime endTime
        = Android.Throws m ->
        Android.getHealthData env options
        = ([Android.ReadRecordsRequest recordType startTime endTime],
           failure "query_error"
             ("Failed to fetch data: " ++ Android.template m)))
  /\ (forall startTime endTime records,
        Android.Instant_parse env sd = Android.Ok startTime ->
        Android.Instant_parse env ed = Android.Ok endTime ->
        Android.readRecords env recordType startTime endTime
        = Android.Ok records ->
        Android.getHealthData env options
        = ([Android.ReadRecordsRequest recordType startTime endTime],
           mkResult true
             (map (Android.formatRecordToStandardFormat env) records) None)
        /\ List.length (data (snd (Android.getHealthData env options)))
           = List.length records).
Proof.
  intros Hav Hid Hsd Hed Hcls. unfold Android.getHealthData.
  rewrite Hid, Hsd, Hed, Hav, Hcls. cbn [negb].
  split; [|split; [|split]].
  - now intros m ->.
  - now intros startTime m -> ->.
  - now intros startTime endTime m -> -> ->.
  - intros startTime endTime records -> -> ->.
    split; [reflexivity|]. simpl. apply length_map.
Qed.

Lemma android_read_outcomes_witness :
  Android.isHealthConnectAvailable (Stub.android_env true) = true
  /\ lookup "Steps" Android.recordTypeMap = Some Android.Steps
  /\ Android.Instant_parse (Stub.android_env true) "yesterday"
     = Android.Throws (Some "Text could not be parsed")
  /\ Android.getHealthData (Stub.android_env true)
       [("identifier", "Steps"); ("startDate", "yesterday");
        ("endDate", "2024-01-31T23:59:59Z")]
     = ([], failure "query_error"
              "Failed to fetch data: Text could not be parsed").
Proof.
  split; [reflexivity|]. split; [reflexivity|]. split; [reflexivity|].
  exact (proj1 (android_read_outcomes (Stub.android_env true)
                  [("identifier", "Steps"); ("startDate", "yesterday");
                   ("endDate", "2024-01-31T23:59:59Z")]
                  "Steps" "yesterday" "2024-01-31T23:59:59Z" Android.Steps
                  eq_refl eq_refl eq_refl eq_refl eq_refl)
           (Some "Text could not be parsed") eq_refl).
Defined.

(** X7.  An executed iOS read is all or nothing.  An error of the store
    becomes the query-error failure with the store's description, whatever
    samples came with it; otherwise the read succeeds, and its data is
    either empty or has one sample for each sample the store delivered. *)
Theorem ios_read_all_or_nothing (env : IOS.Env) (iOS16 : bool)
    (options : Dict) (query : IOS.HKSampleQuery) :
  fst (IOS.getHealthData env iOS16 options) = [query] ->
  (forall e, IOS.query_error (IOS.execute env query) = Some e ->
             snd (IOS.getHealthData env iOS16 options)
             = failure "query_error" e)
  /\ (IOS.query_error (IOS.execute env query) = None ->
      success (snd (IOS.getHealthData env iOS16 options)) = true
      /\ (data (snd (IOS.getHealthData env iOS16 options)) = []
          \/ exists delivered,
               IOS.samples (IOS.execute env query) = Some delivered
               /\ List.length
                    (data (snd (IOS.getHealthData env iOS16 options)))
                  = List.length delivered)).
Proof.
  unfold IOS.getHealthData.
  destruct (IOS.isEmpty _ || IOS.isEmpty _ || IOS.isEmpty _);
    [discriminate|].
  destruct (IOS.isoFormatter_date env _); [|discriminate].
  destruct (IOS.isoFormatter_date env _); [|discriminate].
  destruct (Swift.contains IOS.quantityTypeIdentifiers _
            && IOS.quantityType_forIdentifier env _).
  { destruct (IOS.getUnit _); [|discriminate].
    cbn [fst snd]. intros [= <-]. apply handle_outcomes. }
  destruct (Swift.contains IOS.categoryTypeIdentifiers _
            && IOS.categoryType_forIdentifier env _).
  { cbn [fst snd]. intros [= <-]. apply handle_outcomes. }
  destruct (Swift.equal _ IOS.workoutType_identifier); [|discriminate].
  cbn [fst snd]. intros [= <-]. apply handle_outcomes.
Qed.

Lemma ios_read_all_or_nothing_witness :
  fst (IOS.getHealthData Stub.ios_env true
         (Stub.native_options "HKQuantityTypeIdentifierStepCount"))
  = [IOS.mkQuery "HKQuantityTypeIdentifierStepCount" 0%Z 0%Z]
  /\ IOS.query_error
       (IOS.execute Stub.ios_env
          (IOS.mkQuery "HKQuantityTypeIdentifierStepCount" 0%Z 0%Z)) = None
  /\ success
       (snd (IOS.getHealthData Stub.ios_env true
               (Stub.native_options "HKQuantityTypeIdentifierStepCount")))
     = true.
Proof.
  assert (Hq : fst (IOS.getHealthData Stub.ios_env true
                      (Stub.native_options
                         "HKQuantityTypeIdentifierStepCount"))
               = [IOS.mkQuery "HKQuantityTypeIdentifierStepCount" 0%Z 0%Z])
    by (vm_compute; reflexivity).
  split; [exact Hq|]. split; [reflexivity|].
  exact (proj1 (proj2 (ios_read_all_or_nothing Stub.ios_env true _ _ Hq)
                  eq_refl)).
Defined.

(** X8.  The internal-error failure of the iOS module is never produced:
    every identifier of the quantity list has a unit.  And an identifier of
    the quantity or of the category list for which the system has no type
    is answered like an identifier outside the lists, with the
    unsupported-identifier failure and without a read. *)
Theorem ios_no_internal_error :
  (forall (env : IOS.Env) (iOS16 : bool) (options : Dict),
      ~ has_error_code (snd (IOS.getHealthData env iOS16 options))
          "internal_error")
  /\ (forall (env : IOS.Env) (iOS16 : bool) (options : Dict)
             (identifier sd ed : string) (start end_ : IOS.Date),
        lookup "identifier" options = Some (AString identifier) ->
        lookup "startDate" options = Some (AString sd) ->
        lookup "endDate" options = Some (AString ed) ->
        sd <> "" -> ed <> "" ->
        IOS.isoFormatter_date env sd = Some start ->
        IOS.isoFormatter_date env ed = Some end_ ->
        (In identifier IOS.quantityTypeIdentifiers
         /\ IOS.quantityType_forIdentifier env identifier = false)
        \/ (In identifier IOS.categoryTypeIdentifiers
            /\ IOS.categoryType_forIdentifier env identifier = false) ->
        IOS.getHealthData env iOS16 options
        = ([], failure "unsupported_identifier" "Identifier not supported.")).
Proof.
  split.
  - intros env iOS16 options. unfold IOS.getHealthData.
    remember (IOS.string_option options "identifier") as id eqn:Eid.
    clear Eid.
    assert (Hh : forall c f,
               ~ has_error_code (IOS.handle c f) "internal_error").
    { intros c f H. apply handle_code in H. discriminate H. }
    assert (Hf : forall c m, c <> "internal_error" ->
                 ~ has_error_code (failure c m) "internal_error").
    { intros c m Hc (_ & _ & m' & He). injection He as He _.
      now apply Hc. }
    destruct (IOS.isEmpty _ || IOS.isEmpty _ || IOS.isEmpty _);
      [apply Hf; discriminate|].
    destruct (IOS.isoFormatter_date env _); [|apply Hf; discriminate].
    destruct (IOS.isoFormatter_date env _); [|apply Hf; discriminate].
    destruct (Swift.contains IOS.quantityTypeIdentifiers id) eqn:Eq.
    + destruct (quantity_contained_only id Eq) as (Hc & Hw & u & ->).
      rewrite Hc, Hw.
      destruct (IOS.quantityType_forIdentifier env id); simpl;
        [apply Hh | apply Hf; discriminate].
    + cbn [andb].
      destruct (Swift.contains IOS.categoryTypeIdentifiers id
                && IOS.categoryType_forIdentifier env id); [apply Hh|].
      destruct (Swift.equal id IOS.workoutType_identifier);
        [apply Hh | apply Hf; discriminate].
  - intros env iOS16 options identifier sd ed start end_
      Hid Hsd Hed Nsd Ned Pstart Pend Hcase.
    assert (Nid : identifier <> "").
    { intros ->. destruct Hcase as [[H _]|[H _]];
        simpl in H; intuition discriminate. }
    unfold IOS.getHealthData, IOS.string_option, IOS.isEmpty.
    rewrite Hid, Hsd, Hed. cbv beta iota zeta.
    rewrite (proj2 (String.eqb_neq _ _) Nid),
      (proj2 (String.eqb_neq _ _) Nsd), (proj2 (String.eqb_neq _ _) Ned).
    rewrite Pstart, Pend.
    destruct Hcase as [[Hin Hno]|[Hin Hno]].
    + destruct (quantity_identifier_only identifier Hin)
        as (-> & -> & -> & _).
      rewrite Hno. reflexivity.
    + simpl in Hin. destruct Hin as [<-|[]].
      rewrite Hno. reflexivity.
Qed.

Lemma ios_no_internal_error_witness :
  ( In "HKQuantityTypeIdentifierVO2Max" IOS.quantityTypeIdentifiers
    /\ IOS.quantityType_forIdentifier Stub.ios_env_without_types
         "HKQuantityTypeIdentifierVO2Max" = false )
  /\ IOS.getHealthData Stub.ios_env_without_types true
       (Stub.native_options "HKQuantityTypeIdentifierVO2Max")
     = ([], failure "unsupported_identifier" "Identifier not supported.").
Proof.
  assert (Hin : In "HKQuantityTypeIdentifierVO2Max"
                  IOS.quantityTypeIdentifiers) by listed.
  split; [split; [exact Hin|reflexivity]|].
  refine (proj2 ios_no_internal_error Stub.ios_env_without_types true
            (Stub.native_options "HKQuantityTypeIdentifierVO2Max")
            "HKQuantityTypeIdentifierVO2Max" "2024-01-01T00:00:00Z"
            "2024-01-31T23:59:59Z" 0%Z 0%Z eq_refl eq_refl eq_refl _ _ _ _
            (or_introl (conj Hin eq_refl)));
    try discriminate; vm_compute; reflexivity.
Defined.

(* ================================================================== *)
(** ** The shape of a sample *)

Lemma ios_sample_origin (env : IOS.Env) (iOS16 : bool) (options d : Dict) :
  In d (data (snd (IOS.getHealthData env iOS16 options))) ->
  (exists u h tid q, d = IOS.formatQuantitySample env u h tid q)
  \/ (exists h tid v, d = IOS.formatCategorySample env iOS16 h tid v)
  \/ (exists h a dur e dist, d = IOS.formatWorkout env h a dur e dist).
Proof.
  unfold IOS.getHealthData.
  destruct (IOS.isEmpty _ || IOS.isEmpty _ || IOS.isEmpty _);
    [simpl; contradiction|].
  destruct (IOS.isoFormatter_date env _); [|simpl; contradiction].
  destruct (IOS.isoFormatter_date env _); [|simpl; contradiction].
  destruct (Swift.contains IOS.quantityTypeIdentifiers _
            && IOS.quantityType_forIdentifier env _).
  { destruct (IOS.getUnit _) as [u|]; [|simpl; contradiction].
    cbn [snd]. intros H. apply handle_data in H as (l & x & _ & _ & Hx).
    destruct x as [h tid q| |]; try discriminate. injection Hx as <-.
    left. now exists u, h, tid, q. }
  destruct (Swift.contains IOS.categoryTypeIdentifiers _
            && IOS.categoryType_forIdentifier env _).
  { cbn [snd]. intros H. apply handle_data in H as (l & x & _ & _ & Hx).
    destruct x as [|h tid v|]; try discriminate. injection Hx as <-.
    right. left. now exists h, tid, v. }
  destruct (Swift.equal _ IOS.workoutType_identifier); [|simpl; contradiction].
  cbn [snd]. intros H. apply handle_data in H as (l & x & _ & _ & Hx).
  destruct x as [| |h a dur e dist]; try discriminate. injection Hx as <-.
  right. right. now exists h, a, dur, e, dist.
Qed.

(** X9.  Every sample of every read, on both platforms, is a dictionary
    (no field twice) that has the same eight fields: type, sourceName,
    sourceVersion, device, creationDate, startDate, endDate, metadata.  On
    iOS its creation date is its end date.  An Android sample has exactly
    these eight fields and two more, unit and value, its metadata is
    empty, and it is the formatted form of a record; the creation date of
    the formatted form of a record with a time or an interval is its end
    date, and a record with neither carries a reading of the clock of its
    own in each of its three dates. *)
Theorem samples_share_a_header :
  (forall (env : IOS.Env) (iOS16 : bool) (options d : Dict),
      In d (data (snd (IOS.getHealthData env iOS16 options))) ->
      NoDup (keys d)
      /\ (forall k,
            In k [ "type"; "sourceName"; "sourceVersion"; "device";
                   "creationDate"; "startDate"; "endDate"; "metadata" ] ->
            lookup k d <> None)
      /\ lookup "creationDate" d = lookup "endDate" d)
  /\ (forall (env : Android.Env) (options : list (string * string))
             (d : Dict),
        In d (data (snd (Android.getHealthData env options))) ->
        exists record, d = Android.formatRecordToStandardFormat env record)
  /\ (forall (env : Android.Env) (record : Android.Record_),
        let d := Android.formatRecordToStandardFormat env record in
        NoDup (keys d)
        /\ (forall k,
              lookup k d <> None
              <-> In k [ "type"; "sourceName"; "sourceVersion"; "device";
                         "creationDate"; "startDate"; "endDate"; "metadata";
                         "unit"; "value" ])
        /\ lookup "metadata" d = Some (ADict [])
        /\ (Android.timed record ->
            lookup "creationDate" d = lookup "endDate" d)
        /\ (forall now1 now2 now3,
              Android.timing record = Android.Untimed now1 now2 now3 ->
              lookup "creationDate" d
              = Some (AString (Android.formatter_format env now1))
              /\ lookup "startDate" d
                 = Some (AString (Android.formatter_format env now2))
              /\ lookup "endDate" d
                 = Some (AString (Android.formatter_format env now3)))).
Proof.
  split; [|split].
  - intros env iOS16 options d H.
    destruct (ios_sample_origin env iOS16 options d H)
      as [(u & h & tid & q & ->)
         |[(h & tid & v & ->)|(h & a & dur & e & dist & ->)]];
      (split; [|split; [|reflexivity]]);
      try (intros k Hk; simpl in Hk;
           repeat (destruct Hk as [<-|Hk];
                   [intros E; discriminate E|]);
           contradiction);
      simpl; repeat constructor; simpl; intuition discriminate.
  - intros env options d. unfold Android.getHealthData.
    split_cases; simpl; try contradiction.
    intros H. apply in_map_iff in H as (record & <- & _).
    now exists record.
  - intros env record d. subst d.
    unfold Android.formatRecordToStandardFormat, Android.timed.
    assert (Hkeys : forall (l : Dict),
               keys l
               = [ "type"; "sourceName"; "sourceVersion"; "device";
                   "creationDate"; "startDate"; "endDate"; "metadata";
                   "unit"; "value" ] ->
               forall k,
                 lookup k l <> None
                 <-> In k [ "type"; "sourceName"; "sourceVersion";
                            "device"; "creationDate"; "startDate";
                            "endDate"; "metadata"; "unit"; "value" ]).
    { intros l Hl k. rewrite <- Hl. split.
      - intros Hk. destruct (in_dec string_dec k (keys l)) as [Hin|Hout];
          [exact Hin|]. now rewrite (lookup_not_In _ _ Hout) in Hk.
      - intros Hin Hk. clear Hl. induction l as [|[k0 v0] l IH];
          [contradiction|].
        simpl in Hk. destruct (String.eqb k k0) eqn:E;
          [discriminate Hk|].
        apply String.eqb_neq in E. destruct Hin as [Hin|Hin];
          [now apply E | now apply IH]. }
    destruct (Android.timing record);
      (split; [simpl; repeat constructor; simpl; intuition discriminate|]);
      (split; [apply Hkeys; reflexivity|]);
      (split; [reflexivity|]);
      (split; [first [intros _; reflexivity | intros []]|]);
      intros now1' now2' now3' E; try discriminate E.
    injection E as <- <- <-. repeat split.
Qed.

Lemma samples_share_a_header_witness :
  In (IOS.formatQuantitySample Stub.ios_env IOS.count Stub.header
        "HKQuantityTypeIdentifierStepCount"
        (IOS.mkQuantity (fun _ => 500%Q)))
     (data (snd (IOS.getHealthData Stub.ios_env true
                   (Stub.native_options
                      "HKQuantityTypeIdentifierStepCount"))))
  /\ lookup "creationDate"
       (IOS.formatQuantitySample Stub.ios_env IOS.count Stub.header
          "HKQuantityTypeIdentifierStepCount"
          (IOS.mkQuantity (fun _ => 500%Q)))
     = lookup "endDate"
         (IOS.formatQuantitySample Stub.ios_env IOS.count Stub.header
            "HKQuantityTypeIdentifierStepCount"
            (IOS.mkQuantity (fun _ => 500%Q)))
  /\ Android.timed Stub.walk
  /\ lookup "creationDate"
       (Android.formatRecordToStandardFormat (Stub.android_env true)
          Stub.walk)
     = lookup "endDate"
         (Android.formatRecordToStandardFormat (Stub.android_env true)
            Stub.walk)
  /\ lookup "endDate"
       (Android.formatRecordToStandardFormat (Stub.android_env true)
          (Android.mkRecord (Android.OtherRecord "NutritionRecord")
             (Android.Untimed 1%Z 2%Z 3%Z)
             (Android.mkMetadata None None)))
     = Some (AString
               (Android.formatter_format (Stub.android_env true) 3%Z)).
Proof.
  assert (H : In (IOS.formatQuantitySample Stub.ios_env IOS.count
                    Stub.header "HKQuantityTypeIdentifierStepCount"
                    (IOS.mkQuantity (fun _ => 500%Q)))
                 (data (snd (IOS.getHealthData Stub.ios_env true
                               (Stub.native_options
                                  "HKQuantityTypeIdentifierStepCount")))))
    by (left; reflexivity).
  destruct samples_share_a_header as (Hios & _ & Handroid).
  split; [exact H|].
  split; [exact (proj2 (proj2 (Hios Stub.ios_env true _ _ H)))|].
  assert (Ht : Android.timed Stub.walk) by exact I.
  split; [exact Ht|].
  split;
    [exact (proj1 (proj2 (proj2 (proj2
              (Handroid (Stub.android_env true) Stub.walk)))) Ht)|].
  exact (proj2 (proj2
           (proj2 (proj2 (proj2 (proj2
              (Handroid (Stub.android_env true)
                 (Android.mkRecord (Android.OtherRecord "NutritionRecord")
                    (Android.Untimed 1%Z 2%Z 3%Z)
                    (Android.mkMetadata None None))))))
              1%Z 2%Z 3%Z eq_refl))).
Defined.

(** ** Metadata *)




(* ================================================================== *)
(** ** Authorization *)



(* ================================================================== *)
(** ** Histories of the iOS background sync *)

Lemma run_cons (env : IOS.Env) (e : IOS.Event) (h : list IOS.Event)
    (st : IOS.State) :
  IOS.run env (e :: h) st
  = (fst (IOS.run env h (fst (IOS.step env e st))),
     (snd (IOS.step env e st)
      ++ snd (IOS.run env h (fst (IOS.step env e st))))%list).
Proof.
  simpl. destruct (IOS.step env e st) as [st1 e1]. simpl.
  now destruct (IOS.run env h st1) as [st2 e2].
Qed.

Lemma run_app (env : IOS.Env) (h1 h2 : list IOS.Event) (st : IOS.State) :
  fst (IOS.run env (h1 ++ h2) st)
  = fst (IOS.run env h2 (fst (IOS.run env h1 st))).
Proof.
  revert st. induction h1 as [|e h1 IH]; intros st.
  - reflexivity.
  - rewrite <- app_comm_cons, !run_cons. cbn [fst]. apply IH.
Qed.

Lemma stops_only (l : list string) :
  filter IOS.is_register (map IOS.StoreStop l) = []
  /\ filter IOS.is_observer_start (map IOS.StoreStop l) = []
  /\ List.length (filter IOS.is_observer_stop (map IOS.StoreStop l))
     = List.length l
  /\ filter IOS.is_submit (map IOS.StoreStop l) = [].
Proof.
  induction l as [|x l (H1 & H2 & H3 & H4)]; simpl; [tauto|].
  now rewrite H1, H2, H3, H4.
Qed.

Lemma schedule_effects (st : IOS.State) :
  filter IOS.is_register (IOS.scheduleBackgroundHealthSync st) = []
  /\ filter IOS.is_observer_start (IOS.scheduleBackgroundHealthSync st) = []
  /\ filter IOS.is_observer_stop (IOS.scheduleBackgroundHealthSync st) = []
  /\ (List.length
        (filter IOS.is_submit (IOS.scheduleBackgroundHealthSync st))
      = if IOS.backgroundSyncEnabled st then 1%nat else 0%nat).
Proof.
  unfold IOS.scheduleBackgroundHealthSync.
  destruct (IOS.backgroundSyncEnabled st); simpl; repeat split.
Qed.

Ltac quiet :=
  split; [simpl; lia|];
  split; [split; [simpl; lia | intros _ _; reflexivity]|];
  split; [intros _; reflexivity | reflexivity].

Ltac scheduled H :=
  split; [rewrite H; destruct (IOS.backgroundSyncEnabled _); lia|];
  intros Hoff _; rewrite Hoff in H;
  now destruct (filter IOS.is_submit (IOS.scheduleBackgroundHealthSync _)).

(** What one event does to the state and to the system. *)
Lemma step_facts (env : IOS.Env) (e : IOS.Event) (st : IOS.State) :
  let st' := fst (IOS.step env e st) in
  let effects := snd (IOS.step env e st) in
  (* registration *)
  ( (filter IOS.is_register effects = []
     /\ IOS.backgroundTaskHandlerRegistered st'
        = IOS.backgroundTaskHandlerRegistered st)
    \/ (IOS.backgroundTaskHandlerRegistered st = false
        /\ List.length (filter IOS.is_register effects) = 1%nat
        /\ IOS.backgroundTaskHandlerRegistered st' = true) )
  (* observers *)
  /\ (List.length (IOS.observerQueries st')
      + List.length (filter IOS.is_observer_stop effects)
      = List.length (IOS.observerQueries st)
        + List.length (filter IOS.is_observer_start effects))%nat
  (* scheduling *)
  /\ ((List.length (filter IOS.is_submit effects) <= 1)%nat
      /\ (IOS.backgroundSyncEnabled st = false ->
          IOS.is_enable e = false ->
          filter IOS.is_submit effects = []))
  (* the time stamp of the last sync *)
  /\ (IOS.is_completed_refresh e = false ->
      IOS.lastSyncTimestamp st' = IOS.lastSyncTimestamp st)
  (* the enabled flag *)
  /\ IOS.backgroundSyncEnabled st'
     = IOS.last_switch [e] (IOS.backgroundSyncEnabled st).
Proof.
  destruct e as [|options| | |[sampleType failed|cancelled]]; cbv zeta.
  - (* Register *)
    unfold IOS.step, IOS.registerBackgroundTaskHandler.
    destruct (IOS.backgroundTaskHandlerRegistered st) eqn:E; simpl.
    + split; [left; now split|]. quiet.
    + split; [right; now repeat split|]. quiet.
  - (* Enable *)
    unfold IOS.step, IOS.enableBackgroundSync.
    destruct (IOS.double_option options "syncInterval"); simpl.
    + split; [left; now split|].
      split; [rewrite length_app; simpl; lia|].
      split; [split; [lia | intros _ H; discriminate H]|]. now split.
    + split; [left; now split|].
      split; [rewrite length_app; simpl; lia|].
      split; [split; [lia | intros _ H; discriminate H]|]. now split.
  - (* Status *)
    simpl. split; [left; now split|]. quiet.
  - (* Disable *)
    unfold IOS.step, IOS.disableBackgroundSync. cbn [fst snd].
    destruct (stops_only (IOS.observerQueries st)) as (H1 & H2 & H3 & H4).
    rewrite !filter_app, H1, H2, H4, !length_app, H3.
    simpl. split; [left; now split|]. quiet.
  - (* an observer fires *)
    unfold IOS.step, IOS.observerUpdate.
    destruct (schedule_effects st) as (H1 & H2 & H3 & H4).
    destruct failed; cbn [fst snd].
    + simpl. split; [left; now split|]. quiet.
    + rewrite !filter_app, H1, H2, H3. simpl.
      rewrite app_nil_r.
      split; [left; now split|]. split; [lia|].
      split; [scheduled H4|]. now split.
  - (* the refresh task *)
    unfold IOS.step, IOS.handleBackgroundRefresh.
    destruct (schedule_effects st) as (H1 & H2 & H3 & H4).
    destruct cancelled; cbn [fst snd].
    + rewrite H1, H2, H3. simpl.
      split; [left; now split|]. split; [lia|].
      split; [scheduled H4|]. now split.
    + rewrite !filter_app, H1, H2, H3. simpl.
      rewrite app_nil_r.
      split; [left; now split|]. split; [lia|].
      split; [scheduled H4|].
      split; [intros H; discriminate H | reflexivity].
Qed.

(** X12.  Over any history of calls and system events the module registers
    its background task handler with the scheduler at most once, and never
    when it was registered at the start: a repeated
    [registerBackgroundTaskHandler] succeeds without touching the
    scheduler. *)
Theorem handler_registered_at_most_once (env : IOS.Env)
    (history : list IOS.Event) (st : IOS.State) :
  (List.length (filter IOS.is_register (snd (IOS.run env history st)))
   <= 1)%nat
  /\ (IOS.backgroundTaskHandlerRegistered st = true ->
      filter IOS.is_register (snd (IOS.run env history st)) = [])
  /\ snd (IOS.registerBackgroundTaskHandler
            (fst (fst (IOS.registerBackgroundTaskHandler st))))
     = mkSyncResult true None
  /\ snd (fst (IOS.registerBackgroundTaskHandler
                 (fst (fst (IOS.registerBackgroundTaskHandler st)))))
     = [].
Proof.
  assert (H : forall h s,
             (List.length (filter IOS.is_register (snd (IOS.run env h s)))
              <= 1)%nat
             /\ (IOS.backgroundTaskHandlerRegistered s = true ->
                 filter IOS.is_register (snd (IOS.run env h s)) = [])).
  { induction h as [|e h IH]; intros s.
    - simpl. split; [lia | reflexivity].
    - rewrite run_cons. cbn [snd]. rewrite filter_app, length_app.
      destruct (IH (fst (IOS.step env e s))) as [IH1 IH2].
      destruct (step_facts env e s) as ([[F1 F2]|(F1 & F2 & F3)] & _).
      + rewrite F1. simpl. split; [exact IH1|].
        intros Hs. apply IH2. now rewrite F2.
      + rewrite F2, (IH2 F3). simpl. split; [lia|].
        intros Hs. rewrite F1 in Hs. discriminate Hs. }
  split; [apply H|]. split; [apply H|].
  unfold IOS.registerBackgroundTaskHandler.
  destruct (IOS.backgroundTaskHandlerRegistered st) eqn:E; simpl;
    rewrite ?E; split; reflexivity.
Qed.

Lemma handler_registered_at_most_once_witness :
  IOS.backgroundTaskHandlerRegistered
    (fst (IOS.run Stub.ios_env [IOS.Register] IOS.initial)) = true
  /\ filter IOS.is_register
       (snd (IOS.run Stub.ios_env [IOS.Register; IOS.Enable []]
               (fst (IOS.run Stub.ios_env [IOS.Register] IOS.initial))))
     = [].
Proof.
  assert (H : IOS.backgroundTaskHandlerRegistered
                (fst (IOS.run Stub.ios_env [IOS.Register] IOS.initial))
              = true) by reflexivity.
  split; [exact H|].
  exact (proj1 (proj2 (handler_registered_at_most_once Stub.ios_env
                         [IOS.Register; IOS.Enable []] _)) H).
Defined.

(** X13.  Refresh requests follow the enabled flag.  Over any history the
    module submits at most one refresh request to the scheduler per event.
    While the sync is disabled it submits none: not from a state where the
    sync is off, over a history without an [enableBackgroundSync], and so
    not after a [disableBackgroundSync] either, whatever came before it.
    [enableBackgroundSync] itself submits exactly one request. *)
Theorem refresh_requests_follow_the_flag (env : IOS.Env) :
  (forall (history : list IOS.Event) (st : IOS.State),
      (List.length (filter IOS.is_submit (snd (IOS.run env history st)))
       <= List.length history)%nat)
  /\ (forall (history : list IOS.Event) (st : IOS.State),
        IOS.backgroundSyncEnabled st = false ->
        filter IOS.is_enable history = [] ->
        filter IOS.is_submit (snd (IOS.run env history st)) = [])
  /\ (forall (before after : list IOS.Event) (st : IOS.State),
        filter IOS.is_enable after = [] ->
        filter IOS.is_submit
          (snd (IOS.run env after
                  (fst (IOS.run env (before ++ [IOS.Disable]) st))))
        = [])
  /\ (forall (options : Dict) (st : IOS.State),
        List.length
          (filter IOS.is_submit
             (snd (fst (IOS.enableBackgroundSync env options st))))
        = 1%nat).
Proof.
  assert (Hoff : forall history st,
             IOS.backgroundSyncEnabled st = false ->
             filter IOS.is_enable history = [] ->
             filter IOS.is_submit (snd (IOS.run env history st)) = []).
  { induction history as [|e h IH]; intros st Hst Hh.
    - reflexivity.
    - rewrite run_cons. cbn [snd]. rewrite filter_app.
      destruct (step_facts env e st) as (_ & _ & [_ F] & _ & Hflag).
      assert (He : IOS.is_enable e = false).
      { simpl in Hh. destruct (IOS.is_enable e);
          [discriminate Hh | reflexivity]. }
      rewrite (F Hst He). cbn [app]. apply IH.
      + rewrite Hflag, Hst. destruct e; try reflexivity.
        discriminate He.
      + simpl in Hh. now rewrite He in Hh. }
  split; [|split; [exact Hoff|split]].
  - induction history as [|e h IH]; intros st.
    + simpl. lia.
    + rewrite run_cons. cbn [snd]. rewrite filter_app, length_app.
      destruct (step_facts env e st) as (_ & _ & [F _] & _).
      specialize (IH (fst (IOS.step env e st))). simpl. lia.
  - intros before after st Hafter. apply Hoff; [|exact Hafter].
    rewrite run_app. reflexivity.
  - intros options st. unfold IOS.enableBackgroundSync.
    destruct (IOS.double_option options "syncInterval"); reflexivity.
Qed.

Lemma refresh_requests_follow_the_flag_witness :
  IOS.backgroundSyncEnabled IOS.initial = false
  /\ filter IOS.is_enable
       [IOS.Register; IOS.System (IOS.RefreshTask false); IOS.Disable;
        IOS.System (IOS.ObserverFires "HKWorkoutTypeIdentifier" false)]
     = []
  /\ filter IOS.is_submit
       (snd (IOS.run Stub.ios_env
               [IOS.Register; IOS.System (IOS.RefreshTask false);
                IOS.Disable;
                IOS.System (IOS.ObserverFires "HKWorkoutTypeIdentifier"
                              false)]
               IOS.initial))
     = []
  /\ List.length
       (filter IOS.is_submit
          (snd (IOS.run Stub.ios_env
                  [IOS.Enable [];
                   IOS.System (IOS.RefreshTask false)]
                  IOS.initial)))
     = 2%nat.
Proof.
  assert (H1 : IOS.backgroundSyncEnabled IOS.initial = false)
    by reflexivity.
  assert (H2 : filter IOS.is_enable
                 [IOS.Register; IOS.System (IOS.RefreshTask false);
                  IOS.Disable;
                  IOS.System (IOS.ObserverFires "HKWorkoutTypeIdentifier"
                                false)]
               = []) by reflexivity.
  split; [exact H1|]. split; [exact H2|].
  split; [|reflexivity].
  exact (proj1 (proj2 (refresh_requests_follow_the_flag Stub.ios_env))
           _ IOS.initial H1 H2).
Defined.

(** X14.  Observer queries are accounted for: over any history, the
    queries the module holds at the end, plus the ones it stopped, are the
    ones it held at the start plus the ones it started.  Each
    [enableBackgroundSync] starts ten more, also when the sync was enabled
    already, and after [disableBackgroundSync] the module holds none. *)
Theorem observer_queries_accounted (env : IOS.Env)
    (history : list IOS.Event) (st : IOS.State) :
  (List.length (IOS.observerQueries (fst (IOS.run env history st)))
   + List.length (filter IOS.is_observer_stop
                    (snd (IOS.run env history st)))
   = List.length (IOS.observerQueries st)
     + List.length (filter IOS.is_observer_start
                      (snd (IOS.run env history st))))%nat
  /\ (forall options,
        List.length
          (IOS.observerQueries
             (fst (IOS.run env (history ++ [IOS.Enable options]) st)))
        = (List.length
             (IOS.observerQueries (fst (IOS.run env history st))) + 10)%nat)
  /\ IOS.observerQueries (fst (IOS.run env (history ++ [IOS.Disable]) st))
     = [].
Proof.
  split; [|split].
  - revert st. induction history as [|e h IH]; intros st.
    + simpl. lia.
    + rewrite run_cons. cbn [fst snd].
      rewrite !filter_app, !length_app.
      destruct (step_facts env e st) as (_ & F & _).
      specialize (IH (fst (IOS.step env e st))). lia.
  - intros options. rewrite run_app. simpl.
    unfold IOS.enableBackgroundSync.
    destruct (IOS.double_option options "syncInterval"); simpl;
      now rewrite length_app.
  - rewrite run_app. reflexivity.
Qed.

(** X15.  The time stamp of the last sync changes only when the system
    runs the refresh task to completion: no call of the module and no
    observer wake-up touches it, so a module instance reports no last sync
    until then. *)
Theorem last_sync_only_by_refresh (env : IOS.Env)
    (history : list IOS.Event) (st : IOS.State) :
  existsb IOS.is_completed_refresh history = false ->
  IOS.lastSyncTimestamp (fst (IOS.run env history st))
  = IOS.lastSyncTimestamp st
  /\ lastSync (IOS.getBackgroundSyncStatus (fst (IOS.run env history st)))
     = IOS.lastSyncTimestamp st.
Proof.
  intros H.
  assert (E : IOS.lastSyncTimestamp (fst (IOS.run env history st))
              = IOS.lastSyncTimestamp st).
  { revert st. induction history as [|e h IH]; intros st.
    - reflexivity.
    - simpl in H. apply orb_false_iff in H as [He Hh].
      rewrite run_cons. cbn [fst]. rewrite (IH Hh).
      destruct (step_facts env e st) as (_ & _ & _ & F & _). now apply F. }
  split; [exact E|]. exact E.
Qed.

Lemma last_sync_only_by_refresh_witness :
  existsb IOS.is_completed_refresh
    [IOS.Register; IOS.Enable [];
     IOS.System (IOS.ObserverFires "HKQuantityTypeIdentifierStepCount" false);
     IOS.System (IOS.RefreshTask true); IOS.Disable] = false
  /\ lastSync
       (IOS.getBackgroundSyncStatus
          (fst (IOS.run Stub.ios_env
                  [IOS.Register; IOS.Enable [];
                   IOS.System
                     (IOS.ObserverFires "HKQuantityTypeIdentifierStepCount"
                        false);
                   IOS.System (IOS.RefreshTask true); IOS.Disable]
                  IOS.initial)))
     = None.
Proof.
  split; [reflexivity|].
  exact (proj2 (last_sync_only_by_refresh Stub.ios_env
                  [IOS.Register; IOS.Enable [];
                   IOS.System
                     (IOS.ObserverFires "HKQuantityTypeIdentifierStepCount"
                        false);
                   IOS.System (IOS.RefreshTask true); IOS.Disable]
                  IOS.initial eq_refl)).
Defined.

(** X16.  What [getBackgroundSyncStatus] reports as enabled after any
    history is decided by the most recent [enableBackgroundSync] or
    [disableBackgroundSync] of the history, and by the flag from before
    when the history has neither; registrations, status reads, observer
    wake-ups and refresh tasks in between do not matter. *)
Theorem enabled_follows_last_switch (env : IOS.Env)
    (history : list IOS.Event) (st : IOS.State) :
  enabled (IOS.getBackgroundSyncStatus (fst (IOS.run env history st)))
  = IOS.last_switch history (IOS.backgroundSyncEnabled st).
Proof.
  unfold IOS.getBackgroundSyncStatus. cbn [enabled].
  revert st. induction history as [|e h IH]; intros st.
  - reflexivity.
  - rewrite run_cons. cbn [fst]. rewrite IH.
    destruct (step_facts env e st) as (_ & _ & _ & _ & F). rewrite F.
    destruct e as [|options| | |b]; reflexivity.
Qed.

(* ================================================================== *)
(** ** The facade and the native module *)

(** X17.  On a platform that is neither iOS nor Android, the four
    background-sync functions of the facade make no native call, leave
    the native module's state alone and resolve with a failure that
    carries a message, the status with [enabled: false] and no last sync.
    On Android [registerBackgroundTaskHandler] makes no native call either
    and resolves with success. *)
Theorem background_sync_off_platform (St : Type) (OS : string)
    (nm : NativeModule St) (options : Dict) (st : St) :
  OS <> "ios" -> OS <> "android" ->
  Facade.registerBackgroundTaskHandler OS nm st
  = (st, mkRun [] (Resolved Facade.unsupported_sync))
  /\ Facade.enableBackgroundSync OS nm options st
     = (st, mkRun [] (Resolved Facade.unsupported_sync))
  /\ Facade.disableBackgroundSync OS nm st
     = (st, mkRun [] (Resolved Facade.unsupported_sync))
  /\ Facade.getBackgroundSyncStatus OS nm st
     = (st, mkRun []
              (Resolved (mkSyncStatus false None
                 (Some "Background sync is only available on iOS and Android."))))
  /\ sync_success Facade.unsupported_sync = false
  /\ sync_error Facade.unsupported_sync <> None
  /\ Facade.registerBackgroundTaskHandler "android" nm st
     = (st, mkRun [] (Resolved (mkSyncResult true None))).
Proof.
  intros Hios Handroid.
  destruct (neither_platform OS Hios Handroid) as [Ei Ea].
  unfold Facade.registerBackgroundTaskHandler, Facade.enableBackgroundSync,
    Facade.disableBackgroundSync, Facade.getBackgroundSyncStatus.
  rewrite Ei, Ea. repeat split. discriminate.
Qed.

Lemma background_sync_off_platform_witness :
  "web" <> "ios" /\ "web" <> "android"
  /\ Facade.enableBackgroundSync "web" (IOS.nativeModule Stub.ios_env true)
       [] IOS.initial
     = (IOS.initial, mkRun [] (Resolved Facade.unsupported_sync)).
Proof.
  assert (H1 : "web" <> "ios") by discriminate.
  assert (H2 : "web" <> "android") by discriminate.
  split; [exact H1|]. split; [exact H2|].
  exact (proj1 (proj2 (background_sync_off_platform _ "web"
                         (IOS.nativeModule Stub.ios_env true) []
                         IOS.initial H1 H2))).
Defined.

(** The request the facade forwards once validation has passed. *)
Lemma facade_forwards {St : Type} (OS : string) (nm : NativeModule St)
    (options : Facade.GetHealthDataOptions) (id sd ed : string) :
  Facade.identifier options = Some id ->
  Facade.startDate options = Some sd ->
  Facade.endDate options = Some ed ->
  id <> "" -> sd <> "" -> ed <> "" ->
  RegExp.Matches Facade.dateRegex sd ->
  RegExp.Matches Facade.dateRegex ed ->
  (OS = "ios" ->
   exists forwarded,
     Facade.getHealthData OS nm options
     = mkRun [CallGetHealthData forwarded]
         match native_getHealthData nm forwarded with
         | Resolved res => Resolved res
         | Rejected e => Resolved (Facade.createExceptionError e)
         end
     /\ lookup "identifier" forwarded
        = Some (AString (Facade.ios_identifier id))
     /\ lookup "startDate" forwarded = Some (AString sd)
     /\ lookup "endDate" forwarded = Some (AString ed)
     /\ lookup "aggregation" forwarded
        = option_map AString (Facade.aggregation options))
  /\ (OS = "android" ->
      exists forwarded,
        Facade.getHealthData OS nm options
        = mkRun [CallGetHealthData forwarded]
            (native_getHealthData nm forwarded)
        /\ lookup "identifier" forwarded
           = Some (AString (Facade.android_identifier id))
        /\ lookup "startDate" forwarded = Some (AString sd)
        /\ lookup "endDate" forwarded = Some (AString ed)
        /\ lookup "aggregation" forwarded
           = Some (AString match Facade.aggregation options with
                           | Some a => a
                           | None => "raw"
                           end)).
Proof.
  intros Hid Hsd Hed Nid Nsd Ned Msd Med.
  assert (E : Facade.getHealthData OS nm options
              = Facade.getHealthData OS nm options) by reflexivity.
  unfold Facade.getHealthData in E at 2.
  rewrite (facade_validated OS nm options id sd ed Hid Hsd Hed Nid Nsd Ned)
    in E.
  rewrite Hid, Hsd, Hed in E. cbv beta iota zeta delta [Facade.the] in E.
  rewrite (proj2 (RegExpFacts.test_Matches _ _) Msd),
    (proj2 (RegExpFacts.test_Matches _ _) Med) in E.
  cbn [negb orb] in E.
  split; intros ->; cbn [String.eqb Ascii.eqb Bool.eqb] in E;
    eexists; (split; [exact E|]); repeat split;
    destruct (Facade.aggregation options), (Facade.limit options),
      (Facade.ascending options); reflexivity.
Qed.

(** X18.  Once a request has passed the facade's validation, the facade
    makes exactly one native call.  It forwards the two dates as they are
    and the identifier translated for the platform; on iOS the aggregation
    is forwarded only when the caller gave one, on Android it is always
    forwarded and is "raw" when the caller gave none. *)
Theorem validated_request_is_forwarded (St : Type) (OS : string)
    (nm : NativeModule St) (options : Facade.GetHealthDataOptions)
    (id sd ed : string) :
  Facade.identifier options = Some id ->
  Facade.startDate options = Some sd ->
  Facade.endDate options = Some ed ->
  id <> "" -> sd <> "" -> ed <> "" ->
  RegExp.Matches Facade.dateRegex sd ->
  RegExp.Matches Facade.dateRegex ed ->
  (OS = "ios" ->
   exists forwarded,
     native_calls (Facade.getHealthData OS nm options)
     = [CallGetHealthData forwarded]
     /\ lookup "identifier" forwarded
        = Some (AString (Facade.ios_identifier id))
     /\ lookup "startDate" forwarded = Some (AString sd)
     /\ lookup "endDate" forwarded = Some (AString ed)
     /\ lookup "aggregation" forwarded
        = option_map AString (Facade.aggregation options))
  /\ (OS = "android" ->
      exists forwarded,
        native_calls (Facade.getHealthData OS nm options)
        = [CallGetHealthData forwarded]
        /\ lookup "identifier" forwarded
           = Some (AString (Facade.android_identifier id))
        /\ lookup "startDate" forwarded = Some (AString sd)
        /\ lookup "endDate" forwarded = Some (AString ed)
        /\ lookup "aggregation" forwarded
           = Some (AString match Facade.aggregation options with
                           | Some a => a
                           | None => "raw"
                           end)).
Proof.
  intros Hid Hsd Hed Nid Nsd Ned Msd Med.
  destruct (facade_forwards OS nm options id sd ed
              Hid Hsd Hed Nid Nsd Ned Msd Med) as [Hios Handroid].
  split; intros HOS.
  - destruct (Hios HOS) as (f & -> & H). now exists f.
  - destruct (Handroid HOS) as (f & -> & H). now exists f.
Qed.

Lemma validated_request_is_forwarded_witness :
  RegExp.Matches Facade.dateRegex "2024-01-01T00:00:00Z"
  /\ RegExp.Matches Facade.dateRegex "2024-01-31T23:59:59Z"
  /\ exists forwarded,
       native_calls
         (Facade.getHealthData "android"
            (Android.nativeModule (Stub.android_env true)) Stub.january)
       = [CallGetHealthData forwarded]
       /\ lookup "identifier" forwarded = Some (AString "Steps")
       /\ lookup "aggregation" forwarded = Some (AString "raw").
Proof.
  assert (M1 : RegExp.Matches Facade.dateRegex "2024-01-01T00:00:00Z")
    by (apply RegExpFacts.test_Matches; vm_compute; reflexivity).
  assert (M2 : RegExp.Matches Facade.dateRegex "2024-01-31T23:59:59Z")
    by (apply RegExpFacts.test_Matches; vm_compute; reflexivity).
  split; [exact M1|]. split; [exact M2|].
  assert (N : "stepCount" <> "" /\ "2024-01-01T00:00:00Z" <> ""
              /\ "2024-01-31T23:59:59Z" <> "")
    by (repeat split; discriminate).
  destruct N as (N1 & N2 & N3).
  destruct (proj2 (validated_request_is_forwarded _ "android"
                     (Android.nativeModule (Stub.android_env true))
                     Stub.january "stepCount" "2024-01-01T00:00:00Z"
                     "2024-01-31T23:59:59Z" eq_refl eq_refl eq_refl
                     N1 N2 N3 M1 M2) eq_refl)
    as (f & Hc & Hi & _ & _ & Ha).
  exists f. split; [exact Hc|]. split; [exact Hi | exact Ha].
Defined.

(** X19.  The facade's [getHealthData] rejects only on Android, and only
    with the rejection of the native call.  When the native call of a
    validated request rejects, the facade on iOS resolves with the
    exception failure that carries the message of the error, while on
    Android, where the native promise is returned without being awaited,
    the rejection goes through to the caller. *)
Theorem native_rejection (St : Type) (nm : NativeModule St)
    (options : Facade.GetHealthDataOptions) :
  (forall OS e,
      returned (Facade.getHealthData OS nm options) = Rejected e ->
      OS = "android"
      /\ exists forwarded, native_getHealthData nm forwarded = Rejected e)
  /\ (forall id sd ed msg,
        Facade.identifier options = Some id ->
        Facade.startDate options = Some sd ->
        Facade.endDate options = Some ed ->
        id <> "" -> sd <> "" -> ed <> "" ->
        RegExp.Matches Facade.dateRegex sd ->
        RegExp.Matches Facade.dateRegex ed ->
        (forall forwarded,
            native_getHealthData nm forwarded
            = Rejected (ErrorObject msg)) ->
        returned (Facade.getHealthData "ios" nm options)
        = Resolved (failure "exception" msg)
        /\ returned (Facade.getHealthData "android" nm options)
           = Rejected (ErrorObject msg)).
Proof.
  split.
  - intros OS e. unfold Facade.getHealthData.
    destruct (Facade.not_ _ || Facade.not_ _ || Facade.not_ _);
      [discriminate|].
    cbv zeta. destruct (negb _ || negb _); [discriminate|].
    destruct (String.eqb OS "ios").
    { cbn [returned]. destruct (native_getHealthData nm _); discriminate. }
    destruct (String.eqb_spec OS "android") as [->|]; [|discriminate].
    cbn [returned]. intros H. split; [reflexivity|]. eexists. exact H.
  - intros id sd ed msg Hid Hsd Hed Nid Nsd Ned Msd Med Hrej. split.
    + destruct (proj1 (facade_forwards "ios" nm options id sd ed
                         Hid Hsd Hed Nid Nsd Ned Msd Med) eq_refl)
        as (f & -> & _).
      cbn [returned]. now rewrite Hrej.
    + destruct (proj2 (facade_forwards "android" nm options id sd ed
                         Hid Hsd Hed Nid Nsd Ned Msd Med) eq_refl)
        as (f & -> & _).
      cbn [returned]. apply Hrej.
Qed.

Lemma native_rejection_witness :
  (forall forwarded,
      native_getHealthData Stub.rejecting forwarded
      = Rejected (ErrorObject "bridge down"))
  /\ returned (Facade.getHealthData "ios" Stub.rejecting Stub.january)
     = Resolved (failure "exception" "bridge down")
  /\ returned (Facade.getHealthData "android" Stub.rejecting Stub.january)
     = Rejected (ErrorObject "bridge down").
Proof.
  assert (Hrej : forall forwarded,
             native_getHealthData Stub.rejecting forwarded
             = Rejected (ErrorObject "bridge down"))
    by (intros forwarded; reflexivity).
  split; [exact Hrej|].
  refine (proj2 (native_rejection _ Stub.rejecting Stub.january)
            "stepCount" "2024-01-01T00:00:00Z" "2024-01-31T23:59:59Z"
            "bridge down" eq_refl eq_refl eq_refl _ _ _ _ _ Hrej);
    try discriminate;
    apply RegExpFacts.test_Matches; vm_compute; reflexivity.
Defined.

Lemma or_else_nonempty (v : Facade.JSValue) (id : string) :
  id <> "" -> Facade.or_else v id <> "".
Proof.
  intros H. destruct v as [|s| |]; simpl; try exact H.
  destruct (String.eqb_spec s ""); assumption.
Qed.

Lemma not_false_nonempty (x : option string) :
  Facade.not_ x = false -> Facade.the x <> "".
Proof.
  destruct x as [s|]; simpl; [|discriminate].
  intros H. now apply String.eqb_neq.
Qed.

Lemma ios_past_the_guard (env : IOS.Env) (iOS16 : bool) (options : Dict) :
  IOS.string_option options "identifier" <> "" ->
  IOS.string_option options "startDate" <> "" ->
  IOS.string_option options "endDate" <> "" ->
  ~ has_error_code (snd (IOS.getHealthData env iOS16 options))
      "missing_arguments".
Proof.
  intros Nid Nsd Ned. unfold IOS.getHealthData, IOS.isEmpty.
  rewrite (proj2 (String.eqb_neq _ _) Nid),
    (proj2 (String.eqb_neq _ _) Nsd), (proj2 (String.eqb_neq _ _) Ned).
  cbn [orb].
  assert (Hh : forall c f,
             ~ has_error_code (IOS.handle c f) "missing_arguments").
  { intros c f H. apply handle_code in H. discriminate H. }
  assert (Hf : forall c m, c <> "missing_arguments" ->
               ~ has_error_code (failure c m) "missing_arguments").
  { intros c m Hc (_ & _ & m' & He). injection He as He _. now apply Hc. }
  destruct (IOS.isoFormatter_date env _); [|apply Hf; discriminate].
  destruct (IOS.isoFormatter_date env _); [|apply Hf; discriminate].
  destruct (Swift.contains IOS.quantityTypeIdentifiers _
            && IOS.quantityType_forIdentifier env _).
  { destruct (IOS.getUnit _); [apply Hh | apply Hf; discriminate]. }
  destruct (Swift.contains IOS.categoryTypeIdentifiers _
            && IOS.categoryType_forIdentifier env _); [apply Hh|].
  destruct (Swift.equal _ IOS.workoutType_identifier);
    [apply Hh | apply Hf; discriminate].
Qed.

(** X20.  Behind the facade the iOS module's own missing-arguments guard
    never fires: whenever the facade calls the iOS module, the three
    strings it forwards are non-empty, so a missing-arguments failure seen
    by a caller on iOS was produced by the facade without a native call. *)
Theorem ios_guard_unreachable_through_facade (env : IOS.Env) (iOS16 : bool)
    (options : Facade.GetHealthDataOptions) (r : GetHealthDataResult) :
  returned (Facade.getHealthData "ios" (IOS.nativeModule env iOS16) options)
  = Resolved r ->
  has_error_code r "missing_arguments" ->
  native_calls
    (Facade.getHealthData "ios" (IOS.nativeModule env iOS16) options)
  = [].
Proof.
  unfold Facade.getHealthData.
  destruct (Facade.not_ (Facade.identifier options)) eqn:G1;
    [reflexivity|].
  destruct (Facade.not_ (Facade.startDate options)) eqn:G2;
    [reflexivity|].
  destruct (Facade.not_ (Facade.endDate options)) eqn:G3;
    [reflexivity|].
  cbn [orb]. cbv zeta.
  destruct (negb _ || negb _); [reflexivity|].
  cbn [String.eqb Ascii.eqb Bool.eqb returned native_calls
       native_getHealthData IOS.nativeModule].
  intros [= <-] Hcode. exfalso. revert Hcode.
  apply ios_past_the_guard.
  - unfold IOS.string_option. cbn [lookup app String.eqb Ascii.eqb Bool.eqb].
    unfold Facade.ios_identifier.
    destruct (Facade.startsWith _ "HK");
      [|apply or_else_nonempty]; now apply not_false_nonempty.
  - now apply not_false_nonempty.
  - now apply not_false_nonempty.
Qed.

Lemma ios_guard_unreachable_through_facade_witness :
  returned
    (Facade.getHealthData "ios" (IOS.nativeModule Stub.ios_env true)
       (Facade.mkOptions (Some "stepCount") None None None None None))
  = Resolved missing_arguments
  /\ has_error_code missing_arguments "missing_arguments"
  /\ native_calls
       (Facade.getHealthData "ios" (IOS.nativeModule Stub.ios_env true)
          (Facade.mkOptions (Some "stepCount") None None None None None))
     = [].
Proof.
  assert (Hc : has_error_code missing_arguments "missing_arguments")
    by (repeat split; eexists; reflexivity).
  split; [reflexivity|]. split; [exact Hc|].
  exact (ios_guard_unreachable_through_facade Stub.ios_env true
           (Facade.mkOptions (Some "stepCount") None None None None None)
           missing_arguments eq_refl Hc).
Defined.

(** X21.  A failure of a native read carries one of four codes on either
    platform: missing arguments, unsupported identifier or query error,
    and besides these Health-Connect-unavailable on Android and invalid
    date on iOS.  Android never answers with invalid date, and neither
    platform answers with internal error or exception. *)
Theorem native_error_codes :
  (forall (env : Android.Env) (options : list (string * string))
          (c : string),
      has_error_code (snd (Android.getHealthData env options)) c ->
      In c ["missing_arguments"; "health_connect_unavailable";
            "unsupported_identifier"; "query_error"])
  /\ (forall (env : IOS.Env) (iOS16 : bool) (options : Dict) (c : string),
        has_error_code (snd (IOS.getHealthData env iOS16 options)) c ->
        In c ["missing_arguments"; "invalid_date";
              "unsupported_identifier"; "query_error"]).
Proof.
  split.
  - intros env options c. unfold Android.getHealthData.
    split_cases; cbn [snd]; intros (Hs & _ & m & He);
      try discriminate Hs; injection He as <- _; simpl; tauto.
  - intros env iOS16 options c H.
    destruct (string_dec c "internal_error") as [->|Hc].
    { now apply (proj1 ios_no_internal_error) in H. }
    revert H. unfold IOS.getHealthData.
    assert (Hh : forall cpl f,
               has_error_code (IOS.handle cpl f) c ->
               In c ["missing_arguments"; "invalid_date";
                     "unsupported_identifier"; "query_error"]).
    { intros cpl f H. apply handle_code in H. subst c. simpl. tauto. }
    assert (Hf : forall c' m,
               In c' ["missing_arguments"; "invalid_date";
                      "unsupported_identifier"; "query_error"] ->
               has_error_code (failure c' m) c ->
               In c ["missing_arguments"; "invalid_date";
                     "unsupported_identifier"; "query_error"]).
    { intros c' m Hin (_ & _ & m' & He). now injection He as <- _. }
    destruct (IOS.isEmpty _ || IOS.isEmpty _ || IOS.isEmpty _);
      [apply Hf; simpl; tauto|].
    destruct (IOS.isoFormatter_date env _); [|apply Hf; simpl; tauto].
    destruct (IOS.isoFormatter_date env _); [|apply Hf; simpl; tauto].
    destruct (Swift.contains IOS.quantityTypeIdentifiers _
              && IOS.quantityType_forIdentifier env _).
    { destruct (IOS.getUnit _); [apply Hh|].
      cbn [snd]. intros (_ & _ & m' & He). injection He as He _.
      now contradiction Hc. }
    destruct (Swift.contains IOS.categoryTypeIdentifiers _
              && IOS.categoryType_forIdentifier env _); [apply Hh|].
    destruct (Swift.equal _ IOS.workoutType_identifier);
      [apply Hh | apply Hf; simpl; tauto].
Qed.

Lemma native_error_codes_witness :
  has_error_code
    (snd (IOS.getHealthData Stub.ios_env true
            [("identifier", AString "HKQuantityTypeIdentifierStepCount");
             ("startDate", AString "yesterday");
             ("endDate", AString "2024-01-31T23:59:59Z")]))
    "invalid_date"
  /\ In "invalid_date"
        ["missing_arguments"; "invalid_date"; "unsupported_identifier";
         "query_error"].
Proof.
  assert (H : has_error_code
                (snd (IOS.getHealthData Stub.ios_env true
                        [("identifier",
                          AString "HKQuantityTypeIdentifierStepCount");
                         ("startDate", AString "yesterday");
                         ("endDate", AString "2024-01-31T23:59:59Z")]))
                "invalid_date")
    by (repeat split; eexists; reflexivity).
  split; [exact H|].
  exact (proj2 native_error_codes Stub.ios_env true _ _ H).
Defined.

(* ================================================================== *)
(** ** Names of workout activity types *)

Lemma distinct_NoDup (l : list string) :
  Workout.distinct l = true -> NoDup l.
Proof.
  induction l as [|x l IH]; simpl; intros H.
  - constructor.
  - apply andb_true_iff in H as [Hx Hl]. constructor.
    + intros Hin. apply contains_In in Hin. rewrite Hin in Hx.
      discriminate Hx.
    + now apply IH.
Qed.

Lemma NoDup_map_injective {A B : Type} (f : A -> B) (l : list A) :
  NoDup (map f l) ->
  forall a b, In a l -> In b l -> f a = f b -> a = b.
Proof.
  induction l as [|x l IH]; simpl; intros Hnd a b Ha Hb Hf.
  - contradiction.
  - inversion Hnd as [|? ? Hx Hl]; subst.
    destruct Ha as [<-|Ha], Hb as [<-|Hb].
    + reflexivity.
    + exfalso. apply Hx. rewrite Hf. now apply in_map.
    + exfalso. apply Hx. rewrite <- Hf. now apply in_map.
    + now apply IH.
Qed.

(** X22.  The names of the workout activity types the extension lists are
    pairwise different, so a listed type can be told from its name; none
    of them is the name given to a type outside the list; and that name is
    one fixed text, the same for every such type whatever its raw value. *)
Theorem workout_names_distinct :
  (forall a b, In a Workout.listed -> In b Workout.listed ->
               Workout.name a = Workout.name b -> a = b)
  /\ (forall a, In a Workout.listed \/ exists raw, a = Workout.future raw)
  /\ (forall a raw, In a Workout.listed ->
                    Workout.name a <> Workout.name (Workout.future raw))
  /\ (forall raw raw',
        Workout.name (Workout.future raw)
        = Workout.name (Workout.future raw')).
Proof.
  split; [|split; [|split]].
  - apply NoDup_map_injective. apply distinct_NoDup.
    vm_compute. reflexivity.
  - intros a. destruct a;
      try (left; unfold Workout.listed; simpl; tauto).
    right. now eexists.
  - intros a raw Ha Hname.
    assert (Hin : In (Workout.name (Workout.future raw))
                    (map Workout.name Workout.listed))
      by (rewrite <- Hname; now apply in_map).
    apply contains_In in Hin. vm_compute in Hin. discriminate Hin.
  - reflexivity.
Qed.

Lemma workout_names_distinct_witness :
  In Workout.running Workout.listed
  /\ Workout.name Workout.running
     <> Workout.name (Workout.future 9999%Z).
Proof.
  assert (H : In Workout.running Workout.listed)
    by (unfold Workout.listed; simpl; tauto).
  split; [exact H|].
  exact (proj1 (proj2 (proj2 workout_names_distinct))
           Workout.running 9999%Z H).
Defined.
